(** * ColdFront: allocation and project status handling

    A shallow embedding of the status-changing views, form validators and
    project utilities of ColdFront, with the properties they satisfy.

    Conventions used throughout:
    - a database table is a finite map from primary key to row ([gmap Z row]);
      a queryset is the list of the rows it selects;
    - a calendar date is its proleptic ordinal ([Z]); a [datetime] is a date
      with the seconds elapsed in that day;
    - a Python call either returns or raises: [outcome];
    - signals, e-mails and flash messages are appended to a log of [event]s. *)

From Stdlib Require Import ZArith String Ascii List Bool Lia DecimalString.
From stdpp Require Import gmap strings list fin_maps.

Open Scope string_scope.
Open Scope Z_scope.

(** ** Python results *)

Inductive outcome (A : Type) : Type :=
  | Returned (a : A)
  | Raised (exc : string).
Arguments Returned {A} a.
Arguments Raised {A} exc.

Definition bind {A B : Type} (o : outcome A) (k : A -> outcome B) : outcome B :=
  match o with
  | Returned a => k a
  | Raised e => Raised e
  end.

Notation "'let!' x ':=' o 'in' k" := (bind o (fun x => k))
  (at level 10, x pattern, o at level 100, k at level 200).

(** ** Dates *)

Definition date := Z.

Record datetime : Type := { dt_date : date; dt_seconds : Z }.

(** [dt + relativedelta(days=n)] *)
Definition add_days (dt : datetime) (n : Z) : datetime :=
  {| dt_date := dt_date dt + n; dt_seconds := dt_seconds dt |}.

(** [datetime.date()], which is also what a [DateField] keeps of a datetime. *)
Definition date_of (dt : datetime) : date := dt_date dt.

(** ** Strings as Python uses them *)

Fixpoint split_on (sep : ascii) (s : string) : list string :=
  match s with
  | EmptyString => [EmptyString]
  | String c rest =>
      if Ascii.eqb c sep then EmptyString :: split_on sep rest
      else match split_on sep rest with
           | [] => [String c EmptyString]
           | w :: ws => String c w :: ws
           end
  end.

(** [needle in hay] for two strings *)
Fixpoint contains (needle hay : string) : bool :=
  String.prefix needle hay
  || match hay with
     | EmptyString => false
     | String _ rest => contains needle rest
     end.

(** Truth value of a string: empty is false. *)
Definition str_truthy (s : string) : bool :=
  match s with EmptyString => false | _ => true end.

(** ** project/utils/institution_utils.py *)

Module Institution.

(** The part of a project the function reads and writes. *)
Record Project : Type := {
  pi_email : string;
  institution : string
}.

Definition set_institution (p : Project) (i : string) : Project :=
  {| pi_email := pi_email p; institution := i |}.

(** A dict in insertion order. *)
Definition dict := list (string * string).

(** [d.get(k)]; the key may be [None], which no entry has. *)
Fixpoint dict_get (d : dict) (k : option string) : option string :=
  match k, d with
  | None, _ => None
  | Some _, [] => None
  | Some key, (k', v) :: rest =>
      if String.eqb k' key then Some v else dict_get rest k
  end.

(** [_, pi_email_domain = email.split("@")] under [except ValueError]. *)
Definition email_domain (email : string) : option string :=
  match split_on "@"%char email with
  | [_; domain] => Some domain
  | _ => None
  end.

(** The [for ... in institution_map.items()] loop of the else branch. *)
Fixpoint indirect_match (items : dict) (pi_email_domain : option string)
  (project : Project) : outcome (string * Project) :=
  match items with
  | [] => Returned (institution project, project)
  | (institution_email_domain, indirect_institution_match) :: rest =>
      match pi_email_domain with
      | None => Raised "TypeError"
      | Some domain =>
          if contains institution_email_domain domain
          then Returned (indirect_institution_match,
                         set_institution project indirect_institution_match)
          else indirect_match rest pi_email_domain project
      end
  end.

Definition determine_automated_institution_choice
  (project : Project) (institution_map : dict) : outcome (string * Project) :=
  let email := pi_email project in
  let pi_email_domain := email_domain email in
  let direct_institution_match := dict_get institution_map pi_email_domain in
  match direct_institution_match with
  | Some m =>
      if str_truthy m
      then Returned (m, set_institution project m)
      else indirect_match institution_map pi_email_domain project
  | None => indirect_match institution_map pi_email_domain project
  end.

End Institution.

(** ** project/utils/view_helper_utils.py: [handle_pagination]

    The heap holds the Python objects the function can reach: the caller's
    item list and the [Page] objects that [Paginator.page] creates. *)

Module Pagination.

Definition loc := Z.

Inductive obj (item : Type) : Type :=
  | ObjList (items : list item)
  | ObjPage (object_list : list item) (number : Z).
Arguments ObjList {item} items.
Arguments ObjPage {item} object_list number.

Section WithItems.

Context {item : Type}.
(** The page argument is whatever [request.GET.get("page")] gave;
    [int_of] is Python's [int(number)], [None] when it raises
    [TypeError] or [ValueError] (or the number is a fractional float). *)
Context {page_arg : Type} (int_of : page_arg -> option Z).

(** [Paginator(object_list, per_page)]: orphans 0, empty first page allowed.
    The page size is not checked when the paginator is built. *)
Record Paginator : Type := {
  object_list : loc;
  per_page : Z
}.

(** [paginator.count]: [len(object_list)] *)
Definition count (h : gmap loc (obj item)) (p : Paginator) : outcome Z :=
  match h !! object_list p with
  | Some (ObjList items) => Returned (Z.of_nat (length items))
  | _ => Raised "TypeError"
  end.

(** [paginator.num_pages]: [ceil(max(1, count) / per_page)] *)
Definition num_pages (h : gmap loc (obj item)) (p : Paginator) : outcome Z :=
  let! c := count h p in
  let hits := Z.max 1 c in
  if per_page p =? 0 then Raised "ZeroDivisionError"
  else Returned (- ((- hits) / per_page p)).

Definition validate_number (h : gmap loc (obj item)) (p : Paginator) (n : Z) : outcome Z :=
  if n <? 1 then Raised "EmptyPage"
  else
    let! np := num_pages h p in
    if n >? np then Raised "EmptyPage" else Returned n.

Definition fresh (h : gmap loc (obj item)) : loc :=
  1 + map_fold (fun l _ acc => Z.max l acc) 0 h.

(** [paginator.page(number)] for a number that is already an int:
    slices the list into a new [Page] object. *)
Definition page_int (h : gmap loc (obj item)) (p : Paginator) (n : Z)
  : outcome (loc * gmap loc (obj item)) :=
  let! number := validate_number h p n in
  let! c := count h p in
  let bottom := (number - 1) * per_page p in
  let top := bottom + per_page p in
  let top := if top >=? c then c else top in
  match h !! object_list p with
  | Some (ObjList items) =>
      let slice :=
        take (Z.to_nat (top - bottom)) (drop (Z.to_nat bottom) items) in
      let l := fresh h in
      Returned (l, <[l := ObjPage slice number]> h)
  | _ => Raised "TypeError"
  end.

(** [paginator.page(number)] *)
Definition page (h : gmap loc (obj item)) (p : Paginator) (number : page_arg)
  : outcome (loc * gmap loc (obj item)) :=
  match int_of number with
  | None => Raised "PageNotAnInteger"
  | Some n => page_int h p n
  end.

(** The function's own frame: the parameter [item_list] is a local name,
    rebound by the assignments; the value returned is [None] ([tt]). *)
Definition handle_pagination (h : gmap loc (obj item)) (page_number : page_arg)
  (item_list : loc) (items_per_page : Z) : outcome (unit * gmap loc (obj item)) :=
  let paginator := {| object_list := item_list; per_page := items_per_page |} in
  match page h paginator page_number with
  | Returned (item_list', h') => Returned (tt, h')
  | Raised exc =>
      if String.eqb exc "PageNotAnInteger" then
        let! (item_list', h') := page_int h paginator 1 in
        Returned (tt, h')
      else if String.eqb exc "EmptyPage" then
        let! np := num_pages h paginator in
        let! (item_list', h') := page_int h paginator np in
        Returned (tt, h')
      else Raised exc
  end.

End WithItems.

End Pagination.

(** ** The relational rows the views and utilities touch

    A status is identified by its name: the [...StatusChoice] lookup tables
    are reference data created by the migrations, so
    [XStatusChoice.objects.get(name=n)] is the status [n]. *)

Module Schema.

Record Project : Type := {
  p_pi : Z;
  p_title : string;
  p_status : string
}.

Record ProjectUser : Type := {
  pu_project : Z;
  pu_user : Z;
  pu_role : string;
  pu_status : string
}.

Record Allocation : Type := {
  a_project : Z;
  a_resources : list Z;
  a_status : string;
  a_start_date : option date;
  a_end_date : option date;
  a_description : string;
  a_is_locked : bool;
  a_is_changeable : bool
}.

Record AllocationUser : Type := {
  au_allocation : Z;
  au_user : Z;
  au_status : string
}.

Record AllocationAttribute : Type := {
  attr_allocation : Z;
  attr_type : string;
  attr_value : string
}.

Record AllocationChangeRequest : Type := {
  cr_allocation : Z;
  cr_status : string;
  cr_end_date_extension : Z;
  cr_justification : string;
  cr_notes : string
}.

Record AllocationAttributeChangeRequest : Type := {
  acr_change_request : Z;
  acr_attribute : Z;
  acr_new_value : string
}.

(** What a view leaves behind besides rows: signals sent, flash messages
    queued, e-mails handed to the mailer. *)
Inductive event : Type :=
  | Signal (name : string) (pks : list Z)
  | Message (level : string) (text : string)
  | Email (subject : string) (template_name : string) (allocation_pk : Z).

Record World : Type := {
  projects : gmap Z Project;
  project_users : gmap Z ProjectUser;
  allocations : gmap Z Allocation;
  allocation_users : gmap Z AllocationUser;
  attributes : gmap Z AllocationAttribute;
  change_requests : gmap Z AllocationChangeRequest;
  attribute_changes : gmap Z AllocationAttributeChangeRequest;
  log : list event
}.

Definition with_projects (w : World) (t : gmap Z Project) : World :=
  {| projects := t; project_users := project_users w;
     allocations := allocations w; allocation_users := allocation_users w;
     attributes := attributes w; change_requests := change_requests w;
     attribute_changes := attribute_changes w; log := log w |}.

Definition with_project_users (w : World) (t : gmap Z ProjectUser) : World :=
  {| projects := projects w; project_users := t;
     allocations := allocations w; allocation_users := allocation_users w;
     attributes := attributes w; change_requests := change_requests w;
     attribute_changes := attribute_changes w; log := log w |}.

Definition with_allocations (w : World) (t : gmap Z Allocation) : World :=
  {| projects := projects w; project_users := project_users w;
     allocations := t; allocation_users := allocation_users w;
     attributes := attributes w; change_requests := change_requests w;
     attribute_changes := attribute_changes w; log := log w |}.

Definition with_allocation_users (w : World) (t : gmap Z AllocationUser) : World :=
  {| projects := projects w; project_users := project_users w;
     allocations := allocations w; allocation_users := t;
     attributes := attributes w; change_requests := change_requests w;
     attribute_changes := attribute_changes w; log := log w |}.

Definition with_attributes (w : World) (t : gmap Z AllocationAttribute) : World :=
  {| projects := projects w; project_users := project_users w;
     allocations := allocations w; allocation_users := allocation_users w;
     attributes := t; change_requests := change_requests w;
     attribute_changes := attribute_changes w; log := log w |}.

Definition with_change_requests (w : World)
  (t : gmap Z AllocationChangeRequest) : World :=
  {| projects := projects w; project_users := project_users w;
     allocations := allocations w; allocation_users := allocation_users w;
     attributes := attributes w; change_requests := t;
     attribute_changes := attribute_changes w; log := log w |}.

Definition with_attribute_changes (w : World)
  (t : gmap Z AllocationAttributeChangeRequest) : World :=
  {| projects := projects w; project_users := project_users w;
     allocations := allocations w; allocation_users := allocation_users w;
     attributes := attributes w; change_requests := change_requests w;
     attribute_changes := t; log := log w |}.

(** [signal.send(...)], [messages.<level>(request, text)], mail *)
Definition emit (w : World) (e : event) : World :=
  {| projects := projects w; project_users := project_users w;
     allocations := allocations w; allocation_users := allocation_users w;
     attributes := attributes w; change_requests := change_requests w;
     attribute_changes := attribute_changes w; log := log w ++ [e] |}.

(** The same for a run of events. *)
Definition emit_all (w : World) (es : list event) : World :=
{| projects := projects w; project_users := project_users w;
   allocations := allocations w; allocation_users := allocation_users w;
   attributes := attributes w; change_requests := change_requests w;
   attribute_changes := attribute_changes w; log := log w ++ es |}.

(** The rows of a table, each once, in some order: a queryset without
    [order_by] yields its rows in an order the code does not choose. *)
Definition rows {A : Type} (t : gmap Z A) : list (Z * A) := map_to_list t.

(** The user of a request. *)
Record User : Type := {
  user_pk : Z;
  is_authenticated : bool;
  is_superuser : bool;
  is_staff : bool
}.

Inductive method : Type := GET | HEAD | POST | PUT | OPTIONS | OTHER.

(** Where a redirect points. *)
Inductive target : Type :=
  | LoginPage
  | ProjectDetail (pk : Z)
  | AllocationDetail (pk : Z)
  | AllocationRequestList
  | AllocationChangeDetail (pk : Z).

Inductive response : Type :=
  | Redirect (to : target)
  | Rendered (errors : list string)
  | BadRequest (body : string)
  | Forbidden
  | NotFound
  | MethodNotAllowed
  | Allow.

End Schema.

Import Schema.

(** A view runs in a world and either answers or dies with an exception;
    rows saved before the exception stay saved (no request transaction). *)
Definition view (A : Type) : Type := World -> World * outcome A.

Definition ret {A : Type} (a : A) : view A := fun w => (w, Returned a).
Definition raise {A : Type} (exc : string) : view A := fun w => (w, Raised exc).
Definition vbind {A B : Type} (m : view A) (k : A -> view B) : view B :=
  fun w => match m w with
           | (w', Returned a) => k a w'
           | (w', Raised e) => (w', Raised e)
           end.
Definition get_world : view World := fun w => (w, Returned w).
Definition modify (f : World -> World) : view unit := fun w => (f w, Returned tt).
Definition send (e : event) : view unit := modify (fun w => emit w e).
Definition lift_outcome {A : Type} (o : outcome A) : view A := fun w => (w, o).

Notation "'do' x <~ m ; k" := (vbind m (fun x => k))
  (at level 10, x pattern, m at level 100, k at level 200).
Notation "m ;; k" := (vbind m (fun _ => k))
  (at level 100, k at level 200, right associativity).

(** [for x in xs: body(x)] *)
Fixpoint for_each {A : Type} (xs : list A) (body : A -> view unit) : view unit :=
  match xs with
  | [] => ret tt
  | x :: rest => body x ;; for_each rest body
  end.

(** [x in names] for a list of status or action names *)
Definition name_in (x : string) (names : list string) : bool :=
  existsb (String.eqb x) names.

(** ** project/views/project_archive_project_view.py *)

Module ProjectArchiveProjectView.

Definition archived (p : Project) : Project :=
  {| p_pi := p_pi p; p_title := p_title p; p_status := "Archived" |}.

Definition expired (a : Allocation) (end_date : datetime) : Allocation :=
  {| a_project := a_project a; a_resources := a_resources a;
     a_status := "Expired";
     a_start_date := a_start_date a;
     a_end_date := Some (date_of end_date);
     a_description := a_description a;
     a_is_locked := a_is_locked a; a_is_changeable := a_is_changeable a |}.

(** What archiving is to do to one allocation row. *)
Definition archive_row (pk : Z) (now : datetime) (a : Allocation) : Allocation :=
  if bool_decide (a_project a = pk) && String.eqb (a_status a) "Active"
  then expired a now else a.

(** [project.allocation_set.filter(status__name="Active")] *)
Definition active_allocations (w : World) (pk : Z) : list (Z * Allocation) :=
  filter (fun r => bool_decide (a_project r.2 = pk)
                   && String.eqb (a_status r.2) "Active")
         (rows (allocations w)).

Definition post (now : datetime) (pk : Z) : view response :=
  do w <~ get_world;
  match projects w !! pk with
  | None => ret NotFound
  | Some project =>
      let project := archived project in
      modify (fun w => with_projects w (<[pk := project]> (projects w))) ;;
      send (Signal "project_archive" [pk]) ;;
      let end_date := now in
      for_each (active_allocations w pk) (fun r =>
        let allocation := expired r.2 end_date in
        modify (fun w =>
          with_allocations w (<[r.1 := allocation]> (allocations w)))) ;;
      ret (Redirect (ProjectDetail pk))
  end.

End ProjectArchiveProjectView.

(** ** allocation/forms.py: [AllocationUpdateForm] *)

Module AllocationUpdateForm.

(** A value of the form's data: a submitted string, or what the view
    stored under the key before binding the form. *)
Inductive raw : Type :=
  | Absent
  | Text (s : string)
  | PyNone
  | PyDateTime (dt : datetime).

(** The value under the key "status": the status whose pk it is, or why
    it is the pk of none. *)
Inductive status_key : Type :=
  | StatusNamed (name : string)
  | StatusNotANumber
  | StatusUnknown.

(** The status a key designates. *)
Definition status_of (k : status_key) : option string :=
  match k with
  | StatusNamed name => Some name
  | StatusNotANumber | StatusUnknown => None
  end.

(** The bound data. [d_status] is [StatusNotANumber] for a value that is
    no number (the empty string too) and [StatusUnknown] for a missing key
    or the number of no status. *)
Record data : Type := {
  d_status : status_key;
  d_start_date : raw;
  d_end_date : raw;
  d_description : string;
  d_is_locked : bool;
  d_is_changeable : bool
}.

Definition set_status (d : data) (s : status_key) : data :=
  {| d_status := s; d_start_date := d_start_date d;
     d_end_date := d_end_date d; d_description := d_description d;
     d_is_locked := d_is_locked d; d_is_changeable := d_is_changeable d |}.

Definition set_start_date (d : data) (v : raw) : data :=
  {| d_status := d_status d; d_start_date := v;
     d_end_date := d_end_date d; d_description := d_description d;
     d_is_locked := d_is_locked d; d_is_changeable := d_is_changeable d |}.

Definition set_end_date (d : data) (v : raw) : data :=
  {| d_status := d_status d; d_start_date := d_start_date d;
     d_end_date := v; d_description := d_description d;
     d_is_locked := d_is_locked d; d_is_changeable := d_is_changeable d |}.

(** [cleaned_data]: a key is missing ([None]) when its field failed;
    an optional date that was left empty is present with value [None]. *)
Record cleaned : Type := {
  c_status : option string;
  c_start_date : option (option date);
  c_end_date : option (option date);
  c_description : option string;
  c_is_locked : bool;
  c_is_changeable : bool
}.

(** [cleaned_data.get(key)] for a date: [None] when missing or empty. *)
Definition get_date (v : option (option date)) : option date :=
  match v with Some (Some d) => Some d | _ => None end.

Definition end_before_start : string :=
  "End date cannot be less than start date".

(** [AllocationUpdateForm.clean]: the error it raises, if any.
    A date is always true in a boolean context, [None] never. *)
Definition clean (cleaned_data : cleaned) : option string :=
  let start_date := get_date (c_start_date cleaned_data) in
  let end_date := get_date (c_end_date cleaned_data) in
  match start_date, end_date with
  | Some s, Some e => if e <? s then Some end_before_start else None
  | _, _ => None
  end.

Section Fields.

(** [DateField.to_python] on a non-empty string, and the checks of the
    description column, both outside this code base. *)
Context (parse_date : string -> option date)
        (description_ok : string -> bool).
(** [Allocation.full_clean], which a model form runs on its instance once
    the cleaned fields are written to it: the errors it raises. The model
    is declared in allocation/models.py. *)
Context (instance_errors : Allocation -> list string).

(** [DateField(required=False).clean] *)
Definition clean_date (v : raw) : option (option date) :=
  match v with
  | Absent | PyNone => Some None
  | Text s =>
      if String.eqb s EmptyString then Some None
      else match parse_date s with
           | Some d => Some (Some d)
           | None => None
           end
  | PyDateTime dt => Some (Some (date_of dt))
  end.

(** Field cleaning; a disabled field keeps the instance's value. *)
Definition clean_fields (request_user : User) (instance : Allocation)
  (d : data) : cleaned :=
  {| c_status := status_of (d_status d);
     c_start_date := clean_date (d_start_date d);
     c_end_date := clean_date (d_end_date d);
     c_description :=
       if description_ok (d_description d) then Some (d_description d)
       else None;
     c_is_locked :=
       if is_superuser request_user then d_is_locked d
       else a_is_locked instance;
     c_is_changeable :=
       if is_superuser request_user then d_is_changeable d
       else a_is_changeable instance |}.

Definition flag {A : Type} (name : string) (v : option A) : list string :=
  match v with Some _ => [] | None => [name] end.

(** What [_clean_fields] and [_clean_form] report: the failed fields, then
    the error of [clean]. *)
Definition form_errors (c : cleaned) : list string :=
  flag "status" (c_status c) ++ flag "start_date" (c_start_date c)
  ++ flag "end_date" (c_end_date c) ++ flag "description" (c_description c)
  ++ match clean c with Some e => [e] | None => [] end.

(** [construct_instance]: the instance with the cleaned fields written; a
    field that failed keeps the instance's value. *)
Definition construct_instance (c : cleaned) (instance : Allocation) : Allocation :=
  {| a_project := a_project instance;
     a_resources := a_resources instance;
     a_status := default (a_status instance) (c_status c);
     a_start_date := default (a_start_date instance) (c_start_date c);
     a_end_date := default (a_end_date instance) (c_end_date c);
     a_description := default (a_description instance) (c_description c);
     a_is_locked := c_is_locked c;
     a_is_changeable := c_is_changeable c |}.

(** [form.errors]: [form_errors], then what [_post_clean] adds, the errors
    of the model's validation of the constructed instance. *)
Definition errors (instance : Allocation) (c : cleaned) : list string :=
  form_errors c ++ instance_errors (construct_instance c instance).

Definition is_valid (instance : Allocation) (c : cleaned) : bool :=
  match errors instance c with [] => true | _ => false end.

(** [form.save()]: the constructed instance, saved. *)
Definition save (c : cleaned) (instance : Allocation) : Allocation :=
  construct_instance c instance.

End Fields.

End AllocationUpdateForm.

(** ** allocation/views.py: [AllocationDetailView] *)

Module AllocationDetailView.

Import AllocationUpdateForm.

Record request : Type := {
  user : User;
  pk : Z;
  action : option string;
  POST : data
}.

(** What the status branches of [post] decide for after the save. *)
Record followup : Type := {
  allocation_signal : option string;
  allocation_user_exclude : option (list string);
  allocation_user_signal : option string;
  email_kwargs : option (string * string)
}.

Definition no_followup : followup :=
  {| allocation_signal := None; allocation_user_exclude := None;
     allocation_user_signal := None; email_kwargs := None |}.

(** [self.object.allocationuser_set.exclude(status__name__in=names)] *)
Definition allocation_user_qs (w : World) (allocation_pk : Z)
  (names : list string) : list (Z * AllocationUser) :=
  filter (fun r => bool_decide (au_allocation r.2 = allocation_pk)
                   && negb (name_in (au_status r.2) names))
         (rows (allocation_users w)).

(** [not dirty_form_data[key]]; subscripting a [QueryDict] raises on a
    missing key. *)
Definition falsy (v : raw) : outcome bool :=
  match v with
  | Absent => Raised "MultiValueDictKeyError"
  | Text s => Returned (negb (str_truthy s))
  | PyNone => Returned true
  | PyDateTime _ => Returned false
  end.

Section View.

Context (parse_date : string -> option date)
        (description_ok : string -> bool)
        (instance_errors : Allocation -> list string)
        (ALLOCATION_DEFAULT_ALLOCATION_LENGTH : Z).
(** Permission lookups and display strings the models provide. *)
Context (user_has_perm : User -> string -> bool)
        (allocation_has_perm : World -> Z -> User -> string -> bool)
        (resource_label pi_label : World -> Z -> string).

Definition test_func (req : request) : view (option bool) :=
  do w <~ get_world;
  match allocations w !! pk req with
  | None => ret None
  | Some _ =>
      if user_has_perm (user req) "allocation.can_view_all_allocations"
      then ret (Some true)
      else ret (Some (allocation_has_perm w (pk req) (user req) "USER"))
  end.

Definition get_success_url (req : request) : target :=
  match action req with
  | Some a => if String.eqb a "auto-approve" then AllocationRequestList
              else AllocationDetail (pk req)
  | None => AllocationDetail (pk req)
  end.

(** [form_valid]: save the form, redirect to the success URL. *)
Definition form_valid (req : request) (c : cleaned) (object : Allocation)
  : view response :=
  modify (fun w =>
    with_allocations w (<[pk req := save c object]> (allocations w))) ;;
  ret (Redirect (get_success_url req)).

Definition form_invalid (object : Allocation) (c : cleaned) : view response :=
  ret (Rendered (errors instance_errors object c)).

(** [super().post]: the update view's own handling of the posted data. *)
Definition super_post (req : request) (object : Allocation) : view response :=
  let form := clean_fields parse_date description_ok (user req) object (POST req) in
  if is_valid instance_errors object form then form_valid req form object
  else form_invalid object form.

Definition activated_message (w : World) (req : request) : string :=
  "Allocation to " ++ resource_label w (pk req) ++ " has been ACTIVATED for "
  ++ pi_label w (pk req).

(** The branches on [new_status]: the dirty data, what to do after a
    valid save, and the flash message. *)
Definition on_status_change (now : datetime) (req : request)
  (action : string) (object : Allocation) (new_status : string)
  (dirty_form_data : data) : view (data * followup) :=
  if String.eqb new_status "Active" then
    let dirty_form_data :=
      match a_start_date object with
      | None => set_start_date dirty_form_data (PyDateTime now)
      | Some _ => dirty_form_data
      end in
    do reset_end <~
      (if name_in action ["approve"; "auto-approve"] then ret true
       else lift_outcome (falsy (d_end_date dirty_form_data)));
    let dirty_form_data :=
      if reset_end
      then set_end_date dirty_form_data
             (PyDateTime (add_days now ALLOCATION_DEFAULT_ALLOCATION_LENGTH))
      else dirty_form_data in
    do w <~ get_world;
    send (Message "success"
            (if negb (String.eqb action "auto-approve")
             then "Allocation Activated!"
             else activated_message w req)) ;;
    ret (dirty_form_data,
         {| allocation_signal := Some "allocation_activate";
            allocation_user_exclude :=
              Some ["Removed"; "Error"; "DeclinedEULA"; "PendingEULA"];
            allocation_user_signal := Some "allocation_activate_user";
            email_kwargs :=
              Some ("Allocation Activated", "email/allocation_activated.txt") |})
  else if name_in new_status ["Denied"; "New"; "Revoked"] then
    let dirty_form_data := set_start_date dirty_form_data PyNone in
    let dirty_form_data := set_end_date dirty_form_data PyNone in
    if name_in new_status ["Denied"; "Revoked"] then
      let email :=
        if String.eqb new_status "Denied"
        then ("Allocation Denied", "email/allocation_denied.txt")
        else ("Allocation Revoked", "email/allocation_revoked.txt") in
      send (Message "success"
              (if String.eqb new_status "Denied" then "Allocation Denied!"
               else "Allocation Revoked!")) ;;
      ret (dirty_form_data,
           {| allocation_signal := Some "allocation_disable";
              allocation_user_exclude := Some ["Removed"; "Error"];
              allocation_user_signal := Some "allocation_remove_user";
              email_kwargs := Some email |})
    else
      send (Message "success" "Allocation updated!") ;;
      ret (dirty_form_data, no_followup)
  else ret (dirty_form_data, no_followup).

Definition denied : event :=
Message "success" "You do not have permission to update the allocation".

(** The data the form is bound to when a denial changes the status: what
    [post] and the "Denied" branch make of the submitted data. *)
Definition denied_data (d : data) : data :=
set_end_date (set_start_date (set_status d (StatusNamed "Denied")) PyNone) PyNone.

(** The data the form is bound to when an approval changes the status:
    what [post] and the "Active" branch make of the submitted data. *)
Definition approved_data (now : datetime) (object : Allocation) (d : data) : data :=
let d := set_status d (StatusNamed "Active") in
let d := match a_start_date object with
         | None => set_start_date d (PyDateTime now)
         | Some _ => d
         end in
set_end_date d (PyDateTime (add_days now ALLOCATION_DEFAULT_ALLOCATION_LENGTH)).

(** The allocation users [allocation_activate_user] is sent for. *)
Definition activated_users (w : World) (allocation_pk : Z) : list (Z * AllocationUser) :=
allocation_user_qs w allocation_pk ["Removed"; "Error"; "DeclinedEULA"; "PendingEULA"].

(** The post-save actions of a valid form. *)
Definition after_save (req : request) (f : followup) : view unit :=
  match allocation_signal f with
   | Some s => send (Signal s [pk req])
   | None => ret tt
   end ;;
  do w <~ get_world;
  match allocation_user_signal f, allocation_user_exclude f with
   | Some s, Some names =>
       for_each (allocation_user_qs w (pk req) names)
                (fun r => send (Signal s [r.1]))
   | _, _ => ret tt
   end ;;
  match email_kwargs f with
  | Some (subject, template_name) =>
      send (Email subject template_name (pk req))
  | None => ret tt
  end.

Definition post (now : datetime) (req : request) : view response :=
  do w <~ get_world;
  match allocations w !! pk req with
  | None => ret NotFound
  | Some object =>
      if negb (is_superuser (user req)) then
        send (Message "success"
                "You do not have permission to update the allocation") ;;
        (* [return redirect(self.object)]: [redirect] is assigned further
           down in [post], which makes the name local to the function, and
           it is read here before any assignment. *)
        raise "UnboundLocalError"
      else
        match action req with
        | None => ret (BadRequest "Invalid request")
        | Some action =>
            if negb (name_in action ["update"; "approve"; "auto-approve"; "deny"])
            then ret (BadRequest "Invalid request")
            else
              let dirty_form_data := POST req in
              let dirty_form_data :=
                if name_in action ["approve"; "auto-approve"]
                then set_status dirty_form_data (StatusNamed "Active")
                else if String.eqb action "deny"
                then set_status dirty_form_data (StatusNamed "Denied")
                else dirty_form_data in
              let old_status := a_status object in
              match d_status dirty_form_data with
              | StatusNotANumber => raise "ValueError"
              | StatusUnknown => raise "DoesNotExist"
              | StatusNamed new_status =>
                  let status_changed := negb (String.eqb old_status new_status) in
                  if negb status_changed then super_post req object
                  else
                    do (dirty_form_data, f) <~
                      on_status_change now req action object new_status
                        dirty_form_data;
                    let form :=
                      clean_fields parse_date description_ok (user req) object
                        dirty_form_data in
                    if is_valid instance_errors object form then
                      do redirect <~ form_valid req form object;
                      after_save req f ;;
                      ret redirect
                    else form_invalid object form
              end
        end
  end.

(** A POST request to the view: [LoginRequiredMixin], then
    [UserPassesTestMixin] with [test_func], then [post]. *)
Definition dispatch (now : datetime) (req : request) : view response :=
  if negb (is_authenticated (user req)) then ret (Redirect LoginPage)
  else
    do allowed <~ test_func req;
    match allowed with
    | None => ret NotFound
    | Some false => ret Forbidden
    | Some true => post now req
    end.

End View.

End AllocationDetailView.

(** ** allocation/views.py: [AllocationRenewView] *)

Module AllocationRenewView.

(** One bound form of the review formset: the allocation user it edits
    and the submitted [user_status]. *)
Record review_form : Type := {
  rf_allocation_user : Z;
  rf_user_status : string
}.

(** [formset] is [None] when the management form is missing or broken. *)
Record request : Type := {
  user : User;
  http_method : method;
  pk : Z;
  formset : option (list review_form)
}.

Definition ALLOCATION_REVIEW_USER_CHOICES : list string :=
  ["keep_in_allocation_and_project"; "keep_in_project_only"; "remove_from_project"].

Definition renewal_requested (a : Allocation) : Allocation :=
  {| a_project := a_project a; a_resources := a_resources a;
     a_status := "Renewal Requested";
     a_start_date := a_start_date a; a_end_date := a_end_date a;
     a_description := a_description a;
     a_is_locked := a_is_locked a; a_is_changeable := a_is_changeable a |}.

Section View.

Context (ALLOCATION_ENABLE_ALLOCATION_RENEWAL : bool).
(** Properties and methods of the models: [Project.needs_review],
    [Allocation.expires_in], [Allocation.has_perm], and what
    [Allocation.remove_user] and [Project.remove_user] do to the rows. *)
Context (needs_review : World -> Z -> bool)
        (expires_in : Allocation -> Z)
        (allocation_has_perm : World -> Z -> User -> string -> bool)
        (Allocation_remove_user Project_remove_user : Z -> Z -> World -> World).

Definition test_func (req : request) : view (option bool) :=
  do w <~ get_world;
  match allocations w !! pk req with
  | None => ret None
  | Some _ =>
      if allocation_has_perm w (pk req) (user req) "MANAGER"
      then ret (Some true)
      else
        send (Message "error" "You do not have permission to renew allocation.") ;;
        ret (Some false)
  end.

(** [get_formset_queryset] *)
Definition get_formset_queryset (w : World) (req : request)
  (allocation : Allocation) : list (Z * AllocationUser) :=
  let pi_pk := p_pi <$> (projects w !! a_project allocation) in
  filter (fun r => bool_decide (au_allocation r.2 = pk req)
                   && negb (name_in (au_status r.2) ["Removed"])
                   && negb (bool_decide (Some (au_user r.2) = pi_pk))
                   && negb (bool_decide (au_user r.2 = user_pk (user req))))
         (rows (allocation_users w)).

Definition form_is_valid (qs : list (Z * AllocationUser)) (f : review_form)
  : bool :=
  bool_decide (rf_allocation_user f ∈ qs.*1)
  && name_in (rf_user_status f) ALLOCATION_REVIEW_USER_CHOICES.

Definition formset_is_valid (qs : list (Z * AllocationUser))
  (fs : option (list review_form)) : bool :=
  match fs with
  | None => false
  | Some forms => forallb (form_is_valid qs) forms
  end.

(** [AllocationReviewUserForm.save] *)
Definition AllocationReviewUserForm_save (w : World) (f : review_form)
  : view unit :=
  match allocation_users w !! rf_allocation_user f with
  | None => ret tt
  | Some au =>
      let user_status := rf_user_status f in
      let allocation := au_allocation au in
      let user := au_user au in
      if String.eqb user_status "keep_in_project_only"
      then modify (Allocation_remove_user allocation user)
      else if String.eqb user_status "remove_from_project"
      then match allocations w !! allocation with
           | Some a => modify (Project_remove_user (a_project a) user)
           | None => ret tt
           end
      else ret tt
  end.

(** [AllocationRenewView.formset_valid]; [allocation] is the object
    [post] loaded. *)
Definition formset_valid (req : request) (allocation : Allocation)
  (forms : list review_form) : view response :=
  do w <~ get_world;
  for_each forms (AllocationReviewUserForm_save w) ;;
  let redirect := Redirect (AllocationDetail (pk req)) in
  let allocation := renewal_requested allocation in
  modify (fun w =>
    with_allocations w (<[pk req := allocation]> (allocations w))) ;;
  send (Email "Allocation Renewed" "email/allocation_renewed.txt" (pk req)) ;;
  send (Message "success" "Allocation renewed successfully") ;;
  ret redirect.

(** [form.errors], by field: empty for a valid form. *)
Definition form_errors (qs : list (Z * AllocationUser)) (f : review_form)
  : list string :=
  if form_is_valid qs f then [] else ["user_status"].

(** [formset.non_form_errors()]: the missing management form. *)
Definition non_form_errors (fs : option (list review_form)) : list string :=
  match fs with
  | Some _ => []
  | None => ["ManagementForm"]
  end.

(** [messages.error(request, message)] with a list or dict of errors: the
    message storage drops a message that is empty. *)
Definition messages_error (message : list string) : view unit :=
  match message with
  | [] => ret tt
  | _ :: _ => send (Message "error" (String.concat ", " message))
  end.

(** [FormSetMixin.formset_invalid]: the non-form errors, then the errors of
    every form of the formset, the valid ones included. *)
Definition formset_invalid (qs : list (Z * AllocationUser))
  (fs : option (list review_form)) : view response :=
  let errors := form_errors qs <$> default [] fs in
  (if bool_decide (non_form_errors fs <> [])
   then messages_error (non_form_errors fs) else ret tt) ;;
  for_each errors messages_error ;;
  ret (Rendered (non_form_errors fs ++ concat errors)).

(** [post], from [AllocationInContextView] down to [ProcessFormSetView] *)
Definition post (req : request) : view response :=
  do w <~ get_world;
  match allocations w !! pk req with
  | None => ret NotFound
  | Some allocation =>
      let qs := get_formset_queryset w req allocation in
      if formset_is_valid qs (formset req)
      then formset_valid req allocation (default [] (formset req))
      else formset_invalid qs (formset req)
  end.

(** [super().dispatch]: login, [test_func], then the handler of the
    request's method. *)
Definition super_dispatch (req : request) : view response :=
  if negb (is_authenticated (user req)) then ret (Redirect LoginPage)
  else
    do allowed <~ test_func req;
    match allowed with
    | None => ret NotFound
    | Some false => ret Forbidden
    | Some true =>
        match http_method req with
        | GET | HEAD => ret (Rendered [])
        | POST | PUT => post req
        | OPTIONS => ret Allow
        | OTHER => ret MethodNotAllowed
        end
    end.

Definition dispatch (req : request) : view response :=
  do w <~ get_world;
  match allocations w !! pk req with
  | None => ret NotFound
  | Some allocation_obj =>
      if negb ALLOCATION_ENABLE_ALLOCATION_RENEWAL then
        send (Message "error"
          "Allocation renewal is disabled. Request a new allocation to this resource if you want to continue using it after the active until date.") ;;
        ret (Redirect (AllocationDetail (pk req)))
      else if negb (name_in (a_status allocation_obj) ["Active"]) then
        send (Message "error"
          ("You cannot renew a allocation with status "
           ++ a_status allocation_obj ++ ".")) ;;
        ret (Redirect (AllocationDetail (pk req)))
      else if needs_review w (a_project allocation_obj) then
        send (Message "error"
          "You cannot renew your allocation because you have to review your project first.") ;;
        ret (Redirect (ProjectDetail (a_project allocation_obj)))
      else if expires_in allocation_obj >? 60 then
        send (Message "error" "It is too soon to review your allocation.") ;;
        ret (Redirect (AllocationDetail (pk req)))
      else super_dispatch req
  end.

End View.

End AllocationRenewView.

(** ** project/utils/user_management_utils.py *)

Module UserManagement.

(** The two branches on [obj_class] around every signal of this file:
    [signal.send(sender=obj_class, ...)] when a class is given, and
    [signal.send(...)] without the positional [sender] which [Signal.send]
    requires when it is [None] (the default). *)
Definition send_signal (obj_class : option string) (name : string)
  (pks : list Z) : view unit :=
  match obj_class with
  | Some _ => send (Signal name pks)
  | None => raise "TypeError"
  end.

Definition removed_project_user (r : ProjectUser) : ProjectUser :=
  {| pu_project := pu_project r; pu_user := pu_user r;
     pu_role := pu_role r; pu_status := "Removed" |}.

Definition removed_allocation_user (r : AllocationUser) : AllocationUser :=
  {| au_allocation := au_allocation r; au_user := au_user r;
     au_status := "Removed" |}.

(** [allocation.allocationuser_set.filter(user=user_obj, status__name__in=["Active"])] *)
Definition active_allocation_users (w : World) (allocation user_obj : Z)
  : list (Z * AllocationUser) :=
  filter (fun r => bool_decide (au_allocation r.2 = allocation)
                   && bool_decide (au_user r.2 = user_obj)
                   && name_in (au_status r.2) ["Active"])
         (rows (allocation_users w)).

Definition remove_user_from_allocation (allocation user_obj : Z)
  (send_signals : bool) (obj_class : option string) : view unit :=
  do w <~ get_world;
  for_each (active_allocation_users w allocation user_obj) (fun r =>
    modify (fun w =>
      with_allocation_users w
        (<[r.1 := removed_allocation_user r.2]> (allocation_users w))) ;;
    if send_signals then send_signal obj_class "allocation_remove_user" [r.1]
    else ret tt).

(** [project_obj.projectuser_set.filter(user=user_obj)] *)
Definition project_users_of (w : World) (project user_obj : Z)
  : list (Z * ProjectUser) :=
  filter (fun r => bool_decide (pu_project r.2 = project)
                   && bool_decide (pu_user r.2 = user_obj))
         (rows (project_users w)).

(** [project_obj.allocation_set.filter(status__name__in=[...])] *)
Definition allocations_to_remove_user_from (w : World) (project : Z)
  : list (Z * Allocation) :=
  filter (fun r => bool_decide (a_project r.2 = project)
                   && name_in (a_status r.2) ["Active"; "New"; "Renewal Requested"])
         (rows (allocations w)).

(** [project_pk] and [project_obj] are the key and the fields of the
    project object passed in. *)
Definition remove_user_from_project (project_pk : Z) (project_obj : Project)
  (user_obj : Z) (send_signals : bool) (obj_class : option string) : view bool :=
  if bool_decide (p_pi project_obj = user_obj) then ret false
  else
    do w <~ get_world;
    let of_user := project_users_of w project_pk user_obj in
    if existsb (fun r => String.eqb (pu_status r.2) "Active") of_user then
      match of_user with
      | [project_user_obj] =>
          modify (fun w =>
            with_project_users w
              (<[project_user_obj.1 := removed_project_user project_user_obj.2]>
                 (project_users w))) ;;
          (if send_signals
           then send_signal obj_class "project_remove_user" [project_user_obj.1]
           else ret tt) ;;
          do w <~ get_world;
          for_each (allocations_to_remove_user_from w project_pk) (fun r =>
            remove_user_from_allocation r.1 user_obj send_signals obj_class) ;;
          ret true
      | _ => raise "MultipleObjectsReturned"
      end
    else ret false.

End UserManagement.

(** ** allocation/forms.py: [BaseAllocationUserFormSet] *)

Module BaseAllocationUserFormSet.

Inductive Action : Type := ADD | REMOVE.

(** A bound [AllocationUserForm] after its own cleaning: whether it has
    field errors, and its [cleaned_data] (a key is [None] when missing). *)
Record form : Type := {
  has_errors : bool;
  selected : option bool;
  user : option Z;
  allocation : option Z;
  status : option string
}.

Definition set_form_status (f : form) (s : string) : form :=
  {| has_errors := has_errors f; selected := selected f; user := user f;
     allocation := allocation f; status := Some s |}.

Definition pi_message : string :=
  "Cannot remove the project PI from an allocation.".

Section Clean.

Context (ALLOCATION_EULA_ENABLE : bool).
(** [user.userprofile.is_pi] and [allocation.get_eula()] *)
Context (is_pi : Z -> bool) (get_eula : Z -> option string).

(** [allocation.project.pi] *)
Definition project_pi (w : World) (allocation : Z) : outcome Z :=
  match allocations w !! allocation with
  | Some a =>
      match projects w !! a_project a with
      | Some p => Returned (p_pi p)
      | None => Raised "DoesNotExist"
      end
  | None => Raised "DoesNotExist"
  end.

(** The body of the loop for one form: the form as it leaves the
    iteration, or the error raised. *)
Definition clean_form (w : World) (action : Action) (f : form)
  : outcome form :=
  match selected f with
  | Some true =>
      match action with
      | ADD =>
          if negb ALLOCATION_EULA_ENABLE then Returned f
          else
            match user f with
            | None => Raised "AttributeError"
            | Some u =>
                if is_pi u then Returned f
                else
                  match allocation f with
                  | None => Raised "AttributeError"
                  | Some a =>
                      if match get_eula a with
                         | Some e => str_truthy e
                         | None => false
                         end
                      then Returned (set_form_status f "PendingEULA")
                      else Returned f
                  end
            end
      | REMOVE =>
          match allocation f with
          | Some a =>
              let! pi := project_pi w a in
              if bool_decide (Some pi = user f)
              then Raised "ValidationError"
              else Returned f
          | None => Raised "AttributeError"
          end
      end
  | _ => Returned f
  end.

Fixpoint clean_forms (w : World) (action : Action) (forms : list form)
  : outcome (list form) :=
  match forms with
  | [] => Returned []
  | f :: rest =>
      let! f' := clean_form w action f in
      let! rest' := clean_forms w action rest in
      Returned (f' :: rest')
  end.

(** [BaseAllocationUserFormSet.clean] *)
Definition clean (w : World) (action : Action) (forms : list form)
  : outcome (list form) :=
  if existsb has_errors forms then Returned forms
  else clean_forms w action forms.

(** [formset.non_form_errors()]: what [full_clean] keeps of a
    [ValidationError] raised by [clean]. *)
Definition non_form_errors (w : World) (action : Action) (forms : list form)
  : outcome (list string) :=
  match clean w action forms with
  | Returned _ => Returned []
  | Raised exc =>
      if String.eqb exc "ValidationError" then Returned [pi_message]
      else Raised exc
  end.

(** [formset.is_valid()] *)
Definition is_valid (w : World) (action : Action) (forms : list form)
  : outcome bool :=
  let! errs := non_form_errors w action forms in
  Returned (negb (existsb has_errors forms)
            && match errs with [] => true | _ => false end).

(** A form whose allocation resolves to a project with a PI, as the
    cleaned data of a form without field errors does. *)
Definition resolves (w : World) (f : form) : Prop :=
  exists a pi, allocation f = Some a /\ project_pi w a = Returned pi.

(** A selected form whose user is the PI of its allocation's project. *)
Definition selects_pi (w : World) (f : form) : Prop :=
  selected f = Some true
  /\ exists a pi, allocation f = Some a /\ project_pi w a = Returned pi
                  /\ user f = Some pi.

End Clean.

End BaseAllocationUserFormSet.

(** ** allocation/forms.py: [AllocationForm] *)

Module AllocationForm.

(** A resource as the form reads it; [allocation_limit] is
    [get_attribute("allocation_limit", typed=True)], [None] when the
    resource has no such attribute. *)
Record Resource : Type := {
  name : string;
  requires_payment : bool;
  allocation_limit : option Z
}.

(** [form_data] after the fields were cleaned: a key is [None] when its
    field failed (or, for the account, was left empty). *)
Record form_data : Type := {
  project : option Z;
  resource : option (Z * Resource);
  allocation_account : option string
}.

Inductive cleaned : Type :=
  | Valid (status : string)
  | Invalid (message code : string).

Definition limit_message : string :=
  "Your project is at the allocation limit allowed for this resource.".

Definition account_message : string :=
  "You need to create an account name. Create it by clicking the link under the "
  ++ String (Ascii.ascii_of_nat 34) "Allocation account"
  ++ String (Ascii.ascii_of_nat 34) " field.".

Definition counted_statuses : list string :=
  ["Active"; "New"; "Renewal Requested"; "Paid"; "Payment Pending";
   "Payment Requested"].

(** [project_obj.allocation_set.filter(resources=..., status__name__in=...).count()] *)
Definition allocation_count (w : World) (project_pk resource_pk : Z) : Z :=
  Z.of_nat (length
    (filter (fun r => bool_decide (a_project r.2 = project_pk)
                      && bool_decide (resource_pk ∈ a_resources r.2)
                      && name_in (a_status r.2) counted_statuses)
            (rows (allocations w)))).

(** [d[k]] after [k in d] *)
Fixpoint mapping_get (d : list (string * string)) (k : string) : option string :=
  match d with
  | [] => None
  | (k', v) :: rest => if String.eqb k' k then Some v else mapping_get rest k
  end.

Section Clean.

Context (ALLOCATION_ACCOUNT_ENABLED : bool)
        (ALLOCATION_ACCOUNT_MAPPING : list (string * string))
        (INVOICE_ENABLED : bool)
        (INVOICE_DEFAULT_STATUS : string).
(** The names in the [AllocationAttributeType] table. *)
Context (attribute_type_names : list string).

(** The first [if] of [clean]: does the submission lack a needed
    account name? *)
Definition needs_account_name (fd : form_data) : outcome bool :=
  if negb ALLOCATION_ACCOUNT_ENABLED then Returned false
  else
    match resource fd with
    | None => Raised "AttributeError"
    | Some (_, resource_obj) =>
        match mapping_get ALLOCATION_ACCOUNT_MAPPING (name resource_obj) with
        | None => Returned false
        | Some type_name =>
            Returned (name_in type_name attribute_type_names
                      && negb (match allocation_account fd with
                               | Some a => str_truthy a
                               | None => false
                               end))
        end
    end.

(** An integer is true in a boolean context unless it is zero. *)
Definition limit_truthy (allocation_limit : option Z) : bool :=
  match allocation_limit with
  | Some l => negb (l =? 0)
  | None => false
  end.

Definition clean (w : World) (fd : form_data) : outcome cleaned :=
  let project_obj := project fd in
  let resource_obj := resource fd in
  let! missing := needs_account_name fd in
  if missing then Returned (Invalid account_message "user_has_no_account_name")
  else
    match resource_obj with
    | None => Raised "AttributeError"
    | Some (resource_pk, resource_obj) =>
        let allocation_limit := allocation_limit resource_obj in
        let! over :=
          (if limit_truthy allocation_limit then
             match project_obj with
             | None => Raised "AttributeError"
             | Some project_pk =>
                 let allocation_count := allocation_count w project_pk resource_pk in
                 Returned (allocation_count >=? default 0 allocation_limit)
             end
           else Returned false) in
        if over then Returned (Invalid limit_message "reached_allocation_limit")
        else
          let allocation_status_name :=
            if INVOICE_ENABLED && requires_payment resource_obj
            then INVOICE_DEFAULT_STATUS else "New" in
          Returned (Valid allocation_status_name)
    end.

End Clean.

End AllocationForm.

(** ** allocation/views.py: [AllocationChangeDetailView] *)

Module AllocationChangeDetailView.

(** The values a [cleaned_data] dict holds. *)
Inductive value : Type :=
  | VNone
  | VStr (s : string)
  | VAttribute (pk : Z) (row : AllocationAttribute)
  | VChangeRequest (pk : Z)
  | VAttributeChange (pk : Z).

Definition dict := list (string * value).

(** [d.get(key)] *)
Fixpoint dict_get (d : dict) (key : string) : value :=
  match d with
  | [] => VNone
  | (k, v) :: rest => if String.eqb k key then v else dict_get rest key
  end.

(** [obj.pk] *)
Definition pk_of (v : value) : outcome Z :=
  match v with
  | VAttribute pk _ | VChangeRequest pk | VAttributeChange pk => Returned pk
  | VNone | VStr _ => Raised "AttributeError"
  end.

(** A submitted choice: left empty, a number, or anything else. *)
Inductive raw_choice : Type :=
  | ChoiceEmpty
  | ChoiceValue (z : Z)
  | ChoiceOther.

(** The submitted fields of one [AllocationAttributeChangeRequestForm]:
    the change row it edits, the attribute key, the new value ([None]
    when the field itself is rejected). *)
Record attribute_form : Type := {
  af_id : Z;
  af_allocation_attribute : Z;
  af_new_value : option string
}.

(** [formset] is [None] when the management form is missing or broken. *)
Record request : Type := {
  user : User;
  pk : Z;
  action : option string;
  end_date_extension : raw_choice;
  notes : string;
  formset : option (list attribute_form)
}.

(** A form after [is_valid()] ran. *)
Record bound_form : Type := {
  form_errors : list string;
  cleaned_data : dict
}.

Definition with_status (o : AllocationChangeRequest) (s : string)
  : AllocationChangeRequest :=
  {| cr_allocation := cr_allocation o; cr_status := s;
     cr_end_date_extension := cr_end_date_extension o;
     cr_justification := cr_justification o; cr_notes := cr_notes o |}.

Definition with_notes (o : AllocationChangeRequest) (n : string)
  : AllocationChangeRequest :=
  {| cr_allocation := cr_allocation o; cr_status := cr_status o;
     cr_end_date_extension := cr_end_date_extension o;
     cr_justification := cr_justification o; cr_notes := n |}.

Definition with_extension (o : AllocationChangeRequest) (e : Z)
  : AllocationChangeRequest :=
  {| cr_allocation := cr_allocation o; cr_status := cr_status o;
     cr_end_date_extension := e;
     cr_justification := cr_justification o; cr_notes := cr_notes o |}.

Definition with_end_date (a : Allocation) (d : option date) : Allocation :=
  {| a_project := a_project a; a_resources := a_resources a;
     a_status := a_status a; a_start_date := a_start_date a;
     a_end_date := d; a_description := a_description a;
     a_is_locked := a_is_locked a; a_is_changeable := a_is_changeable a |}.

Definition with_value (a : AllocationAttribute) (v : string)
  : AllocationAttribute :=
  {| attr_allocation := attr_allocation a; attr_type := attr_type a;
     attr_value := v |}.

Section View.

(** [ALLOCATION_CHANGE_REQUEST_EXTENSION_DAYS] *)
Context (EXTENSION_DAYS : list Z).
(** Column checks of [notes], [AllocationAttribute.clean] on an attribute
    carrying a new value, and the display strings of the models. *)
Context (notes_ok : string -> bool)
        (attribute_clean : AllocationAttribute -> option string -> bool)
        (resource_label pi_label : World -> Z -> string).

Definition EXTENSION_CHOICES : list Z := 0 :: EXTENSION_DAYS.

(** [get_form_kwargs]: is [end_date_extension] among the disabled fields? *)
Definition extension_disabled (req : request) (object : AllocationChangeRequest)
  : bool :=
  negb (String.eqb (cr_status object) "Pending")
  || (negb (is_staff (user req)) && negb (is_superuser (user req))).

(** [TypedChoiceField(coerce=int, required=False, empty_value=0).clean] *)
Definition clean_choice (v : raw_choice) : option Z :=
  match v with
  | ChoiceEmpty => Some 0
  | ChoiceValue z => if bool_decide (z ∈ EXTENSION_CHOICES) then Some z else None
  | ChoiceOther => None
  end.

(** The main form: the cleaned extension and notes, [None] on failure. *)
Definition clean_extension (req : request) (object : AllocationChangeRequest)
  : option Z :=
  clean_choice (if extension_disabled req object
                then ChoiceValue (cr_end_date_extension object)
                else end_date_extension req).

Definition clean_notes (req : request) : option string :=
  if notes_ok (notes req) then Some (notes req) else None.

Definition form_error_list (req : request) (object : AllocationChangeRequest)
  : list string :=
  (match clean_extension req object with Some _ => [] | None => ["end_date_extension"] end
   ++ match clean_notes req with Some _ => [] | None => ["notes"] end)%list.

(** [AllocationChangeRequestForm.has_changed] *)
Definition form_has_changed (req : request) (object : AllocationChangeRequest)
  : bool :=
  negb (bool_decide (clean_extension req object
                     = Some (cr_end_date_extension object))).

(** [form.save()] *)
Definition form_save (req : request) (object : AllocationChangeRequest)
  : AllocationChangeRequest :=
  with_notes
    (with_extension object
       (default (cr_end_date_extension object) (clean_extension req object)))
    (default (cr_notes object) (clean_notes req)).

(** [AllocationAttributeChangeRequestForm]: field cleaning, then [clean].
    [clean] also writes the new value into the attribute object it holds;
    the approve loop assigns the same value again before saving, so the
    object is kept here as it was loaded. *)
Definition bind_attribute_form (w : World) (change_pk : Z) (f : attribute_form)
  : outcome bound_form :=
  let id_ok :=
    match attribute_changes w !! af_id f with
    | Some row => bool_decide (acr_change_request row = change_pk)
    | None => false
    end in
  let fields : dict :=
    ([("allocation_change_request", VChangeRequest change_pk)]
     ++ match attributes w !! af_allocation_attribute f with
        | Some row => [("allocation_attribute",
                        VAttribute (af_allocation_attribute f) row)]
        | None => []
        end
     ++ match af_new_value f with
        | Some s => [("new_value", VStr s)]
        | None => []
        end
     ++ (if id_ok then [("id", VAttributeChange (af_id f))] else []))%list in
  let field_errors : list string :=
    (match attributes w !! af_allocation_attribute f with
      | Some _ => [] | None => ["allocation_attribute"] end
     ++ match af_new_value f with Some _ => [] | None => ["new_value"] end
     ++ (if id_ok then [] else ["id"]))%list in
  match dict_get fields "allocation_attribute" with
  | VAttribute apk row =>
      let new_value := af_new_value f in
      if bool_decide (Some (attr_value row) = new_value) then
        Returned {| form_errors := (field_errors ++ ["no_change_requested"])%list;
                    cleaned_data := fields |}
      else if bool_decide (new_value = Some EmptyString) then
        Returned {| form_errors := field_errors; cleaned_data := fields |}
      else if attribute_clean row new_value then
        Returned {| form_errors := field_errors; cleaned_data := fields |}
      else
        Returned {| form_errors := (field_errors ++ ["__all__"])%list;
                    cleaned_data := fields |}
  | _ => Raised "AttributeError"
  end.

Fixpoint bind_formset (w : World) (change_pk : Z) (fs : list attribute_form)
  : outcome (list bound_form) :=
  match fs with
  | [] => Returned []
  | f :: rest =>
      let! b := bind_attribute_form w change_pk f in
      let! bs := bind_formset w change_pk rest in
      Returned (b :: bs)
  end.

Definition formset_is_valid (management_ok : bool) (forms : list bound_form)
  : bool :=
  management_ok
  && forallb (fun b => match form_errors b with [] => true | _ => false end)
             forms.

(** [formset.save()]: every form writes its change row. *)
Definition formset_save (change_pk : Z) (fs : list attribute_form) : view unit :=
  for_each fs (fun f =>
    modify (fun w =>
      with_attribute_changes w
        (<[af_id f := {| acr_change_request := change_pk;
                         acr_attribute := af_allocation_attribute f;
                         acr_new_value := default EmptyString (af_new_value f) |}]>
           (attribute_changes w)))).

Definition form_invalid (errs : list string) : view response :=
  for_each errs (fun e => send (Message "error" e)) ;;
  ret (Rendered errs).

Definition formset_invalid (forms : list bound_form) : view response :=
  let errs := concat (form_errors <$> forms) in
  for_each errs (fun e => send (Message "error" e)) ;;
  ret (Rendered errs).

Definition save_object (req : request) (object : AllocationChangeRequest)
  : view unit :=
  modify (fun w =>
    with_change_requests w (<[pk req := object]> (change_requests w))).

Definition outcome_message (verb : string) (w : World)
  (object : AllocationChangeRequest) : string :=
  "Allocation change request to " ++ resource_label w (cr_allocation object)
  ++ " has been " ++ verb ++ " for " ++ pi_label w (cr_allocation object).

(** The body of [for form in formset] in the approve branch. *)
Definition apply_attribute_change (form : bound_form) : view unit :=
  let form_data := cleaned_data form in
  let allocation := dict_get form_data "allocation" in
  let allocation_attribute := dict_get form_data "allocation_attribute" in
  let new_value := dict_get form_data "new_value" in
  match allocation_attribute, new_value with
  | VAttribute apk row, VStr s =>
      modify (fun w =>
        with_attributes w (<[apk := with_value row s]> (attributes w))) ;;
      do attribute_pk <~ lift_outcome (pk_of allocation_attribute);
      do allocation_pk <~ lift_outcome (pk_of allocation);
      send (Signal "allocation_attribute_changed" [attribute_pk; allocation_pk])
  | VAttribute _ _, _ => raise "IntegrityError"
  | _, _ => raise "AttributeError"
  end.

(** [if action == "approve":] *)
Definition approve (req : request) (object : AllocationChangeRequest)
  (formset : list bound_form) : view unit :=
  let object := with_status object "Approved" in
  (if cr_end_date_extension object >? 0 then
     do w <~ get_world;
     match allocations w !! cr_allocation object with
     | None => raise "DoesNotExist"
     | Some allocation =>
         match a_end_date allocation with
         | None => raise "TypeError"
         | Some end_date =>
             let new_end_date := end_date + cr_end_date_extension object in
             modify (fun w =>
               with_allocations w
                 (<[cr_allocation object :=
                      with_end_date allocation (Some new_end_date)]>
                    (allocations w)))
         end
     end
   else ret tt) ;;
  save_object req object ;;
  for_each formset apply_attribute_change ;;
  do w <~ get_world;
  send (Message "success" (outcome_message "APPROVED" w object)) ;;
  send (Signal "allocation_change_approved" [cr_allocation object; pk req]) ;;
  send (Email "Allocation Change Approved" "email/allocation_change_approved.txt"
              (cr_allocation object)).

Definition post (req : request) : view response :=
  do w <~ get_world;
  match change_requests w !! pk req with
  | None => ret NotFound
  | Some object =>
      let redirect := Redirect (AllocationChangeDetail (pk req)) in
      if negb (is_superuser (user req)) then
        send (Message "error"
          "You do not have permission to update an allocation change request") ;;
        ret redirect
      else
        match action req with
        | None => ret (BadRequest "Invalid request")
        | Some action =>
            if negb (name_in action ["update"; "approve"; "deny"])
            then ret (BadRequest "Invalid request")
            else
              match form_error_list req object with
              | _ :: _ as errs => form_invalid errs
              | [] =>
                  if String.eqb action "deny" then
                    let object := with_status (form_save req object) "Denied" in
                    save_object req object ;;
                    send (Message "success" (outcome_message "DENIED" w object)) ;;
                    send (Email "Allocation Change Denied"
                                "email/allocation_change_denied.txt"
                                (cr_allocation object)) ;;
                    ret redirect
                  else
                    do forms <~
                      lift_outcome (bind_formset w (pk req) (default [] (formset req)));
                    let formset_valid :=
                      formset_is_valid (bool_decide (is_Some (formset req))) forms in
                    if negb formset_valid then formset_invalid forms
                    else
                      let change_requested :=
                        form_has_changed req object || (true && formset_valid) in
                      if negb change_requested then
                        send (Message "error" "You must make a change to the allocation.") ;;
                        formset_invalid forms
                      else if String.eqb action "update"
                              && negb (String.eqb (cr_status object) "Pending") then
                        save_object req (form_save req object) ;;
                        send (Message "success" "Allocation change request updated!") ;;
                        ret redirect
                      else
                        let object := form_save req object in
                        save_object req object ;;
                        formset_save (pk req) (default [] (formset req)) ;;
                        if String.eqb action "update" then
                          send (Message "success" "Allocation change request updated!") ;;
                          ret redirect
                        else
                          (if String.eqb action "approve"
                           then approve req object forms else ret tt) ;;
                          ret redirect
              end
        end
  end.

(** Permission lookups the models provide. *)
Context (user_has_perm : User -> string -> bool)
        (allocation_has_perm : World -> Z -> User -> string -> bool).

Definition test_func (req : request) : view (option bool) :=
  do w <~ get_world;
  match change_requests w !! pk req with
  | None => ret None
  | Some allocation_change_obj =>
      if user_has_perm (user req) "allocation.can_view_all_allocations"
      then ret (Some true)
      else if allocation_has_perm w (cr_allocation allocation_change_obj)
                (user req) "MANAGER"
      then ret (Some true)
      else ret (Some false)
  end.

(** A POST request to the view: [LoginRequiredMixin], then
    [UserPassesTestMixin] with [test_func], then [post]. *)
Definition dispatch (req : request) : view response :=
  if negb (is_authenticated (user req)) then ret (Redirect LoginPage)
  else
    do allowed <~ test_func req;
    match allowed with
    | None => ret NotFound
    | Some false => ret Forbidden
    | Some true => post req
    end.

End View.

End AllocationChangeDetailView.

(** ** project/utils/user_management_utils.py: adding users *)

Module UserManagementAdd.

Import UserManagement.

(** The key [objects.create] gives a new row: one past the largest key of
    the table. *)
Definition next_pk {A : Type} (t : gmap Z A) : Z :=
  1 + map_fold (fun k _ acc => Z.max k acc) 0 t.

Definition activated_project_user (r : ProjectUser) (role_choice : string)
  : ProjectUser :=
  {| pu_project := pu_project r; pu_user := pu_user r;
     pu_role := role_choice; pu_status := "Active" |}.

(** Returns the key of [project_user_obj] and [created]. *)
Definition add_user_to_project (project_pk user_obj : Z) (role_choice : string)
  (send_signals : bool) (obj_class : option string) : view (Z * bool) :=
  do w <~ get_world;
  do result <~
    match project_users_of w project_pk user_obj with
    | [] =>
        let pk := next_pk (project_users w) in
        modify (fun w =>
          with_project_users w
            (<[pk := {| pu_project := project_pk; pu_user := user_obj;
                        pu_role := role_choice; pu_status := "Active" |}]>
               (project_users w))) ;;
        ret (pk, true)
    | [project_user_obj] =>
        modify (fun w =>
          with_project_users w
            (<[project_user_obj.1 :=
                 activated_project_user project_user_obj.2 role_choice]>
               (project_users w))) ;;
        ret (project_user_obj.1, false)
    | _ => raise "MultipleObjectsReturned"
    end;
  (if send_signals
   then send_signal obj_class "project_activate_user" [result.1]
   else ret tt) ;;
  ret result.

(** [AllocationUser.objects.filter(allocation=allocation, user=user_obj)] *)
Definition allocation_users_of (w : World) (allocation user_obj : Z)
  : list (Z * AllocationUser) :=
  filter (fun r => bool_decide (au_allocation r.2 = allocation)
                   && bool_decide (au_user r.2 = user_obj))
         (rows (allocation_users w)).

Definition with_au_status (r : AllocationUser) (s : string) : AllocationUser :=
  {| au_allocation := au_allocation r; au_user := au_user r; au_status := s |}.

(** [user_status_choice] is [None] when the caller leaves it out. *)
Definition add_user_to_allocation (allocation user_obj : Z)
  (user_status_choice : option string) (send_signals_on_activate : bool)
  (obj_class : option string) : view unit :=
  let active_status_choice := "Active" in
  let user_status_choice := default active_status_choice user_status_choice in
  do w <~ get_world;
  do result <~
    match allocation_users_of w allocation user_obj with
    | [] =>
        let pk := next_pk (allocation_users w) in
        modify (fun w =>
          with_allocation_users w
            (<[pk := {| au_allocation := allocation; au_user := user_obj;
                        au_status := user_status_choice |}]>
               (allocation_users w))) ;;
        ret (pk, String.eqb user_status_choice active_status_choice)
    | [allocation_user_obj] =>
        if negb (String.eqb (au_status allocation_user_obj.2) user_status_choice)
        then
          modify (fun w =>
            with_allocation_users w
              (<[allocation_user_obj.1 :=
                   with_au_status allocation_user_obj.2 user_status_choice]>
                 (allocation_users w))) ;;
          ret (allocation_user_obj.1,
               String.eqb user_status_choice active_status_choice)
        else ret (allocation_user_obj.1, false)
    | _ => raise "MultipleObjectsReturned"
    end;
  if send_signals_on_activate && result.2
  then send_signal obj_class "allocation_activate_user" [result.1]
  else ret tt.

End UserManagementAdd.

(** ** project/utils/eula_utils.py *)

Module EulaUtils.

Section Eula.

Context (ALLOCATION_EULA_ENABLE : bool).
(** [allocation.get_eula()] *)
Context (get_eula : Z -> option string).

(** The name of the status choice returned. *)
Definition determine_eula_status_for_allocation_user (w : World)
  (allocation user_obj : Z) : outcome string :=
  let allocation_user_active_status_choice := "Active" in
  if ALLOCATION_EULA_ENABLE then
    let allocation_user_pending_status_choice := "PendingEULA" in
    let has_eula := get_eula allocation in
    if match has_eula with Some e => str_truthy e | None => false end then
      match UserManagementAdd.allocation_users_of w allocation user_obj with
      | [] => Returned allocation_user_pending_status_choice
      | [allocation_user_obj] =>
          if negb (String.eqb (au_status allocation_user_obj.2)
                     allocation_user_active_status_choice)
          then Returned allocation_user_pending_status_choice
          else Returned allocation_user_active_status_choice
      | _ => Raised "MultipleObjectsReturned"
      end
    else Returned allocation_user_active_status_choice
  else Returned allocation_user_active_status_choice.

End Eula.

End EulaUtils.

(** ** project/utils/utils.py and project/utils/view_helper_utils.py *)

Module ProjectUtils.

Definition project_is_archived (project_obj : Project) : bool :=
  negb (name_in (p_status project_obj) ["Active"; "New"]).

Section Permissions.

(** [user.has_perm(perm)] *)
Context (user_has_perm : User -> string -> bool).

(** [project_obj.projectuser_set.filter(user=user, role__name="Manager",
    status__name="Active")] *)
Definition active_manager_rows (w : World) (project_pk : Z) (user : User)
  : list (Z * ProjectUser) :=
  filter (fun r => bool_decide (pu_project r.2 = project_pk)
                   && bool_decide (pu_user r.2 = user_pk user)
                   && String.eqb (pu_role r.2) "Manager"
                   && String.eqb (pu_status r.2) "Active")
         (rows (project_users w)).

(** [project_obj.projectuser_set.filter(user=user, status__name="Active")] *)
Definition active_rows (w : World) (project_pk : Z) (user : User)
  : list (Z * ProjectUser) :=
  filter (fun r => bool_decide (pu_project r.2 = project_pk)
                   && bool_decide (pu_user r.2 = user_pk user)
                   && String.eqb (pu_status r.2) "Active")
         (rows (project_users w)).

(** [.exists()] *)
Definition exists_ {A : Type} (qs : list A) : bool :=
  match qs with [] => false | _ => true end.

Definition user_is_pi_or_manager (w : World) (user : User)
  (project_pk : Z) (project_obj : Project) : bool :=
  if is_superuser user then true
  else if bool_decide (p_pi project_obj = user_pk user) then true
  else if exists_ (active_manager_rows w project_pk user) then true
  else false.

Definition user_can_view_project (w : World) (user : User)
  (project_pk : Z) : bool :=
  if is_superuser user then true
  else if user_has_perm user "project.can_view_all_projects" then true
  else if exists_ (active_rows w project_pk user) then true
  else false.

End Permissions.

End ProjectUtils.

(** ** project/views: the dispatch of [ProjectRemoveUsersView] and
    [ProjectAddUsersView] *)

Module ProjectUsersViews.

Import ProjectUtils.

Record request : Type := {
  user : User;
  http_method : method;
  pk : Z
}.

Section View.

(** The message of the view's [dispatch], and its handlers: [get] is
    [None] for [ProjectAddUsersView], which defines [post] only. *)
Context (archived_message : string)
        (get : option (request -> view response))
        (post : request -> view response).

(** [test_func] *)
Definition test_func (req : request) : view (option bool) :=
  do w <~ get_world;
  match projects w !! pk req with
  | None => ret None
  | Some project_obj =>
      ret (Some (user_is_pi_or_manager w (user req) (pk req) project_obj))
  end.

(** [super().dispatch]: login, [test_func], then the handler of the
    request's method. *)
Definition super_dispatch (req : request) : view response :=
  if negb (is_authenticated (user req)) then ret (Redirect LoginPage)
  else
    do allowed <~ test_func req;
    match allowed with
    | None => ret NotFound
    | Some false => ret Forbidden
    | Some true =>
        match http_method req with
        | GET | HEAD =>
            match get with
            | Some handler => handler req
            | None => ret MethodNotAllowed
            end
        | POST => post req
        | OPTIONS => ret Allow
        | PUT | OTHER => ret MethodNotAllowed
        end
    end.

Definition dispatch (req : request) : view response :=
  do w <~ get_world;
  match projects w !! pk req with
  | None => ret NotFound
  | Some project_obj =>
      if project_is_archived project_obj then
        send (Message "error" archived_message) ;;
        ret (Redirect (ProjectDetail (pk req)))
      else super_dispatch req
  end.

End View.

Definition remove_archived_message : string :=
  "You cannot remove users from an archived project.".

Definition add_archived_message : string :=
  "You cannot add users to an archived project.".

End ProjectUsersViews.

(** ** project/views/project_add_users_view.py: what [post] does for one
    selected user *)

Module ProjectAddUsersView.

Section View.

Context (ALLOCATION_EULA_ENABLE : bool).
(** [allocation.get_eula()] *)
Context (get_eula : Z -> option string).

(** The body of [for allocation in allocations_selected_objs]. *)
Definition add_to_allocation (allocation user_obj : Z) : view unit :=
  do w <~ get_world;
  do user_status_choice <~
    lift_outcome
      (EulaUtils.determine_eula_status_for_allocation_user
         ALLOCATION_EULA_ENABLE get_eula w allocation user_obj);
  UserManagementAdd.add_user_to_allocation allocation user_obj
    (Some user_status_choice) true (Some "ProjectAddUsersView").

(** The body of [for form in formset] for a selected form, from the
    point where [user_obj] is known. *)
Definition add_selected_user (project_pk user_obj : Z) (role_choice : string)
  (allocations_selected_objs : list Z) : view unit :=
  UserManagementAdd.add_user_to_project project_pk user_obj role_choice true
    (Some "ProjectAddUsersView") ;;
  for_each allocations_selected_objs
    (fun allocation => add_to_allocation allocation user_obj).

End View.

End ProjectAddUsersView.

(** ** allocation/views.py: the dispatch of [AllocationUsersAddView] and
    [AllocationUsersRemoveView] *)

Module AllocationUsersViews.

Record request : Type := {
  user : User;
  http_method : method;
  pk : Z
}.

Definition locked_message : string :=
  "You cannot modify this allocation because it is locked! Contact support for details.".

Definition add_statuses : list string :=
  ["Active"; "New"; "Renewal Requested"; "Payment Pending"; "Payment Requested";
   "Paid"].

Definition remove_statuses : list string := ["Active"; "New"; "Renewal Requested"].

Definition add_status_message (status_name : string) : string :=
  "You cannot add users to an allocation with status " ++ status_name ++ ".".

Definition remove_status_message (status_name : string) : string :=
  "You cannot remove users from a allocation with status " ++ status_name ++ ".".

Definition add_permission_message : string :=
  "You do not have permission to add users to the allocation.".

Definition remove_permission_message : string :=
  "You do not have permission to remove users from allocation.".

Section View.

(** What tells the two views apart: the statuses let through and the two
    messages; then [Allocation.has_perm] and the handlers. *)
Context (statuses : list string)
        (status_message : string -> string)
        (permission_message : string)
        (allocation_has_perm : World -> Z -> User -> string -> bool)
        (get post : request -> view response).

Definition test_func (req : request) : view (option bool) :=
  do w <~ get_world;
  match allocations w !! pk req with
  | None => ret None
  | Some _ =>
      if allocation_has_perm w (pk req) (user req) "MANAGER"
      then ret (Some true)
      else
        send (Message "error" permission_message) ;;
        ret (Some false)
  end.

(** [super().dispatch]: login, [test_func], then the handler of the
    request's method. *)
Definition super_dispatch (req : request) : view response :=
  if negb (is_authenticated (user req)) then ret (Redirect LoginPage)
  else
    do allowed <~ test_func req;
    match allowed with
    | None => ret NotFound
    | Some false => ret Forbidden
    | Some true =>
        match http_method req with
        | GET | HEAD => get req
        | POST | PUT => post req
        | OPTIONS => ret Allow
        | OTHER => ret MethodNotAllowed
        end
    end.

Definition dispatch (req : request) : view response :=
  do w <~ get_world;
  match allocations w !! pk req with
  | None => ret NotFound
  | Some allocation_obj =>
      let message :=
        if a_is_locked allocation_obj && negb (is_superuser (user req))
        then Some locked_message
        else if negb (name_in (a_status allocation_obj) statuses)
        then Some (status_message (a_status allocation_obj))
        else None in
      match message with
      | Some message =>
          if str_truthy message then
            send (Message "error" message) ;;
            ret (Redirect (AllocationDetail (pk req)))
          else super_dispatch req
      | None => super_dispatch req
      end
  end.

End View.

End AllocationUsersViews.

(** ** allocation/views.py: the dispatch of [AllocationChangeView] *)

Module AllocationChangeView.

Record request : Type := {
  user : User;
  http_method : method;
  pk : Z
}.

Definition review_message : string :=
  "You cannot request a change to this allocation because you have to review your project first.".

Definition archived_message : string :=
  "You cannot request a change to an allocation in an archived project.".

Definition locked_message : string :=
  "You cannot request a change to a locked allocation.".

Definition status_message (status_name : string) : string :=
  "You cannot request a change to an allocation with status "
  ++ String (Ascii.ascii_of_nat 34) status_name
  ++ String (Ascii.ascii_of_nat 34) ".".

Section View.

(** [Project.needs_review], [Allocation.has_perm] and the handlers. *)
Context (needs_review : World -> Z -> bool)
        (allocation_has_perm : World -> Z -> User -> string -> bool)
        (get post : request -> view response).

Definition test_func (req : request) : view (option bool) :=
  do w <~ get_world;
  match allocations w !! pk req with
  | None => ret None
  | Some _ =>
      if allocation_has_perm w (pk req) (user req) "MANAGER"
      then ret (Some true)
      else
        send (Message "error"
          "You do not have permission to request changes to this allocation.") ;;
        ret (Some false)
  end.

(** [super().dispatch]: login, [test_func], then the handler of the
    request's method. *)
Definition super_dispatch (req : request) : view response :=
  if negb (is_authenticated (user req)) then ret (Redirect LoginPage)
  else
    do allowed <~ test_func req;
    match allowed with
    | None => ret NotFound
    | Some false => ret Forbidden
    | Some true =>
        match http_method req with
        | GET | HEAD => get req
        | POST | PUT => post req
        | OPTIONS => ret Allow
        | OTHER => ret MethodNotAllowed
        end
    end.

Definition dispatch (req : request) : view response :=
  do w <~ get_world;
  match allocations w !! pk req with
  | None => ret NotFound
  | Some allocation_obj =>
      let refuse (message : string) : view response :=
        send (Message "error" message) ;;
        ret (Redirect (AllocationDetail (pk req))) in
      match projects w !! a_project allocation_obj with
      | None => raise "DoesNotExist"
      | Some project =>
          if needs_review w (a_project allocation_obj) then refuse review_message
          else if negb (name_in (p_status project) ["Active"; "New"])
          then refuse archived_message
          else if a_is_locked allocation_obj then refuse locked_message
          else if negb (name_in (a_status allocation_obj)
                          ["Active"; "Renewal Requested"; "Payment Pending";
                           "Payment Requested"; "Paid"])
          then refuse (status_message (a_status allocation_obj))
          else super_dispatch req
      end
  end.

End View.

End AllocationChangeView.

(** ** project/utils/project_code_utils.py *)

Module ProjectCode.

(** [str(n)] of an integer *)
Definition str (n : Z) : string := NilZero.string_of_int (Z.to_int n).

(** ["0" * n] *)
Fixpoint zeros (n : nat) : string :=
  match n with
  | O => EmptyString
  | S n => String "0" (zeros n)
  end.

(** [s.zfill(width)]: zeros go after a leading sign. *)
Definition zfill (s : string) (width : Z) : string :=
  let len := Z.of_nat (String.length s) in
  if width <=? len then s
  else
    let fill := zeros (Z.to_nat (width - len)) in
    match s with
    | String c rest =>
        if Ascii.eqb c "+" || Ascii.eqb c "-" then String c (fill ++ rest)
        else fill ++ s
    | EmptyString => fill
    end.

(** The field of a project the functions read and write. *)
Record Project : Type := { project_code : string }.

Section Code.

(** [str.upper] *)
Context (upper : string -> string).

Definition generate_project_code (project_code : string) (project_pk : Z)
  (padding : Z) : string :=
  upper project_code ++ zfill (str project_pk) padding.

(** The settings; [None] where the setting is not there. *)
Context (PROJECT_CODE : option string) (PROJECT_CODE_PADDING : option Z).

(** Returns the project as the call leaves it, and whether [save] was
    called. *)
Definition add_project_code_if_missing (pk : Z) (project_obj : Project)
  : Project * bool :=
  match PROJECT_CODE with
  | Some code =>
      if str_truthy code && String.eqb (project_code project_obj) EmptyString
      then
        let pc_padding :=
          match PROJECT_CODE_PADDING with
          | Some p => if p =? 0 then 0 else p
          | None => 0
          end in
        ({| project_code := generate_project_code code pk pc_padding |}, true)
      else (project_obj, false)
  | None => (project_obj, false)
  end.

End Code.

End ProjectCode.

(** * Sample data *)

Module Samples.

Definition now : datetime := {| dt_date := 739000; dt_seconds := 3600 |}.

Definition project1 : Project :=
  {| p_pi := 1; p_title := "Ice cores"; p_status := "Active" |}.

Definition allocation (project : Z) (status : string)
  (start_date end_date : option date) : Allocation :=
  {| a_project := project; a_resources := [7]; a_status := status;
     a_start_date := start_date; a_end_date := end_date;
     a_description := "scratch space"; a_is_locked := false;
     a_is_changeable := true |}.

Definition empty_world : World :=
  {| projects := ∅; project_users := ∅; allocations := ∅;
     allocation_users := ∅; attributes := ∅; change_requests := ∅;
     attribute_changes := ∅; log := [] |}.

(** One project with an active, a new and a to-be-renewed allocation; the
    PI is user 1. *)
Definition world1 : World :=
  {| projects := {[ 1 := project1 ]};
     project_users :=
       {[ 1 := {| pu_project := 1; pu_user := 1; pu_role := "Manager";
                  pu_status := "Active" |};
          2 := {| pu_project := 1; pu_user := 2; pu_role := "User";
                  pu_status := "Active" |} ]};
     allocations :=
       {[ 10 := allocation 1 "Active" (Some 738900) (Some 739030);
          11 := allocation 1 "New" None None;
          12 := allocation 1 "Renewal Requested" (Some 738600) (Some 738965) ]};
     allocation_users :=
       {[ 100 := {| au_allocation := 10; au_user := 1; au_status := "Active" |};
          101 := {| au_allocation := 10; au_user := 2; au_status := "Active" |};
          102 := {| au_allocation := 12; au_user := 2; au_status := "Active" |};
          103 := {| au_allocation := 12; au_user := 3; au_status := "Removed" |} ]};
     attributes := ∅; change_requests := ∅; attribute_changes := ∅;
     log := [] |}.

Definition member : User :=
{| user_pk := 2; is_authenticated := true; is_superuser := false;
   is_staff := false |}.

Definition outsider : User :=
{| user_pk := 9; is_authenticated := true; is_superuser := false;
   is_staff := false |}.

Definition admin : User :=
{| user_pk := 8; is_authenticated := true; is_superuser := true;
   is_staff := true |}.

(** The dates the sample requests submit. *)
Definition parse_date (s : string) : option date :=
if String.eqb s "2024-02-01" then Some 738917
else if String.eqb s "2025-02-01" then Some 739283
else None.

Definition description_ok (s : string) : bool :=
Z.of_nat (String.length s) <=? 512.

(** A validation for the sample allocations: an active allocation needs a
    start date and an end date that is neither in the past nor before the
    start date. *)
Definition instance_errors (a : Allocation) : list string :=
if String.eqb (a_status a) "Active" then
  match a_start_date a, a_end_date a with
  | None, _ => ["You have to set the start date."]
  | Some _, None => ["You have to set the end date."]
  | Some s, Some e =>
      if e <? dt_date now then ["End date cannot be less than today."]
      else if e <? s then ["End date cannot be less than start date."]
      else []
  end
else [].

(** Only members of project 1 hold a permission on its allocations. *)
Definition allocation_has_perm (w : World) (pk : Z) (u : User) (perm : string)
  : bool :=
bool_decide (user_pk u ∈ [1; 2]).

Definition user_has_perm (u : User) (perm : string) : bool := is_superuser u.

Definition label (w : World) (pk : Z) : string := "cluster".

(** The update form of allocation 12 as its page shows it, with the start
    date changed to 2024-02-01. *)
Definition edited_form : AllocationUpdateForm.data :=
{| AllocationUpdateForm.d_status :=
     AllocationUpdateForm.StatusNamed "Renewal Requested";
   AllocationUpdateForm.d_start_date := AllocationUpdateForm.Text "2024-02-01";
   AllocationUpdateForm.d_end_date := AllocationUpdateForm.Text "2025-02-01";
   AllocationUpdateForm.d_description := "scratch space";
   AllocationUpdateForm.d_is_locked := false;
   AllocationUpdateForm.d_is_changeable := true |}.

Definition detail_request (u : User) (action : string)
  : AllocationDetailView.request :=
{| AllocationDetailView.user := u; AllocationDetailView.pk := 12;
   AllocationDetailView.action := Some action;
   AllocationDetailView.POST := edited_form |}.

Definition detail_dispatch :=
AllocationDetailView.dispatch parse_date description_ok instance_errors 365
  user_has_perm allocation_has_perm label label now.

Definition detail_post :=
AllocationDetailView.post parse_date description_ok instance_errors 365
  label label now.

(** Days from [now] to the end date. *)
Definition expires_in (a : Allocation) : Z :=
default 0 (a_end_date a) - dt_date now.

Definition remove_user (allocation user : Z) (w : World) : World :=
(UserManagement.remove_user_from_allocation allocation user true
   (Some "Allocation") w).1.

(** The PI reviews allocation 10 and drops user 2 from it. *)
Definition renew_request : AllocationRenewView.request :=
{| AllocationRenewView.user :=
     {| user_pk := 1; is_authenticated := true; is_superuser := false;
        is_staff := false |};
   AllocationRenewView.http_method := POST;
   AllocationRenewView.pk := 10;
   AllocationRenewView.formset :=
     Some [ {| AllocationRenewView.rf_allocation_user := 101;
               AllocationRenewView.rf_user_status := "keep_in_project_only" |} ] |}.

(** A removal formset that selects the PI (user 1) of allocation 10. *)
Definition pi_form : BaseAllocationUserFormSet.form :=
{| BaseAllocationUserFormSet.has_errors := false;
   BaseAllocationUserFormSet.selected := Some true;
   BaseAllocationUserFormSet.user := Some 1;
   BaseAllocationUserFormSet.allocation := Some 10;
   BaseAllocationUserFormSet.status := Some "Active" |}.

(** A form whose hidden user field was emptied. *)
Definition broken_form : BaseAllocationUserFormSet.form :=
{| BaseAllocationUserFormSet.has_errors := true;
   BaseAllocationUserFormSet.selected := Some false;
   BaseAllocationUserFormSet.user := None;
   BaseAllocationUserFormSet.allocation := Some 10;
   BaseAllocationUserFormSet.status := Some "Active" |}.

(** A resource that allows two allocations per project, requested for
    project 1 without an account name. *)
Definition cluster : AllocationForm.Resource :=
{| AllocationForm.name := "cluster"; AllocationForm.requires_payment := false;
   AllocationForm.allocation_limit := Some 2 |}.

Definition new_allocation : AllocationForm.form_data :=
{| AllocationForm.project := Some 1;
   AllocationForm.resource := Some (7, cluster);
   AllocationForm.allocation_account := None |}.

(** The caller's list of three projects, at address 1. *)
Definition shelf : gmap Z (Pagination.obj Z) :=
{[ 1 := Pagination.ObjList [10; 20; 30] ]}.

(** The page number of a query string; here only digits "1" to "3" parse. *)
Definition int_of (page : option string) : option Z :=
match page with
| Some "1" => Some 1
| Some "2" => Some 2
| Some "3" => Some 3
| _ => None
end.

(** A pending change request on allocation 10: thirty more days, and new
    values for two of its attributes. *)
Definition world2 : World :=
with_attribute_changes
  (with_change_requests
     (with_attributes world1
        {[ 20 := {| attr_allocation := 10; attr_type := "Core Usage (Hours)";
                    attr_value := "4000" |};
           21 := {| attr_allocation := 10; attr_type := "Storage Quota (GB)";
                    attr_value := "8" |} ]})
     {[ 5 := {| cr_allocation := 10; cr_status := "Pending";
                cr_end_date_extension := 30;
                cr_justification := "more runs"; cr_notes := "" |} ]})
  {[ 30 := {| acr_change_request := 5; acr_attribute := 20;
              acr_new_value := "8000" |};
     31 := {| acr_change_request := 5; acr_attribute := 21;
              acr_new_value := "16" |} ]}.

Definition approve_change : AllocationChangeDetailView.request :=
{| AllocationChangeDetailView.user := admin;
   AllocationChangeDetailView.pk := 5;
   AllocationChangeDetailView.action := Some "approve";
   AllocationChangeDetailView.end_date_extension :=
     AllocationChangeDetailView.ChoiceValue 30;
   AllocationChangeDetailView.notes := "fine";
   AllocationChangeDetailView.formset :=
     Some [ {| AllocationChangeDetailView.af_id := 30;
               AllocationChangeDetailView.af_allocation_attribute := 20;
               AllocationChangeDetailView.af_new_value := Some "8000" |};
            {| AllocationChangeDetailView.af_id := 31;
               AllocationChangeDetailView.af_allocation_attribute := 21;
               AllocationChangeDetailView.af_new_value := Some "16" |} ] |}.

Definition change_post :=
AllocationChangeDetailView.post [30; 60; 90] (fun _ => true) (fun _ _ => true)
  label label.

Definition change_dispatch :=
AllocationChangeDetailView.dispatch [30; 60; 90] (fun _ => true)
  (fun _ _ => true) label label user_has_perm allocation_has_perm.

(** A request on change request 5 by [u], with no attribute form. *)
Definition change_request_by (u : User) (action : string)
  : AllocationChangeDetailView.request :=
{| AllocationChangeDetailView.user := u;
   AllocationChangeDetailView.pk := 5;
   AllocationChangeDetailView.action := Some action;
   AllocationChangeDetailView.end_date_extension :=
     AllocationChangeDetailView.ChoiceValue 60;
   AllocationChangeDetailView.notes := "two months";
   AllocationChangeDetailView.formset := Some [] |}.

(** [world1] with an expired allocation 13 that user 2 is still active
    on. *)
Definition world3 : World :=
with_allocation_users
  (with_allocations world1
     (<[13 := allocation 1 "Expired" (Some 738000) (Some 738365)]>
        (allocations world1)))
  (<[104 := {| au_allocation := 13; au_user := 2; au_status := "Active" |}]>
     (allocation_users world1)).

(** The project user row of user 2 in project 1. *)
Definition member_row : ProjectUser :=
{| pu_project := 1; pu_user := 2; pu_role := "User"; pu_status := "Active" |}.

Definition renew_dispatch :=
AllocationRenewView.dispatch true (fun _ _ => false) expires_in
  allocation_has_perm remove_user (fun _ _ w => w).

End Samples.

(** * Properties *)

(** ** Institution choice *)

Module InstitutionFacts.

Import Institution.

Lemma indirect_match_no_domain (items : dict) (project : Project) :
  items <> [] -> indirect_match items None project = Raised "TypeError".
Proof. destruct items as [|[k v] rest]; [congruence | reflexivity]. Qed.

Lemma dict_get_none (d : dict) : dict_get d None = None.
Proof. by destruct d. Qed.

(** Whenever the e-mail does not split into exactly two parts around "@"
    and the map has an entry, the call dies in the loop. *)
Lemma no_domain_raises (project : Project) (institution_map : dict) :
  email_domain (pi_email project) = None ->
  institution_map <> [] ->
  determine_automated_institution_choice project institution_map
  = Raised "TypeError".
Proof.
  intros Hd Hm. unfold determine_automated_institution_choice.
  rewrite Hd, dict_get_none. by apply indirect_match_no_domain.
Qed.

(** C10: determine_automated_institution_choice is claimed never to raise,
    in particular for a PI e-mail without "@"; for the e-mail
    "pi.example.edu" and a map with one entry the call raises TypeError. *)
Theorem determine_automated_institution_choice_raises :
  determine_automated_institution_choice
    {| pi_email := "pi.example.edu"; institution := "Unset" |}
    [("example.edu", "Example University")]
  = Raised "TypeError".
Proof. reflexivity. Qed.

(** With a domain at hand the call always returns. *)
Lemma indirect_match_returns (items : dict) (domain : string) (project : Project) :
  exists r, indirect_match items (Some domain) project = Returned r.
Proof.
  induction items as [|[k v] rest IH]; simpl; [eauto|].
  destruct (contains k domain); eauto.
Qed.

Lemma one_at_returns (project : Project) (institution_map : dict) (domain : string) :
  email_domain (pi_email project) = Some domain ->
  exists r, determine_automated_institution_choice project institution_map
            = Returned r.
Proof.
  intros Hd. unfold determine_automated_institution_choice. rewrite Hd.
  destruct (dict_get _ _) as [m|]; [destruct (str_truthy m); eauto|];
    apply indirect_match_returns.
Qed.

(** An exact match on the domain wins over any substring match. *)
Lemma direct_match_first (project : Project) (institution_map : dict)
  (domain m : string) :
  email_domain (pi_email project) = Some domain ->
  dict_get institution_map (Some domain) = Some m ->
  str_truthy m = true ->
  determine_automated_institution_choice project institution_map
  = Returned (m, set_institution project m).
Proof.
  intros Hd Hg Ht. unfold determine_automated_institution_choice.
  by rewrite Hd, Hg, Ht.
Qed.

Lemma indirect_no_match (items : dict) (domain : string) (project : Project) :
  Forall (fun kv => contains kv.1 domain = false) items ->
  indirect_match items (Some domain) project
  = Returned (institution project, project).
Proof.
  induction 1 as [|[k v] rest Hk _ IH]; simpl; [done|].
  simpl in Hk. by rewrite Hk.
Qed.

Lemma prefix_refl (s : string) : String.prefix s s = true.
Proof.
  induction s as [|c s IH]; simpl; [done|].
  destruct (ascii_dec c c); [done | congruence].
Qed.

Lemma contains_refl (s : string) : contains s s = true.
Proof. destruct s; simpl; [done|]. apply orb_true_iff. left. apply (prefix_refl (String a s)). Qed.

(** When nothing matches the project is left as it was. *)
Lemma nothing_matches (project : Project) (institution_map : dict)
  (domain : string) :
  email_domain (pi_email project) = Some domain ->
  Forall (fun kv => contains kv.1 domain = false) institution_map ->
  determine_automated_institution_choice project institution_map
  = Returned (institution project, project).
Proof.
  intros Hd Hall. unfold determine_automated_institution_choice. rewrite Hd.
  destruct (dict_get _ _) as [m|] eqn:Hg; [|by apply indirect_no_match].
  destruct (str_truthy m); [|by apply indirect_no_match].
  exfalso. clear Hd. induction Hall as [|[k v] rest Hk _ IH]; simpl in *; [done|].
  destruct (String.eqb k domain) eqn:He; [|auto].
  apply String.eqb_eq in He. subst k.
  by rewrite contains_refl in Hk.
Qed.

End InstitutionFacts.

(** ** The date check of the update form *)

Module AllocationUpdateFormFacts.

Import AllocationUpdateForm.

(** C7: AllocationUpdateForm.clean fails with "End date cannot be less than
    start date" exactly when a start date and an end date are both supplied
    (each key holds a date) and the end date is strictly earlier than the
    start date; when a date is missing or empty, or the end date is on or
    after the start date, the check passes. *)
Theorem clean_end_before_start (cleaned_data : cleaned) :
  (clean cleaned_data = Some "End date cannot be less than start date"
   <-> exists s e, c_start_date cleaned_data = Some (Some s)
                   /\ c_end_date cleaned_data = Some (Some e)
                   /\ e < s)
  /\ (clean cleaned_data = None
      <-> (forall s, c_start_date cleaned_data <> Some (Some s))
          \/ (forall e, c_end_date cleaned_data <> Some (Some e))
          \/ exists s e, c_start_date cleaned_data = Some (Some s)
                         /\ c_end_date cleaned_data = Some (Some e)
                         /\ s <= e).
Proof.
  unfold clean, get_date.
  destruct (c_start_date cleaned_data) as [[s|]|],
           (c_end_date cleaned_data) as [[e|]|];
    try destruct (Z.ltb_spec e s);
    (split; split; intros Hyp;
     repeat match goal with
            | H : _ \/ _ |- _ => destruct H
            | H : ex _ |- _ => destruct H
            | H : _ /\ _ |- _ => destruct H
            end;
     simplify_eq; try lia; try done;
     try (eexists _, _; repeat split; [done..|lia]);
     try (right; right; eexists _, _; repeat split; [done..|lia]);
     try (left; intros ?; discriminate);
     try (right; left; intros ?; discriminate);
     try (exfalso; match goal with H : forall _, _ <> _ |- _ => by eapply H end)).
Qed.

(** On the bound form: the form's own checks report the error exactly when
    both submitted dates are accepted by their fields and are in the wrong
    order; and so does the form as a whole, the model's validation not
    raising that same message. *)
Lemma errors_end_before_start (parse_date : string -> option date)
  (description_ok : string -> bool) (instance_errors : Allocation -> list string)
  (u : User) (instance : Allocation) (d : data) :
  (end_before_start ∈ form_errors (clean_fields parse_date description_ok u instance d)
   <-> exists s e, clean_date parse_date (d_start_date d) = Some (Some s)
                   /\ clean_date parse_date (d_end_date d) = Some (Some e)
                   /\ e < s)
  /\ ((forall a, end_before_start ∉ instance_errors a) ->
      end_before_start
        ∈ errors instance_errors instance
            (clean_fields parse_date description_ok u instance d)
      <-> exists s e, clean_date parse_date (d_start_date d) = Some (Some s)
                      /\ clean_date parse_date (d_end_date d) = Some (Some e)
                      /\ e < s).
Proof.
  assert (Hform :
    end_before_start ∈ form_errors (clean_fields parse_date description_ok u instance d)
    <-> exists s e, clean_date parse_date (d_start_date d) = Some (Some s)
                    /\ clean_date parse_date (d_end_date d) = Some (Some e)
                    /\ e < s).
  { unfold form_errors, clean, flag. simpl.
    destruct (clean_date parse_date (d_start_date d)) as [[s|]|],
             (clean_date parse_date (d_end_date d)) as [[e|]|];
      simpl; try destruct (Z.ltb_spec e s);
      destruct (d_status d), (description_ok (d_description d)); simpl;
      rewrite ?elem_of_cons, ?elem_of_nil; unfold end_before_start;
      (split; intros Hyp;
       repeat match goal with
              | H : _ \/ _ |- _ => destruct H
              | H : ex _ |- _ => destruct H
              | H : _ /\ _ |- _ => destruct H
              end;
       simplify_eq; try lia; try done;
       try (eexists _, _; repeat split; [done..|lia]);
       auto 10). }
  split; [exact Hform|].
  intros Hnot. unfold errors. rewrite elem_of_app, Hform.
  split; [|by left]. intros [H|H]; [done|]. by apply Hnot in H.
Qed.

Lemma errors_end_before_start_witness :
  end_before_start
    ∈ errors Samples.instance_errors
        (Samples.allocation 1 "New" None None)
        (clean_fields Samples.parse_date Samples.description_ok Samples.admin
           (Samples.allocation 1 "New" None None)
           {| d_status := StatusNamed "New";
              d_start_date := Text "2025-02-01";
              d_end_date := Text "2024-02-01";
              d_description := "scratch space";
              d_is_locked := false; d_is_changeable := true |}).
Proof.
  apply (proj2 (errors_end_before_start Samples.parse_date Samples.description_ok
                  Samples.instance_errors Samples.admin
                  (Samples.allocation 1 "New" None None)
                  {| d_status := StatusNamed "New";
                     d_start_date := Text "2025-02-01";
                     d_end_date := Text "2024-02-01";
                     d_description := "scratch space";
                     d_is_locked := false; d_is_changeable := true |})).
  - intros a Hin. unfold Samples.instance_errors in Hin.
    destruct (String.eqb (a_status a) "Active"); [|by apply elem_of_nil in Hin].
    destruct (a_start_date a) as [s|], (a_end_date a) as [e|];
      try (apply list_elem_of_singleton in Hin; discriminate Hin).
    destruct (e <? dt_date Samples.now);
      [apply list_elem_of_singleton in Hin; discriminate Hin|].
    destruct (e <? s); [apply list_elem_of_singleton in Hin; discriminate Hin|].
    by apply elem_of_nil in Hin.
  - exists 739283, 738917. repeat split.
Defined.

End AllocationUpdateFormFacts.

(** ** Loops that save rows *)

Module ViewFacts.

Lemma with_allocations_id (w : World) : with_allocations w (allocations w) = w.
Proof. by destruct w. Qed.

(** Saving [f row] for every row of a queryset: each key of the queryset
    ends with [f] of its row, every other key keeps what it had. *)
Lemma for_each_save_allocations (f : Allocation -> Allocation)
  (l : list (Z * Allocation)) (w : World) :
  NoDup l.*1 ->
  exists t', for_each l (fun r =>
               modify (fun w =>
                 with_allocations w (<[r.1 := f r.2]> (allocations w)))) w
             = (with_allocations w t', Returned tt)
    /\ forall k, t' !! k = match (list_to_map l : gmap Z Allocation) !! k with
                           | Some a => Some (f a)
                           | None => allocations w !! k
                           end.
Proof.
  revert w. induction l as [|[k0 a0] rest IH]; intros w Hnd.
  - exists (allocations w). simpl. unfold ret. by rewrite with_allocations_id.
  - inversion Hnd as [|? ? Hnotin Hnd']; subst.
    destruct (IH (with_allocations w (<[k0 := f a0]> (allocations w))) Hnd')
      as (t' & Hrun & Hlook).
    exists t'. split.
    + simpl. unfold vbind at 1. unfold modify at 1. simpl in *. by rewrite Hrun.
    + intros k. rewrite Hlook. simpl.
      destruct (decide (k = k0)) as [->|Hne].
      * rewrite lookup_insert_eq.
        rewrite (not_elem_of_list_to_map_1 _ _ Hnotin).
        by rewrite lookup_insert_eq.
      * by rewrite !lookup_insert_ne.
Qed.

(** The rows of a filtered queryset, as a map. *)
Lemma list_to_map_filter_rows {A : Type} (P : Z * A -> bool) (t : gmap Z A) (k : Z) :
  (list_to_map (filter P (rows t)) : gmap Z A) !! k
  = match t !! k with
    | Some a => if P (k, a) then Some a else None
    | None => None
    end.
Proof.
  assert (Hnd : NoDup (filter P (rows t)).*1).
  { eapply NoDup_fmap_fst.
    - intros x y1 y2 [_ H1]%list_elem_of_filter [_ H2]%list_elem_of_filter.
      apply elem_of_map_to_list in H1, H2. congruence.
    - apply NoDup_filter, NoDup_map_to_list. }
  destruct (t !! k) as [a|] eqn:Hk.
  - destruct (P (k, a)) eqn:HP.
    + apply elem_of_list_to_map; [done|].
      apply list_elem_of_filter. split; [by rewrite HP|].
      by apply elem_of_map_to_list.
    + apply not_elem_of_list_to_map. intros Hin.
      apply list_elem_of_fmap in Hin as ([k' a'] & -> & Hin).
      apply list_elem_of_filter in Hin as [HP' Hin].
      apply elem_of_map_to_list in Hin. simpl in *.
      rewrite Hk in Hin. simplify_eq. by rewrite HP in HP'.
  - apply not_elem_of_list_to_map. intros Hin.
    apply list_elem_of_fmap in Hin as ([k' a'] & -> & Hin).
    apply list_elem_of_filter in Hin as [_ Hin].
    apply elem_of_map_to_list in Hin. simpl in *. congruence.
Qed.

Lemma NoDup_filter_rows {A : Type} (P : Z * A -> bool) (t : gmap Z A) :
  NoDup (filter P (rows t)).*1.
Proof.
  eapply NoDup_fmap_fst.
  - intros x y1 y2 [_ H1]%list_elem_of_filter [_ H2]%list_elem_of_filter.
    apply elem_of_map_to_list in H1, H2. congruence.
  - apply NoDup_filter, NoDup_map_to_list.
Qed.

End ViewFacts.

(** ** Archiving a project *)

Module ProjectArchiveFacts.

Import ProjectArchiveProjectView ViewFacts.

(** C1: archiving an existing project sets its status to "Archived", sends
    the project_archive signal, and turns every "Active" allocation of the
    project into an "Expired" one whose end date is the current time; every
    other allocation, and every other table, is left as it was. *)
Theorem archive_expires_active_allocations (now : datetime) (pk : Z)
  (w : World) (p : Project) :
  projects w !! pk = Some p ->
  exists w',
    post now pk w = (w', Returned (Redirect (ProjectDetail pk)))
    /\ projects w' = <[pk := archived p]> (projects w)
    /\ p_status (archived p) = "Archived"
    /\ log w' = (log w ++ [Signal "project_archive" [pk]])%list
    /\ (forall k, allocations w' !! k = archive_row pk now <$> allocations w !! k)
    /\ (forall k a, allocations w !! k = Some a -> a_project a = pk ->
                    a_status a = "Active" ->
                    exists a', allocations w' !! k = Some a'
                               /\ a_status a' = "Expired"
                               /\ a_end_date a' = Some (date_of now))
    /\ project_users w' = project_users w
    /\ allocation_users w' = allocation_users w
    /\ attributes w' = attributes w
    /\ change_requests w' = change_requests w
    /\ attribute_changes w' = attribute_changes w.
Proof.
  intros Hp. unfold post.
  unfold vbind at 1. unfold get_world at 1. rewrite Hp.
  set (w1 := emit (with_projects w (<[pk := archived p]> (projects w)))
                  (Signal "project_archive" [pk])).
  destruct (for_each_save_allocations (fun a => expired a now)
              (active_allocations w pk) w1) as (t' & Hrun & Hlook).
  { apply NoDup_filter_rows. }
  assert (Hall : forall k, t' !! k = archive_row pk now <$> allocations w !! k).
  { intros k. rewrite Hlook. unfold active_allocations.
    rewrite list_to_map_filter_rows. simpl. unfold archive_row.
    destruct (allocations w !! k) as [a|]; simpl; [|done].
    by destruct (bool_decide (a_project a = pk) && String.eqb (a_status a) "Active"). }
  exists (with_allocations w1 t').
  split; [|split; [done|split; [done|split; [done|split; [done|split; [|done]]]]]].
  - unfold vbind, modify, send, modify, ret. simpl.
    fold w1. unfold vbind, modify in Hrun. simpl in Hrun. by rewrite Hrun.
  - intros k a Hk Hpk Hst. eexists. split.
    + simpl. rewrite Hall, Hk. simpl. reflexivity.
    + unfold archive_row. rewrite Hpk, Hst, bool_decide_eq_true_2 by done.
      by simpl.
Qed.

Lemma archive_expires_active_allocations_witness :
  projects Samples.world1 !! 1 = Some Samples.project1
  /\ exists w', post Samples.now 1 Samples.world1
                = (w', Returned (Redirect (ProjectDetail 1)))
                /\ log w' = [Signal "project_archive" [1]].
Proof.
  split; [reflexivity|].
  destruct (archive_expires_active_allocations Samples.now 1 Samples.world1
              Samples.project1) as (w' & Hrun & _ & _ & Hlog & _);
    [reflexivity|].
  exists w'. split; [exact Hrun | exact Hlog].
Defined.

End ProjectArchiveFacts.

(** ** Posting to the allocation detail view *)

Module AllocationDetailFacts.

Import AllocationUpdateForm AllocationDetailView.

Lemma emit_all_nil (w : World) : emit_all w [] = w.
Proof. destruct w. unfold emit_all. simpl. by rewrite app_nil_r. Qed.

Lemma emit_all_cons (w : World) (e : event) (es : list event) :
  emit_all (emit w e) es = emit_all w (e :: es).
Proof. unfold emit_all, emit. simpl. by rewrite <- app_assoc. Qed.

(** Sending one signal per row of a queryset. *)
Lemma for_each_send {A : Type} (f : A -> event) (l : list A) (w : World) :
  for_each l (fun r => send (f r)) w = (emit_all w (f <$> l), Returned tt).
Proof.
  revert w. induction l as [|x rest IH]; intros w; simpl.
  - unfold ret. by rewrite emit_all_nil.
  - unfold vbind, send at 1, modify at 1. rewrite IH. by rewrite emit_all_cons.
Qed.

Section Facts.

Context (parse_date : string -> option date)
        (description_ok : string -> bool)
        (instance_errors : Allocation -> list string)
        (ALLOCATION_DEFAULT_ALLOCATION_LENGTH : Z)
        (resource_label pi_label : World -> Z -> string).

Local Abbreviation post :=
  (post parse_date description_ok instance_errors
     ALLOCATION_DEFAULT_ALLOCATION_LENGTH resource_label pi_label).

(** [post] itself, for a user who is not a superuser: the message is
    queued, then the unassigned local [redirect] is read. *)
Lemma post_not_superuser (now : datetime) (req : request) (w : World) (a : Allocation) :
  allocations w !! pk req = Some a ->
  is_superuser (user req) = false ->
  post now req w = (emit w denied, Raised "UnboundLocalError").
Proof.
  intros Ha Hs. unfold AllocationDetailView.post, vbind, get_world.
  by rewrite Ha, Hs.
Qed.

Lemma activated_users_spec (w : World) (allocation_pk k : Z) (au : AllocationUser) :
  (k, au) ∈ activated_users w allocation_pk
  <-> allocation_users w !! k = Some au
      /\ au_allocation au = allocation_pk
      /\ name_in (au_status au) ["Removed"; "Error"; "DeclinedEULA"; "PendingEULA"]
         = false.
Proof.
  unfold activated_users, allocation_user_qs, rows.
  rewrite list_elem_of_filter, elem_of_map_to_list. simpl.
  rewrite andb_True, bool_decide_spec, negb_True, Is_true_false.
  tauto.
Qed.

(** C3 (amended): when a superuser posts "approve" or "auto-approve" on an
    allocation whose status is not "Active" and the form bound to the
    resulting data validates (its fields, its clean and the model's
    validation of the instance), the status becomes "Active", the end date
    becomes the current date plus ALLOCATION_DEFAULT_ALLOCATION_LENGTH days,
    the start date becomes the current date if it was unset and otherwise
    the start date submitted with the form, allocation_activate is sent for
    the allocation and allocation_activate_user, in some order, for exactly
    the allocation users whose status is none of "Removed", "Error",
    "DeclinedEULA" and "PendingEULA". *)
Theorem approve_activates_allocation (now : datetime) (req : request)
  (w : World) (a : Allocation) (act : string) :
  is_superuser (user req) = true ->
  action req = Some act ->
  act = "approve" \/ act = "auto-approve" ->
  allocations w !! pk req = Some a ->
  a_status a <> "Active" ->
  is_valid instance_errors a
    (clean_fields parse_date description_ok (user req) a
       (approved_data ALLOCATION_DEFAULT_ALLOCATION_LENGTH now a (POST req)))
  = true ->
  exists w' a' m users,
    post now req w = (w', Returned (Redirect (get_success_url req)))
    /\ allocations w' = <[pk req := a']> (allocations w)
    /\ instance_errors a' = []
    /\ a_status a' = "Active"
    /\ a_start_date a'
       = match a_start_date a with
         | None => Some (date_of now)
         | Some _ => get_date (clean_date parse_date (d_start_date (POST req)))
         end
    /\ a_end_date a' = Some (date_of now + ALLOCATION_DEFAULT_ALLOCATION_LENGTH)
    /\ users ≡ₚ activated_users w (pk req)
    /\ log w'
       = (log w
          ++ [Message "success" m; Signal "allocation_activate" [pk req]]
          ++ ((fun r => Signal "allocation_activate_user" [r.1]) <$> users)
          ++ [Email "Allocation Activated" "email/allocation_activated.txt" (pk req)])%list
    /\ (forall k, Signal "allocation_activate_user" [k] ∈ log w'
                  <-> Signal "allocation_activate_user" [k] ∈ log w
                      \/ exists au, allocation_users w !! k = Some au
                                    /\ au_allocation au = pk req
                                    /\ name_in (au_status au)
                                         ["Removed"; "Error"; "DeclinedEULA"; "PendingEULA"]
                                       = false).
Proof.
  intros Hs Hact Hor Ha Hst Hvalid.
  apply String.eqb_neq in Hst.
  set (form := clean_fields parse_date description_ok (user req) a
                 (approved_data ALLOCATION_DEFAULT_ALLOCATION_LENGTH now a (POST req))) in *.
  set (m := if negb (String.eqb act "auto-approve") then "Allocation Activated!"
            else activated_message resource_label pi_label w req).
  set (w1 := emit w (Message "success" m)).
  set (w2 := with_allocations w1 (<[pk req := save form a]> (allocations w1))).
  set (w3 := emit w2 (Signal "allocation_activate" [pk req])).
  set (w4 := emit_all w3 ((fun r => Signal "allocation_activate_user" [r.1])
                            <$> activated_users w3 (pk req))).
  set (w5 := emit w4 (Email "Allocation Activated" "email/allocation_activated.txt" (pk req))).
  assert (Hrun : post now req w = (w5, Returned (Redirect (get_success_url req)))).
  { unfold AllocationDetailView.post, vbind at 1, get_world at 1.
    rewrite Ha, Hs, Hact. simpl negb.
    assert (Hin : name_in act ["update"; "approve"; "auto-approve"; "deny"] = true)
      by (destruct Hor; subst act; reflexivity).
    assert (Hin2 : name_in act ["approve"; "auto-approve"] = true)
      by (destruct Hor; subst act; reflexivity).
    rewrite Hin, Hin2. cbn [negb d_status set_status].
    rewrite Hst. cbn [negb].
    unfold on_status_change.
    replace (String.eqb "Active" "Active") with true by reflexivity.
    rewrite Hin2.
    unfold vbind, ret, get_world, send, modify, form_valid, after_save,
      vbind, ret, get_world, send, modify, lift_outcome.
    fold m. fold w1.
    change (clean_fields parse_date description_ok (user req) a _) with form.
    rewrite Hvalid.
    cbn [allocation_signal allocation_user_signal allocation_user_exclude email_kwargs].
    fold w2. fold w3.
    change (allocation_user_qs w3 (pk req) _) with (activated_users w3 (pk req)).
    rewrite (for_each_send (fun r : Z * AllocationUser =>
               Signal "allocation_activate_user" [r.1])).
    reflexivity. }
  assert (Herrs : form_errors form = [] /\ instance_errors (save form a) = []).
  { unfold is_valid, errors in Hvalid. unfold save.
    destruct (form_errors form); [|done].
    by destruct (instance_errors (construct_instance form a)). }
  destruct Herrs as [Hform Hinst].
  assert (Hstart : c_start_date form <> None).
  { intros Hnone. unfold form_errors in Hform. rewrite Hnone in Hform.
    destruct (flag "status" (c_status form)); discriminate Hform. }
  exists w5, (save form a), m, (activated_users w (pk req)).
  split; [exact Hrun|]. split; [done|]. split; [exact Hinst|].
  split.
  { subst form. unfold approved_data. simpl. by destruct (a_start_date a). }
  split.
  { unfold save, construct_instance. cbn [a_start_date].
    subst form. unfold approved_data in *.
    destruct (a_start_date a) as [sd|] eqn:Hsd; cbn in *; [|done].
    by destruct (clean_date parse_date (d_start_date (POST req))) as [[?|]|]. }
  split.
  { subst form. unfold approved_data. simpl.
    by destruct (a_start_date a). }
  split; [done|].
  assert (Hlog : log w5
       = (log w
          ++ [Message "success" m; Signal "allocation_activate" [pk req]]
          ++ ((fun r => Signal "allocation_activate_user" [r.1])
                <$> activated_users w (pk req))
          ++ [Email "Allocation Activated" "email/allocation_activated.txt" (pk req)])%list).
  { simpl. rewrite <- !app_assoc. reflexivity. }
  split; [exact Hlog|].
  intros k. rewrite Hlog. rewrite !elem_of_app, list_elem_of_fmap.
  rewrite !elem_of_cons, !elem_of_nil.
  split.
  - intros [H|[[H|[H|[]]]|[H|[H|[]]]]]; try discriminate; [by left|].
    destruct H as ([k' au] & Heq & Hin). simpl in Heq. simplify_eq.
    right. exists au. by apply activated_users_spec.
  - intros [H|(au & H)]; [by left|].
    right. right. left. exists (k, au). split; [done|].
    by apply activated_users_spec.
Qed.

End Facts.

(** C2: a POST by an authenticated user who is not a superuser is claimed to
    leave every row as it is and to be answered by a redirect to the
    allocation with the message "You do not have permission to update the
    allocation". For user 2, who may view allocation 12, no row changes and
    the message is queued, but the view then dies with UnboundLocalError
    instead of redirecting. *)
Theorem nonsuperuser_post_raises :
  is_authenticated Samples.member = true
  /\ is_superuser Samples.member = false
  /\ Samples.allocation_has_perm Samples.world1 12 Samples.member "USER" = true
  /\ Samples.detail_dispatch (Samples.detail_request Samples.member "update")
       Samples.world1
     = (emit Samples.world1
          (Message "success" "You do not have permission to update the allocation"),
        Raised "UnboundLocalError")
  /\ allocations
       (emit Samples.world1
          (Message "success" "You do not have permission to update the allocation"))
     = allocations Samples.world1.
Proof. repeat split. Qed.

(** C3 as stated fails: allocation 12 has a start date, and approving it
    with an edited form replaces that date by the submitted one. *)
Lemma approve_replaces_start_date :
  a_start_date <$> (allocations Samples.world1 !! 12) = Some (Some 738600)
  /\ (Samples.detail_post (Samples.detail_request Samples.admin "approve")
        Samples.world1).2
     = Returned (Redirect (AllocationDetail 12))
  /\ a_status <$>
       (allocations (Samples.detail_post
                       (Samples.detail_request Samples.admin "approve")
                       Samples.world1).1 !! 12)
     = Some "Active"
  /\ a_start_date <$>
       (allocations (Samples.detail_post
                       (Samples.detail_request Samples.admin "approve")
                       Samples.world1).1 !! 12)
     = Some (Some 738917).
Proof. repeat split. Qed.

Lemma approve_activates_allocation_witness :
  exists w' a',
    Samples.detail_post (Samples.detail_request Samples.admin "approve")
      Samples.world1
    = (w', Returned (Redirect (AllocationDetail 12)))
    /\ allocations w' !! 12 = Some a'
    /\ a_status a' = "Active"
    /\ a_end_date a' = Some (739000 + 365)
    /\ Signal "allocation_activate" [12] ∈ log w'.
Proof.
  destruct (approve_activates_allocation Samples.parse_date
              Samples.description_ok Samples.instance_errors 365
              Samples.label Samples.label
              Samples.now (Samples.detail_request Samples.admin "approve")
              Samples.world1
              (Samples.allocation 1 "Renewal Requested" (Some 738600) (Some 738965))
              "approve")
    as (w' & a' & m & users & Hrun & Hall & _ & Hst & _ & Hend & _ & Hlog & _);
    [reflexivity | reflexivity | by left | reflexivity | discriminate
    | reflexivity |].
  exists w', a'. split; [exact Hrun|].
  split; [rewrite Hall; apply lookup_insert_eq|].
  split; [exact Hst|]. split; [exact Hend|].
  rewrite Hlog. apply elem_of_app. right. apply elem_of_cons. right.
  apply elem_of_cons. by left.
Defined.

End AllocationDetailFacts.


(** ** Renewal requests *)

Module AllocationRenewFacts.

Import AllocationRenewView.

Section Facts.

Context (ALLOCATION_ENABLE_ALLOCATION_RENEWAL : bool)
        (needs_review : World -> Z -> bool)
        (expires_in : Allocation -> Z)
        (allocation_has_perm : World -> Z -> User -> string -> bool)
        (Allocation_remove_user Project_remove_user : Z -> Z -> World -> World).

Local Abbreviation dispatch :=
  (dispatch ALLOCATION_ENABLE_ALLOCATION_RENEWAL needs_review expires_in
     allocation_has_perm Allocation_remove_user Project_remove_user).

(** Saving the review forms always completes. *)
Lemma review_forms_saved (w0 : World) (forms : list review_form) (w : World) :
  exists w1,
    for_each forms
      (AllocationReviewUserForm_save Allocation_remove_user Project_remove_user w0) w
    = (w1, Returned tt).
Proof.
  revert w. induction forms as [|f rest IH]; intros w; simpl; [by eexists|].
  unfold vbind at 1.
  assert (Hone : exists w2,
    AllocationReviewUserForm_save Allocation_remove_user Project_remove_user w0 f w
    = (w2, Returned tt)).
  { unfold AllocationReviewUserForm_save.
    destruct (allocation_users w0 !! rf_allocation_user f) as [au|]; [|by eexists].
    destruct (String.eqb (rf_user_status f) "keep_in_project_only"); [by eexists|].
    destruct (String.eqb (rf_user_status f) "remove_from_project"); [|by eexists].
    destruct (allocations w0 !! au_allocation au); by eexists. }
  destruct Hone as [w2 ->]. apply IH.
Qed.

(** C5: a renewal request is answered with an error message and a redirect,
    and changes no row, unless renewal is enabled, the allocation is
    "Active", its project needs no review and it expires in at most 60 days;
    when all four hold, a POST by a signed-in user with the MANAGER
    permission whose review formset validates leaves the allocation with
    status "Renewal Requested". *)
Theorem renewal_is_gated (req : request) (w : World) (a : Allocation) :
  allocations w !! pk req = Some a ->
  (ALLOCATION_ENABLE_ALLOCATION_RENEWAL = false
   \/ a_status a <> "Active"
   \/ needs_review w (a_project a) = true
   \/ 60 < expires_in a ->
   exists text to,
     dispatch req w = (emit w (Message "error" text), Returned (Redirect to))
     /\ allocations (emit w (Message "error" text)) = allocations w)
  /\ (ALLOCATION_ENABLE_ALLOCATION_RENEWAL = true ->
      a_status a = "Active" ->
      needs_review w (a_project a) = false ->
      expires_in a <= 60 ->
      is_authenticated (user req) = true ->
      allocation_has_perm w (pk req) (user req) "MANAGER" = true ->
      http_method req = POST ->
      formset_is_valid (get_formset_queryset w req a) (formset req) = true ->
      exists w',
        dispatch req w = (w', Returned (Redirect (AllocationDetail (pk req))))
        /\ allocations w' !! pk req = Some (renewal_requested a)
        /\ a_status (renewal_requested a) = "Renewal Requested").
Proof.
  intros Ha. split.
  - intros Hgate. unfold AllocationRenewView.dispatch, vbind at 1, get_world at 1.
    rewrite Ha.
    destruct ALLOCATION_ENABLE_ALLOCATION_RENEWAL; simpl; [|by eexists _, _].
    destruct (String.eqb_spec (a_status a) "Active") as [Hs|Hs]; simpl;
      [|by eexists _, _].
    destruct (needs_review w (a_project a)); [by eexists _, _|].
    destruct (Z.gtb_spec (expires_in a) 60); [by eexists _, _|].
    destruct Hgate as [?|[?|[?|?]]]; try done. lia.
  - intros He Hs Hn Hx Hauth Hperm Hm Hvalid.
    unfold AllocationRenewView.dispatch, vbind at 1, get_world at 1.
    rewrite Ha, He, Hs, Hn. simpl.
    destruct (Z.gtb_spec (expires_in a) 60); [lia|].
    unfold super_dispatch. rewrite Hauth. simpl.
    unfold vbind at 1. unfold test_func, vbind at 1, get_world at 1.
    rewrite Ha, Hperm. unfold ret at 1. rewrite Hm.
    unfold post, vbind at 1, get_world at 1. rewrite Ha, Hvalid.
    unfold formset_valid, vbind at 1, get_world at 1.
    unfold vbind at 1.
    destruct (review_forms_saved w (default [] (formset req)) w) as [w1 ->].
    eexists. split; [reflexivity|]. split; [|done].
    simpl. apply lookup_insert_eq.
Qed.

End Facts.

Lemma renewal_is_gated_witness :
  exists w',
    Samples.renew_dispatch Samples.renew_request Samples.world1
    = (w', Returned (Redirect (AllocationDetail 10)))
    /\ a_status <$> allocations w' !! 10 = Some "Renewal Requested".
Proof.
  destruct (renewal_is_gated true (fun _ _ => false) Samples.expires_in
              Samples.allocation_has_perm Samples.remove_user (fun _ _ w => w)
              Samples.renew_request Samples.world1
              (Samples.allocation 1 "Active" (Some 738900) (Some 739030)))
    as [_ Hrenew]; [reflexivity|].
  destruct Hrenew as (w' & Hrun & Hrow & _);
    [reflexivity | reflexivity | reflexivity | by vm_compute | reflexivity
    | reflexivity | reflexivity | reflexivity |].
  exists w'. split; [exact Hrun|]. exact (f_equal (fmap a_status) Hrow).
Defined.

End AllocationRenewFacts.


(** ** The PI stays *)

Module RemovalFacts.

Import UserManagement BaseAllocationUserFormSet.

Lemma remove_pi_from_project (project_pk : Z) (project_obj : Project)
  (send_signals : bool) (obj_class : option string) (w : World) :
  remove_user_from_project project_pk project_obj (p_pi project_obj) send_signals
    obj_class w
  = (w, Returned false).
Proof.
  unfold remove_user_from_project. by rewrite bool_decide_eq_true_2.
Qed.

Section Formset.

Context (ALLOCATION_EULA_ENABLE : bool)
        (is_pi : Z -> bool) (get_eula : Z -> option string).

Lemma clean_forms_pi (w : World) (forms : list form) (f : form) :
  Forall (resolves w) forms ->
  f ∈ forms ->
  selects_pi w f ->
  clean_forms ALLOCATION_EULA_ENABLE is_pi get_eula w REMOVE forms
  = Raised "ValidationError".
Proof.
  intros Hall Hin (Hsel & a & pi & Ha & Hpi & Hu).
  induction Hall as [|g rest (ag & pig & Hag & Hpig) _ IH]; [by inversion Hin|].
  simpl. unfold clean_form.
  apply elem_of_cons in Hin as [<-|Hin].
  - rewrite Hsel, Ha. simpl. rewrite Hpi. simpl.
    by rewrite Hu, bool_decide_eq_true_2.
  - destruct (selected g) as [[|]|]; simpl; try by rewrite (IH Hin).
    rewrite Hag. simpl. rewrite Hpig. simpl.
    destruct (bool_decide (Some pig = user g)); [done|].
    simpl. by rewrite (IH Hin).
Qed.

(** C8 (amended): remove_user_from_project on the project's PI returns
    False and leaves every row and the signal log as they were; a removal
    formset in which a selected form names the PI is never valid, and when
    no form of the formset has field errors it is rejected with "Cannot
    remove the project PI from an allocation.". *)
Theorem pi_is_never_removed (project_pk : Z) (project_obj : Project)
  (send_signals : bool) (obj_class : option string) (w : World)
  (forms : list form) (f : form) :
  Forall (fun g => has_errors g = false -> resolves w g) forms ->
  f ∈ forms ->
  selects_pi w f ->
  remove_user_from_project project_pk project_obj (p_pi project_obj) send_signals
    obj_class w
  = (w, Returned false)
  /\ is_valid ALLOCATION_EULA_ENABLE is_pi get_eula w REMOVE forms = Returned false
  /\ (existsb has_errors forms = false ->
      non_form_errors ALLOCATION_EULA_ENABLE is_pi get_eula w REMOVE forms
      = Returned ["Cannot remove the project PI from an allocation."]).
Proof.
  intros Hall Hin Hsel. split; [apply remove_pi_from_project|].
  unfold is_valid, non_form_errors, clean.
  destruct (existsb has_errors forms) eqn:He.
  - by split.
  - assert (Hres : Forall (resolves w) forms).
    { apply Forall_forall. intros g Hg.
      apply (proj1 (Forall_forall _ _) Hall g Hg).
      destruct (has_errors g) eqn:Hge; [|done].
      assert (existsb has_errors forms = true); [|congruence].
      apply existsb_exists. exists g. split; [by apply list_elem_of_In|done]. }
    rewrite (clean_forms_pi w forms f Hres Hin Hsel). by split.
Qed.

End Formset.

(** C8 as stated fails on the message: a removal formset that selects the
    PI next to a form with field errors is rejected without it. *)
Lemma pi_selected_without_message :
  selected Samples.pi_form = Some true
  /\ user Samples.pi_form = Some 1
  /\ p_pi <$> projects Samples.world1 !! 1 = Some 1
  /\ non_form_errors false (fun _ => false) (fun _ => None) Samples.world1 REMOVE
       [Samples.pi_form; Samples.broken_form]
     = Returned []
  /\ is_valid false (fun _ => false) (fun _ => None) Samples.world1 REMOVE
       [Samples.pi_form; Samples.broken_form]
     = Returned false.
Proof. repeat split. Qed.

Lemma pi_is_never_removed_witness :
  remove_user_from_project 1 Samples.project1 1 true None Samples.world1
  = (Samples.world1, Returned false)
  /\ non_form_errors false (fun _ => false) (fun _ => None) Samples.world1 REMOVE
       [Samples.pi_form]
     = Returned ["Cannot remove the project PI from an allocation."].
Proof.
  destruct (pi_is_never_removed false (fun _ => false) (fun _ => None)
              1 Samples.project1 true None Samples.world1 [Samples.pi_form]
              Samples.pi_form) as (Hp & _ & Hmsg).
  - constructor; [|constructor]. intros _. exists 10, 1. split; reflexivity.
  - apply elem_of_cons. by left.
  - split; [reflexivity|]. exists 10, 1. repeat split.
  - split; [exact Hp | apply Hmsg; reflexivity].
Defined.

End RemovalFacts.


(** ** The allocation limit of a resource *)

Module AllocationFormFacts.

Import AllocationForm.

Section Facts.

Context (ALLOCATION_ACCOUNT_ENABLED : bool)
        (ALLOCATION_ACCOUNT_MAPPING : list (string * string))
        (INVOICE_ENABLED : bool)
        (INVOICE_DEFAULT_STATUS : string)
        (attribute_type_names : list string).

Local Abbreviation clean :=
  (clean ALLOCATION_ACCOUNT_ENABLED ALLOCATION_ACCOUNT_MAPPING INVOICE_ENABLED
     INVOICE_DEFAULT_STATUS attribute_type_names).
Local Abbreviation needs_account_name :=
  (needs_account_name ALLOCATION_ACCOUNT_ENABLED ALLOCATION_ACCOUNT_MAPPING
     attribute_type_names).

(** C6 (amended): for a submission that passes the account-name check, on a
    resource whose allocation_limit attribute is set to a number other than
    zero, validation fails with "Your project is at the allocation limit
    allowed for this resource." exactly when the project already has at
    least allocation_limit allocations to that resource whose status is
    among "Active", "New", "Renewal Requested", "Paid", "Payment Pending"
    and "Payment Requested"; below the limit the form is cleaned. *)
Theorem allocation_limit_enforced (w : World) (fd : form_data)
  (project_pk resource_pk : Z) (r : Resource) (limit : Z) :
  project fd = Some project_pk ->
  resource fd = Some (resource_pk, r) ->
  allocation_limit r = Some limit ->
  limit <> 0 ->
  needs_account_name fd = Returned false ->
  (clean w fd
   = Returned (Invalid "Your project is at the allocation limit allowed for this resource."
                       "reached_allocation_limit")
   <-> limit <= allocation_count w project_pk resource_pk)
  /\ (allocation_count w project_pk resource_pk < limit ->
      exists status, clean w fd = Returned (Valid status)).
Proof.
  intros Hp Hr Hl Hz Hacc. unfold AllocationForm.clean.
  rewrite Hacc, Hr, Hp, Hl. simpl.
  destruct (Z.eqb_spec limit 0) as [|_]; [done|]. simpl.
  destruct (Z.geb_spec (allocation_count w project_pk resource_pk) limit);
    split; try done; try lia; eauto.
  split; [discriminate | lia].
Qed.

(** What the truth test on the limit lets through: with the limit set to
    zero no count is taken. *)
Lemma limit_zero_is_not_checked (w : World) (fd : form_data) (resource_pk : Z)
  (r : Resource) :
  resource fd = Some (resource_pk, r) ->
  allocation_limit r = Some 0 ->
  needs_account_name fd = Returned false ->
  exists status, clean w fd = Returned (Valid status).
Proof.
  intros Hr Hl Hacc. unfold AllocationForm.clean.
  rewrite Hacc, Hr, Hl. simpl. eauto.
Qed.

End Facts.

(** C6 as stated fails: with account names required, a submission without
    one is rejected for that reason although the project is over the limit. *)
Lemma over_limit_without_account_name :
  allocation_limit Samples.cluster = Some 2
  /\ allocation_count Samples.world1 1 7 = 3
  /\ clean true [("cluster", "slurm_account_name")] false "Pending Payment"
       ["slurm_account_name"] Samples.world1 Samples.new_allocation
     = Returned (Invalid account_message "user_has_no_account_name").
Proof. repeat split. Qed.

Lemma allocation_limit_enforced_witness :
  clean false [] false "Pending Payment" [] Samples.world1 Samples.new_allocation
  = Returned (Invalid "Your project is at the allocation limit allowed for this resource."
                      "reached_allocation_limit").
Proof.
  apply (allocation_limit_enforced false [] false "Pending Payment" []
           Samples.world1 Samples.new_allocation 1 7 Samples.cluster 2);
    try reflexivity; [discriminate | by vm_compute].
Defined.

End AllocationFormFacts.


(** ** Pagination *)

Module PaginationFacts.

Import Pagination.

Section Facts.

Context {item page_arg : Type} (int_of : page_arg -> option Z).

Implicit Types (h : gmap loc (obj item)) (p : Paginator).

Lemma fresh_bound h (l : loc) (o : obj item) :
  h !! l = Some o -> l < fresh h.
Proof.
  unfold fresh.
  enough (forall l o, h !! l = Some o ->
                      l <= map_fold (fun l _ acc => Z.max l acc) 0 h) as H.
  { intros Hl. apply (Z.le_lt_trans _ _ _ (H l o Hl)).
    by apply Z.lt_add_pos_l. }
  apply (map_fold_weak_ind
           (fun r (m : gmap loc (obj item)) =>
              forall l o, m !! l = Some o -> l <= r)).
  - intros l' o'. by rewrite lookup_empty.
  - intros i x m r _ IH l' o'. rewrite lookup_insert.
    case_decide as Hi; [intros _; subst; lia|].
    intros Hl'. specialize (IH l' o' Hl'). lia.
Qed.

Lemma fresh_is_fresh h : h !! fresh h = None.
Proof.
  destruct (h !! fresh h) as [o|] eqn:Hf; [|done].
  apply fresh_bound in Hf. lia.
Qed.

Lemma num_pages_positive h p (items : list item) :
  h !! object_list p = Some (ObjList items) ->
  1 <= per_page p ->
  exists np, num_pages h p = Returned np /\ 1 <= np.
Proof.
  intros Hl Hpp. unfold num_pages, count. rewrite Hl. simpl.
  destruct (Z.eqb_spec (per_page p) 0); [lia|].
  eexists. split; [reflexivity|].
  assert (- Z.max 1 (Z.of_nat (length items)) / per_page p < 0); [|lia].
  apply Z.div_lt_upper_bound; lia.
Qed.

(** A page within range is built next to the list, which stays put. *)
Lemma page_int_in_range h p (items : list item) (n np : Z) :
  h !! object_list p = Some (ObjList items) ->
  num_pages h p = Returned np ->
  1 <= n <= np ->
  exists o, page_int h p n = Returned (fresh h, <[fresh h := o]> h).
Proof.
  intros Hl Hnp Hn. unfold page_int, validate_number.
  destruct (Z.ltb_spec n 1); [lia|]. rewrite Hnp. simpl.
  destruct (Z.gtb_spec n np); [lia|]. simpl.
  unfold count. rewrite Hl. simpl. by eexists.
Qed.

Lemma page_int_out_of_range h p (items : list item) (n np : Z) :
  h !! object_list p = Some (ObjList items) ->
  num_pages h p = Returned np ->
  ~ (1 <= n <= np) ->
  page_int h p n = Raised "EmptyPage".
Proof.
  intros Hl Hnp Hn. unfold page_int, validate_number.
  destruct (Z.ltb_spec n 1); [done|]. rewrite Hnp. simpl.
  destruct (Z.gtb_spec n np); [done|lia].
Qed.

(** C9 (amended): for every page number, item list and page size of at
    least one, handle_pagination returns None; the page it computes is a
    new object bound to a local name only, so the caller's list, and every
    object that existed before the call, is unchanged. *)
Theorem handle_pagination_returns_none h (page_number : page_arg)
  (item_list : loc) (items : list item) (items_per_page : Z) :
  h !! item_list = Some (ObjList items) ->
  1 <= items_per_page ->
  exists h',
    handle_pagination int_of h page_number item_list items_per_page
    = Returned (tt, h')
    /\ h' !! item_list = Some (ObjList items)
    /\ forall l o, h !! l = Some o -> h' !! l = Some o.
Proof.
  intros Hl Hpp.
  set (p := {| object_list := item_list; per_page := items_per_page |}).
  destruct (num_pages_positive h p items Hl Hpp) as (np & Hnp & Hpos).
  assert (Hframe : forall o l o', h !! l = Some o' ->
                                  <[fresh h := o]> h !! l = Some o').
  { intros o l o' Hlo. rewrite lookup_insert_ne; [done|].
    intros <-. by rewrite fresh_is_fresh in Hlo. }
  assert (Hgood : forall n, 1 <= n <= np ->
    exists h', (let! (item_list', h') := page_int h p n in Returned (tt, h'))
               = Returned (tt, h')
               /\ h' !! item_list = Some (ObjList items)
               /\ forall l o, h !! l = Some o -> h' !! l = Some o).
  { intros n Hn. destruct (page_int_in_range h p items n np Hl Hnp Hn) as [o ->].
    simpl. eexists. split; [reflexivity|]. split; [by apply Hframe|].
    intros l o'. apply Hframe. }
  unfold handle_pagination, page. fold p.
  destruct (int_of page_number) as [n|].
  - destruct (decide (1 <= n <= np)) as [Hn|Hn].
    + destruct (page_int_in_range h p items n np Hl Hnp Hn) as [o ->].
      eexists. split; [reflexivity|]. split; [by apply Hframe|].
      intros l o'. apply Hframe.
    + rewrite (page_int_out_of_range h p items n np Hl Hnp Hn).
      replace (String.eqb "EmptyPage" "PageNotAnInteger") with false by reflexivity.
      replace (String.eqb "EmptyPage" "EmptyPage") with true by reflexivity.
      rewrite Hnp. cbn [bind]. apply Hgood. lia.
  - replace (String.eqb "PageNotAnInteger" "PageNotAnInteger") with true
      by reflexivity.
    apply Hgood. lia.
Qed.

(** A page size of zero is a division by zero, whatever the page. *)
Lemma page_size_zero_raises h (page_number : page_arg) (item_list : loc)
  (items : list item) :
  h !! item_list = Some (ObjList items) ->
  handle_pagination int_of h page_number item_list 0
  = Raised "ZeroDivisionError".
Proof.
  intros Hl. unfold handle_pagination, page, page_int, validate_number,
    num_pages, count. simpl. rewrite Hl. simpl.
  destruct (int_of page_number) as [n|]; [|reflexivity].
  by destruct (n <? 1).
Qed.

End Facts.

(** C9 as stated fails: with a page size of 0 the call raises instead of
    returning None. *)
Lemma handle_pagination_page_size_zero :
  Samples.shelf !! 1 = Some (ObjList [10; 20; 30])
  /\ handle_pagination Samples.int_of Samples.shelf (Some "1") 1 0
     = Raised "ZeroDivisionError".
Proof. split; reflexivity. Qed.

Lemma handle_pagination_returns_none_witness :
  exists h',
    handle_pagination Samples.int_of Samples.shelf (Some "2") 1 2
    = Returned (tt, h')
    /\ h' !! 1 = Some (ObjList [10; 20; 30]).
Proof.
  destruct (handle_pagination_returns_none Samples.int_of Samples.shelf
              (Some "2") 1 [10; 20; 30] 2) as (h' & Hrun & Hlist & _);
    [reflexivity | lia |].
  exists h'. split; [exact Hrun | exact Hlist].
Defined.

End PaginationFacts.


(** ** Approving a change request *)

Module AllocationChangeFacts.

Import AllocationChangeDetailView.



(** C4: approving a pending change request with two attribute changes is
    claimed to apply both; the view marks the request "Approved", extends
    the end date by the thirty days, saves the first attribute and then
    dies with AttributeError, leaving the second attribute at its old value
    and sending no signal, message or e-mail. *)
Theorem approve_stops_at_first_attribute :
  (Samples.change_post Samples.approve_change Samples.world2).2
  = Raised "AttributeError"
  /\ cr_status <$>
       change_requests (Samples.change_post Samples.approve_change Samples.world2).1
       !! 5
     = Some "Approved"
  /\ a_end_date <$>
       allocations (Samples.change_post Samples.approve_change Samples.world2).1
       !! 10
     = Some (Some (739030 + 30))
  /\ attr_value <$>
       attributes (Samples.change_post Samples.approve_change Samples.world2).1
       !! 20
     = Some "8000"
  /\ attr_value <$>
       attributes (Samples.change_post Samples.approve_change Samples.world2).1
       !! 21
     = Some "8"
  /\ log (Samples.change_post Samples.approve_change Samples.world2).1 = [].
Proof. repeat split. Qed.

End AllocationChangeFacts.

(** ** More on posting to the allocation detail view *)

Module AllocationDetailMoreFacts.

Import AllocationUpdateForm AllocationDetailView AllocationDetailFacts.

Section Facts.

Context (parse_date : string -> option date)
        (description_ok : string -> bool)
        (instance_errors : Allocation -> list string)
        (ALLOCATION_DEFAULT_ALLOCATION_LENGTH : Z)
        (resource_label pi_label : World -> Z -> string).

Local Abbreviation post :=
  (post parse_date description_ok instance_errors
     ALLOCATION_DEFAULT_ALLOCATION_LENGTH resource_label pi_label).

(** An action outside "update", "approve", "auto-approve" and "deny", or no
    action at all, is answered with "Invalid request" and touches nothing. *)
Theorem unknown_action_is_bad_request (now : datetime) (req : request)
  (w : World) (a : Allocation) :
  is_superuser (user req) = true ->
  allocations w !! pk req = Some a ->
  match action req with
  | Some act => name_in act ["update"; "approve"; "auto-approve"; "deny"] = false
  | None => True
  end ->
  post now req w = (w, Returned (BadRequest "Invalid request")).
Proof.
  intros Hs Ha Hact. unfold AllocationDetailView.post, vbind, get_world.
  rewrite Ha, Hs. cbn [negb]. destruct (action req) as [act|]; [|done].
  by rewrite Hact.
Qed.

Lemma removed_users_spec (w : World) (allocation_pk k : Z) (au : AllocationUser) :
  (k, au) ∈ allocation_user_qs w allocation_pk ["Removed"; "Error"]
  <-> allocation_users w !! k = Some au
      /\ au_allocation au = allocation_pk
      /\ name_in (au_status au) ["Removed"; "Error"] = false.
Proof.
  unfold allocation_user_qs, rows.
  rewrite list_elem_of_filter, elem_of_map_to_list. simpl.
  rewrite andb_True, bool_decide_spec, negb_True, Is_true_false.
  tauto.
Qed.

(** Denying: a superuser's "deny" on an allocation that is not yet "Denied",
    with an acceptable description and the model's validation accepting
    the denied allocation, leaves it "Denied" with both dates cleared,
    whatever dates were submitted; allocation_disable is sent for the
    allocation and allocation_remove_user for exactly its users whose
    status is neither "Removed" nor "Error". *)
Theorem deny_clears_dates (now : datetime) (req : request) (w : World)
  (a : Allocation) :
  is_superuser (user req) = true ->
  action req = Some "deny" ->
  allocations w !! pk req = Some a ->
  a_status a <> "Denied" ->
  description_ok (d_description (POST req)) = true ->
  instance_errors
    (save (clean_fields parse_date description_ok (user req) a
             (denied_data (POST req))) a)
  = [] ->
  exists w' a',
    post now req w = (w', Returned (Redirect (AllocationDetail (pk req))))
    /\ allocations w' = <[pk req := a']> (allocations w)
    /\ a_status a' = "Denied"
    /\ a_start_date a' = None
    /\ a_end_date a' = None
    /\ a_project a' = a_project a
    /\ log w'
       = (log w
          ++ [Message "success" "Allocation Denied!";
              Signal "allocation_disable" [pk req]]
          ++ ((fun r => Signal "allocation_remove_user" [r.1])
                <$> allocation_user_qs w (pk req) ["Removed"; "Error"])
          ++ [Email "Allocation Denied" "email/allocation_denied.txt" (pk req)])%list
    /\ (forall k, Signal "allocation_remove_user" [k] ∈ log w'
                  <-> Signal "allocation_remove_user" [k] ∈ log w
                      \/ exists au, allocation_users w !! k = Some au
                                    /\ au_allocation au = pk req
                                    /\ name_in (au_status au) ["Removed"; "Error"]
                                       = false).
Proof.
  intros Hs Hact Ha Hst Hdesc Hinst.
  apply String.eqb_neq in Hst.
  set (dirty := denied_data (POST req)) in *.
  set (form := clean_fields parse_date description_ok (user req) a dirty) in *.
  assert (Hvalid : is_valid instance_errors a form = true).
  { unfold is_valid, errors. unfold save in Hinst. rewrite Hinst.
    unfold form_errors, clean, flag, form. simpl. by rewrite Hdesc. }
  set (w1 := emit w (Message "success" "Allocation Denied!")).
  set (w2 := with_allocations w1 (<[pk req := save form a]> (allocations w1))).
  set (w3 := emit w2 (Signal "allocation_disable" [pk req])).
  set (w4 := emit_all w3 ((fun r => Signal "allocation_remove_user" [r.1])
                            <$> allocation_user_qs w3 (pk req) ["Removed"; "Error"])).
  set (w5 := emit w4 (Email "Allocation Denied" "email/allocation_denied.txt" (pk req))).
  assert (Hrun : post now req w = (w5, Returned (Redirect (AllocationDetail (pk req))))).
  { unfold AllocationDetailView.post, vbind at 1, get_world at 1.
    rewrite Ha, Hs, Hact. cbn [negb].
    replace (name_in "deny" ["update"; "approve"; "auto-approve"; "deny"])
      with true by reflexivity.
    replace (name_in "deny" ["approve"; "auto-approve"]) with false by reflexivity.
    replace (String.eqb "deny" "deny") with true by reflexivity.
    cbn [negb d_status set_status]. rewrite Hst. cbn [negb].
    unfold on_status_change.
    replace (String.eqb "Denied" "Active") with false by reflexivity.
    replace (name_in "Denied" ["Denied"; "New"; "Revoked"]) with true by reflexivity.
    replace (name_in "Denied" ["Denied"; "Revoked"]) with true by reflexivity.
    replace (String.eqb "Denied" "Denied") with true by reflexivity.
    unfold vbind, ret, get_world, send, modify, form_valid, after_save,
      vbind, ret, get_world, send, modify.
    fold w1.
    change (set_end_date (set_start_date (set_status (POST req) (StatusNamed "Denied"))
                            PyNone) PyNone) with dirty.
    fold form. rewrite Hvalid.
    cbn [allocation_signal allocation_user_signal allocation_user_exclude email_kwargs].
    fold w2. fold w3.
    rewrite (for_each_send (fun r : Z * AllocationUser =>
               Signal "allocation_remove_user" [r.1])).
    unfold get_success_url. rewrite Hact.
    replace (String.eqb "deny" "auto-approve") with false by reflexivity.
    reflexivity. }
  exists w5, (save form a).
  split; [exact Hrun|]. do 5 (split; [done|]).
  assert (Hlog : log w5
       = (log w
          ++ [Message "success" "Allocation Denied!";
              Signal "allocation_disable" [pk req]]
          ++ ((fun r => Signal "allocation_remove_user" [r.1])
                <$> allocation_user_qs w (pk req) ["Removed"; "Error"])
          ++ [Email "Allocation Denied" "email/allocation_denied.txt" (pk req)])%list).
  { simpl. rewrite <- !app_assoc. reflexivity. }
  split; [exact Hlog|].
  intros k. rewrite Hlog. rewrite !elem_of_app, list_elem_of_fmap.
  rewrite !elem_of_cons, !elem_of_nil.
  split.
  - intros [H|[[H|[H|[]]]|[H|[H|[]]]]]; try discriminate; [by left|].
    destruct H as ([k' au] & Heq & Hin). simpl in Heq. simplify_eq.
    right. exists au. by apply removed_users_spec.
  - intros [H|(au & H)]; [by left|].
    right. right. left. exists (k, au). split; [done|].
    by apply removed_users_spec.
Qed.

End Facts.

Lemma unknown_action_is_bad_request_witness :
  Samples.detail_post (Samples.detail_request Samples.admin "delete")
    Samples.world1
  = (Samples.world1, Returned (BadRequest "Invalid request")).
Proof.
  apply (unknown_action_is_bad_request Samples.parse_date Samples.description_ok
           Samples.instance_errors 365 Samples.label Samples.label Samples.now
           (Samples.detail_request Samples.admin "delete") Samples.world1
           (Samples.allocation 1 "Renewal Requested" (Some 738600) (Some 738965)));
    reflexivity.
Defined.

Lemma deny_clears_dates_witness :
  exists w' a',
    Samples.detail_post (Samples.detail_request Samples.admin "deny")
      Samples.world1
    = (w', Returned (Redirect (AllocationDetail 12)))
    /\ allocations w' !! 12 = Some a'
    /\ a_status a' = "Denied" /\ a_start_date a' = None /\ a_end_date a' = None.
Proof.
  destruct (deny_clears_dates Samples.parse_date Samples.description_ok
              Samples.instance_errors 365 Samples.label Samples.label Samples.now
              (Samples.detail_request Samples.admin "deny") Samples.world1
              (Samples.allocation 1 "Renewal Requested" (Some 738600) (Some 738965)))
    as (w' & a' & Hrun & Hall & Hst & Hsd & Hed & _);
    [reflexivity | reflexivity | reflexivity | discriminate | reflexivity
    | reflexivity |].
  exists w', a'. split; [exact Hrun|].
  split; [rewrite Hall; apply lookup_insert_eq|]. by repeat split.
Defined.

End AllocationDetailMoreFacts.

(** ** Edges of the approval *)

Module AllocationDetailEdgeFacts.

Import AllocationUpdateForm AllocationDetailView.

Section Facts.

Context (parse_date : string -> option date)
        (description_ok : string -> bool)
        (instance_errors : Allocation -> list string)
        (ALLOCATION_DEFAULT_ALLOCATION_LENGTH : Z)
        (resource_label pi_label : World -> Z -> string).

Local Abbreviation post :=
  (post parse_date description_ok instance_errors
     ALLOCATION_DEFAULT_ALLOCATION_LENGTH resource_label pi_label).

(** When the form bound for an approval does not validate (a field, the
    form's clean or the model's validation of the instance fails), no row
    is written and nothing is sent, yet the flash message announcing the
    activation has already been queued. *)
Theorem rejected_approval_still_announces (now : datetime) (req : request)
  (w : World) (a : Allocation) :
  is_superuser (user req) = true ->
  action req = Some "approve" ->
  allocations w !! pk req = Some a ->
  a_status a <> "Active" ->
  is_valid instance_errors a
    (clean_fields parse_date description_ok (user req) a
       (approved_data ALLOCATION_DEFAULT_ALLOCATION_LENGTH now a (POST req)))
  = false ->
  exists errs,
    post now req w
    = (emit w (Message "success" "Allocation Activated!"), Returned (Rendered errs))
    /\ errs <> []
    /\ allocations (emit w (Message "success" "Allocation Activated!"))
       = allocations w.
Proof.
  intros Hs Hact Ha Hst Hinvalid.
  apply String.eqb_neq in Hst.
  unfold AllocationDetailView.post, vbind at 1, get_world at 1.
  rewrite Ha, Hs, Hact. cbn [negb].
  replace (name_in "approve" ["update"; "approve"; "auto-approve"; "deny"])
    with true by reflexivity.
  replace (name_in "approve" ["approve"; "auto-approve"]) with true by reflexivity.
  cbn [negb d_status set_status]. rewrite Hst. cbn [negb].
  unfold on_status_change.
  replace (String.eqb "Active" "Active") with true by reflexivity.
  replace (name_in "approve" ["approve"; "auto-approve"]) with true by reflexivity.
  replace (String.eqb "approve" "auto-approve") with false by reflexivity.
  unfold vbind, ret, get_world, send, modify, form_invalid, ret.
  cbn [negb].
  change (clean_fields parse_date description_ok (user req) a _)
    with (clean_fields parse_date description_ok (user req) a
            (approved_data ALLOCATION_DEFAULT_ALLOCATION_LENGTH now a (POST req))).
  rewrite Hinvalid. eexists. split; [reflexivity|]. split; [|done].
  unfold is_valid in Hinvalid. by destruct (errors _ _ _).
Qed.

(** Approving an allocation that is already "Active" is handled as a plain
    update of the submitted form: a form that validates (its fields, its
    clean and the model's validation of the instance) is saved as
    submitted, with the submitted status, and no message, signal or e-mail
    follows. *)
Theorem approve_on_active_is_plain_update (now : datetime) (req : request)
  (w : World) (a : Allocation) (act : string) :
  is_superuser (user req) = true ->
  action req = Some act ->
  act = "approve" \/ act = "auto-approve" ->
  allocations w !! pk req = Some a ->
  a_status a = "Active" ->
  is_valid instance_errors a
    (clean_fields parse_date description_ok (user req) a (POST req))
  = true ->
  exists a',
    post now req w
    = (with_allocations w (<[pk req := a']> (allocations w)),
       Returned (Redirect (get_success_url req)))
    /\ instance_errors a' = []
    /\ d_status (POST req) = StatusNamed (a_status a')
    /\ a_start_date a' = get_date (clean_date parse_date (d_start_date (POST req)))
    /\ a_end_date a' = get_date (clean_date parse_date (d_end_date (POST req)))
    /\ log (with_allocations w (<[pk req := a']> (allocations w))) = log w.
Proof.
  intros Hs Hact Hor Ha Hst Hvalid.
  unfold AllocationDetailView.post, vbind at 1, get_world at 1.
  rewrite Ha, Hs, Hact. cbn [negb].
  assert (Hin : name_in act ["update"; "approve"; "auto-approve"; "deny"] = true)
    by (destruct Hor; subst act; reflexivity).
  assert (Hin2 : name_in act ["approve"; "auto-approve"] = true)
    by (destruct Hor; subst act; reflexivity).
  rewrite Hin, Hin2. cbn [negb d_status set_status]. rewrite Hst.
  replace (String.eqb "Active" "Active") with true by reflexivity.
  cbn [negb]. unfold super_post. rewrite Hvalid.
  unfold form_valid, vbind, modify, ret.
  set (form := clean_fields parse_date description_ok (user req) a (POST req)) in *.
  assert (Herrs : form_errors form = [] /\ instance_errors (save form a) = []).
  { unfold is_valid, errors in Hvalid. unfold save.
    destruct (form_errors form); [|done].
    by destruct (instance_errors (construct_instance form a)). }
  destruct Herrs as [Hform Hinst].
  exists (save form a). split; [reflexivity|].
  split; [exact Hinst|].
  unfold form_errors, flag, form in Hform. cbn in Hform.
  unfold save, construct_instance, form. cbn.
  destruct (d_status (POST req)) as [name| |]; [|done..]. cbn in *.
  destruct (clean_date parse_date (d_start_date (POST req))) as [sd|]; [|done].
  destruct (clean_date parse_date (d_end_date (POST req))) as [ed|]; [|done].
  destruct sd, ed; by repeat split.
Qed.

End Facts.

Lemma approve_on_active_is_plain_update_witness :
  exists a',
    AllocationDetailView.post Samples.parse_date Samples.description_ok
      Samples.instance_errors 365 Samples.label Samples.label Samples.now
      {| user := Samples.admin; pk := 10; action := Some "approve";
         POST := Samples.edited_form |}
      Samples.world1
    = (with_allocations Samples.world1 (<[10 := a']> (allocations Samples.world1)),
       Returned (Redirect (AllocationDetail 10)))
    /\ a_status a' = "Renewal Requested".
Proof.
  destruct (approve_on_active_is_plain_update Samples.parse_date
              Samples.description_ok Samples.instance_errors 365
              Samples.label Samples.label Samples.now
              {| user := Samples.admin; pk := 10; action := Some "approve";
                 POST := Samples.edited_form |}
              Samples.world1
              (Samples.allocation 1 "Active" (Some 738900) (Some 739030))
              "approve")
    as (a' & Hrun & _ & Hst & _);
    [reflexivity | reflexivity | by left | reflexivity | reflexivity
    | reflexivity |].
  exists a'. split; [exact Hrun|]. simpl in Hst. congruence.
Defined.

Lemma rejected_approval_still_announces_witness :
  exists errs,
    AllocationDetailView.post Samples.parse_date (fun _ => false)
      Samples.instance_errors 365 Samples.label Samples.label Samples.now
      (Samples.detail_request Samples.admin "approve") Samples.world1
    = (emit Samples.world1 (Message "success" "Allocation Activated!"),
       Returned (Rendered errs)).
Proof.
  destruct (rejected_approval_still_announces Samples.parse_date
              (fun _ => false) Samples.instance_errors 365
              Samples.label Samples.label Samples.now
              (Samples.detail_request Samples.admin "approve") Samples.world1
              (Samples.allocation 1 "Renewal Requested" (Some 738600) (Some 738965)))
    as (errs & Hrun & _);
    [reflexivity | reflexivity | reflexivity | discriminate | reflexivity |].
  exists errs. exact Hrun.
Defined.

End AllocationDetailEdgeFacts.

(** ** More on the change request view *)

Module AllocationChangeMoreFacts.

Import AllocationChangeDetailView.

Section Facts.

Context (EXTENSION_DAYS : list Z)
        (notes_ok : string -> bool)
        (attribute_clean : AllocationAttribute -> option string -> bool)
        (resource_label pi_label : World -> Z -> string)
        (user_has_perm : User -> string -> bool)
        (allocation_has_perm : World -> Z -> User -> string -> bool).

Local Abbreviation post :=
  (post EXTENSION_DAYS notes_ok attribute_clean resource_label pi_label).
Local Abbreviation dispatch :=
  (dispatch EXTENSION_DAYS notes_ok attribute_clean resource_label pi_label
     user_has_perm allocation_has_perm).
Local Abbreviation test_func := (test_func user_has_perm allocation_has_perm).
Local Abbreviation form_error_list := (form_error_list EXTENSION_DAYS notes_ok).
Local Abbreviation form_save := (form_save EXTENSION_DAYS notes_ok).

(** Only superusers change a change request. A POST by anyone else writes
    no row: an anonymous user is sent to the login page; a user who neither
    may view all allocations nor manages the request's allocation is
    refused (403) without a message; any other user gets the error message
    and is sent back to the page of the change request. *)
Theorem change_request_needs_superuser (req : request) (w : World)
  (object : AllocationChangeRequest) :
  change_requests w !! pk req = Some object ->
  is_superuser (user req) = false ->
  dispatch req w
  = if negb (is_authenticated (user req)) then (w, Returned (Redirect LoginPage))
    else if user_has_perm (user req) "allocation.can_view_all_allocations"
            || allocation_has_perm w (cr_allocation object) (user req) "MANAGER"
    then (emit w (Message "error"
                    "You do not have permission to update an allocation change request"),
          Returned (Redirect (AllocationChangeDetail (pk req))))
    else (w, Returned Forbidden).
Proof.
  intros Ho Hs. unfold AllocationChangeDetailView.dispatch.
  destruct (is_authenticated (user req)); [|done]. cbn [negb].
  assert (Hpost : post req w
                  = (emit w (Message "error"
                       "You do not have permission to update an allocation change request"),
                     Returned (Redirect (AllocationChangeDetail (pk req))))).
  { unfold AllocationChangeDetailView.post, vbind, get_world.
    by rewrite Ho, Hs. }
  unfold vbind at 1, test_func, vbind at 1, get_world at 1. rewrite Ho.
  destruct (user_has_perm (user req) "allocation.can_view_all_allocations");
    [exact Hpost|].
  destruct (allocation_has_perm w (cr_allocation object) (user req) "MANAGER");
    [exact Hpost|done].
Qed.

(** Denying a change request: the request is saved as "Denied" with the
    form's notes and extension; the allocation, its attributes and the
    requested attribute changes are left alone, whatever the formset holds. *)
Theorem deny_change_request (req : request) (w : World)
  (object : AllocationChangeRequest) :
  change_requests w !! pk req = Some object ->
  is_superuser (user req) = true ->
  action req = Some "deny" ->
  form_error_list req object = [] ->
  exists w',
    post req w = (w', Returned (Redirect (AllocationChangeDetail (pk req))))
    /\ change_requests w'
       = <[pk req := with_status (form_save req object) "Denied"]> (change_requests w)
    /\ allocations w' = allocations w
    /\ attributes w' = attributes w
    /\ attribute_changes w' = attribute_changes w
    /\ log w'
       = (log w
          ++ [Message "success"
                (outcome_message resource_label pi_label "DENIED" w
                   (with_status (form_save req object) "Denied"));
              Email "Allocation Change Denied" "email/allocation_change_denied.txt"
                    (cr_allocation object)])%list.
Proof.
  intros Ho Hs Hact Hvalid.
  unfold AllocationChangeDetailView.post, vbind at 1, get_world at 1.
  rewrite Ho, Hs, Hact. cbn [negb].
  replace (name_in "deny" ["update"; "approve"; "deny"]) with true by reflexivity.
  cbn [negb]. rewrite Hvalid.
  replace (String.eqb "deny" "deny") with true by reflexivity.
  unfold vbind, save_object, send, modify, ret. eexists.
  split; [reflexivity|]. simpl. rewrite <- app_assoc. by repeat split.
Qed.


End Facts.

Lemma change_request_needs_superuser_witness :
  Samples.change_dispatch (Samples.change_request_by Samples.member "approve")
    Samples.world2
  = (emit Samples.world2
       (Message "error"
          "You do not have permission to update an allocation change request"),
     Returned (Redirect (AllocationChangeDetail 5)))
  /\ Samples.change_dispatch
       (Samples.change_request_by Samples.outsider "approve") Samples.world2
     = (Samples.world2, Returned Forbidden).
Proof.
  split.
  - apply (change_request_needs_superuser [30; 60; 90] (fun _ => true)
             (fun _ _ => true) Samples.label Samples.label
             Samples.user_has_perm Samples.allocation_has_perm
             (Samples.change_request_by Samples.member "approve") Samples.world2
             {| cr_allocation := 10; cr_status := "Pending";
                cr_end_date_extension := 30;
                cr_justification := "more runs"; cr_notes := EmptyString |});
      reflexivity.
  - apply (change_request_needs_superuser [30; 60; 90] (fun _ => true)
             (fun _ _ => true) Samples.label Samples.label
             Samples.user_has_perm Samples.allocation_has_perm
             (Samples.change_request_by Samples.outsider "approve")
             Samples.world2
             {| cr_allocation := 10; cr_status := "Pending";
                cr_end_date_extension := 30;
                cr_justification := "more runs"; cr_notes := EmptyString |});
      reflexivity.
Defined.

Lemma deny_change_request_witness :
  exists w',
    Samples.change_post (Samples.change_request_by Samples.admin "deny")
      Samples.world2
    = (w', Returned (Redirect (AllocationChangeDetail 5)))
    /\ cr_status <$> change_requests w' !! 5 = Some "Denied"
    /\ allocations w' = allocations Samples.world2.
Proof.
  destruct (deny_change_request [30; 60; 90] (fun _ => true)
              (fun _ _ => true) Samples.label Samples.label
              (Samples.change_request_by Samples.admin "deny") Samples.world2
              {| cr_allocation := 10; cr_status := "Pending";
                 cr_end_date_extension := 30;
                 cr_justification := "more runs"; cr_notes := EmptyString |})
    as (w' & Hrun & Hcr & Hal & _); [reflexivity..|].
  exists w'. split; [exact Hrun|]. split; [|exact Hal].
  rewrite Hcr. by rewrite lookup_insert_eq.
Defined.


End AllocationChangeMoreFacts.

(** ** Approving attribute changes *)

Module AllocationChangeLoopFacts.

Import AllocationChangeDetailView AllocationChangeFacts.




Section Facts.

Context (EXTENSION_DAYS : list Z)
        (notes_ok : string -> bool)
        (attribute_clean : AllocationAttribute -> option string -> bool)
        (resource_label pi_label : World -> Z -> string).

Local Abbreviation post :=
  (post EXTENSION_DAYS notes_ok attribute_clean resource_label pi_label).
Local Abbreviation form_error_list := (form_error_list EXTENSION_DAYS notes_ok).
Local Abbreviation form_save := (form_save EXTENSION_DAYS notes_ok).


End Facts.


End AllocationChangeLoopFacts.

(** ** Removing users from allocations and projects *)

Module UserManagementFacts.

Import UserManagement ViewFacts.

Local Abbreviation remove_signal :=
  (fun k : Z => Signal "allocation_remove_user" [k]).

(** The rows [remove_user_from_allocation] picks. *)
Local Abbreviation picked allocation user_obj :=
  (fun r : AllocationUser =>
     bool_decide (au_allocation r = allocation)
     && bool_decide (au_user r = user_obj)
     && name_in (au_status r) ["Active"]).

(** How the code sends a signal, where nothing stands in its way. *)
Lemma signal_step (send_signals : bool) (obj_class : option string)
  (name : string) (pks : list Z) (w : World) :
  send_signals = false \/ is_Some obj_class ->
  (if send_signals then send_signal obj_class name pks else ret tt) w
  = ((if send_signals then emit w (Signal name pks) else w), Returned tt).
Proof. intros [->|[c ->]]; [done|]. by destruct send_signals. Qed.

Lemma with_allocation_users_id (w : World) :
  with_allocation_users w (allocation_users w) = w.
Proof. by destruct w. Qed.

Lemma emit_all_empty (w : World) : emit_all w [] = w.
Proof. destruct w. unfold emit_all. simpl. by rewrite app_nil_r. Qed.

Lemma emit_all_fuse (w : World) (t1 t2 : gmap Z AllocationUser)
  (es1 es2 : list event) :
  emit_all (with_allocation_users (emit_all (with_allocation_users w t1) es1) t2) es2
  = emit_all (with_allocation_users w t2) (es1 ++ es2).
Proof. unfold emit_all, with_allocation_users. simpl. by rewrite app_assoc. Qed.

Lemma name_in_active (s : string) : name_in s ["Active"] = true <-> s = "Active".
Proof.
  unfold name_in. simpl. rewrite orb_false_r. apply String.eqb_eq.
Qed.

Lemma picked_spec (allocation user_obj : Z) (r : AllocationUser) :
  picked allocation user_obj r = true
  <-> au_allocation r = allocation /\ au_user r = user_obj
      /\ au_status r = "Active".
Proof.
  rewrite !andb_true_iff, !bool_decide_eq_true, name_in_active. tauto.
Qed.

Lemma picked_removed (allocation user_obj : Z) (r : AllocationUser) :
  picked allocation user_obj (removed_allocation_user r) = false.
Proof. simpl. by rewrite andb_false_r. Qed.

Lemma filter_none {A : Type} (P : A -> bool) (l : list A) :
  (forall x, x ∈ l -> P x = false) -> filter P l = [].
Proof.
  intros Hall. destruct (filter P l) as [|x rest] eqn:Hf; [done|].
  assert (Hx : x ∈ filter P l) by (rewrite Hf; apply elem_of_cons; by left).
  apply list_elem_of_filter in Hx as [HP Hx].
  rewrite (Hall x Hx) in HP. done.
Qed.

Lemma elem_of_filter_rows {A : Type} (P : Z * A -> bool) (t : gmap Z A)
  (k : Z) (a : A) :
  (k, a) ∈ filter P (rows t) <-> t !! k = Some a /\ P (k, a) = true.
Proof.
  unfold rows. rewrite list_elem_of_filter, elem_of_map_to_list.
  rewrite Is_true_true. tauto.
Qed.

Lemma elem_of_keys_filter_rows {A : Type} (P : Z * A -> bool) (t : gmap Z A)
  (k : Z) :
  k ∈ (filter P (rows t)).*1 <-> exists a, t !! k = Some a /\ P (k, a) = true.
Proof.
  rewrite list_elem_of_fmap. split.
  - intros ([k' a] & -> & Hin). exists a. by apply elem_of_filter_rows.
  - intros (a & Hin). exists (k, a). split; [done|]. by apply elem_of_filter_rows.
Qed.

(** Marking every row of a queryset "Removed", with or without a signal
    per row. *)
Lemma for_each_remove_rows (send_signals : bool) (obj_class : option string)
  (l : list (Z * AllocationUser)) (w : World) :
  send_signals = false \/ is_Some obj_class ->
  NoDup l.*1 ->
  exists t',
    for_each l (fun r =>
      modify (fun w =>
        with_allocation_users w
          (<[r.1 := removed_allocation_user r.2]> (allocation_users w))) ;;
      if send_signals then send_signal obj_class "allocation_remove_user" [r.1]
      else ret tt) w
    = (emit_all (with_allocation_users w t')
         (if send_signals then remove_signal <$> l.*1 else []),
       Returned tt)
    /\ forall k, t' !! k
                 = match (list_to_map l : gmap Z AllocationUser) !! k with
                   | Some a => Some (removed_allocation_user a)
                   | None => allocation_users w !! k
                   end.
Proof.
  intros Hok. revert w. induction l as [|[k0 a0] rest IH]; intros w Hnd.
  - exists (allocation_users w). split; [|done]. simpl. unfold ret.
    rewrite with_allocation_users_id.
    by destruct send_signals; rewrite emit_all_empty.
  - inversion Hnd as [|? ? Hnotin Hnd']; subst.
    set (t1 := <[k0 := removed_allocation_user a0]> (allocation_users w)).
    set (w1 := if send_signals
               then emit (with_allocation_users w t1)
                         (Signal "allocation_remove_user" [k0])
               else with_allocation_users w t1).
    destruct (IH w1 Hnd') as (t' & Hrun & Hlook).
    exists t'. split.
    + cbn [for_each]. unfold vbind at 1. unfold vbind at 1. unfold modify at 1.
      cbn [fst snd].
      assert (Hstep : (if send_signals
                       then send_signal obj_class "allocation_remove_user" [k0]
                       else ret tt) (with_allocation_users w t1)
                      = (w1, Returned tt)).
      { unfold w1. by apply signal_step. }
      fold t1. rewrite Hstep. rewrite Hrun.
      f_equal. unfold w1. destruct send_signals.
      * unfold emit_all, emit, with_allocation_users. simpl.
        by rewrite <- app_assoc.
      * unfold emit_all, with_allocation_users. by simpl.
    + intros k. rewrite Hlook.
      assert (Hw1 : allocation_users w1 = t1).
      { unfold w1. by destruct send_signals. }
      rewrite Hw1. unfold t1. simpl.
      destruct (decide (k = k0)) as [->|Hne].
      * rewrite lookup_insert_eq.
        rewrite (not_elem_of_list_to_map_1 _ _ Hnotin).
        by rewrite lookup_insert_eq.
      * by rewrite !lookup_insert_ne.
Qed.

(** [remove_user_from_allocation], run: the table it leaves and the
    signals it sends. *)
Lemma remove_user_from_allocation_run (allocation user_obj : Z)
  (send_signals : bool) (obj_class : option string) (w : World) :
  send_signals = false \/ is_Some obj_class ->
  exists t',
    remove_user_from_allocation allocation user_obj send_signals obj_class w
    = (emit_all (with_allocation_users w t')
         (if send_signals
          then remove_signal <$> (active_allocation_users w allocation user_obj).*1
          else []),
       Returned tt)
    /\ forall k, t' !! k
                 = (fun r => if picked allocation user_obj r
                             then removed_allocation_user r else r)
                   <$> allocation_users w !! k.
Proof.
  intros Hok.
  destruct (for_each_remove_rows send_signals obj_class
              (active_allocation_users w allocation user_obj) w Hok)
    as (t' & Hrun & Hlook).
  { apply NoDup_filter_rows. }
  exists t'. split.
  - unfold remove_user_from_allocation, vbind at 1, get_world at 1.
    exact Hrun.
  - intros k. rewrite Hlook. unfold active_allocation_users.
    rewrite list_to_map_filter_rows. simpl.
    destruct (allocation_users w !! k) as [r|] eqn:Hk; simpl; [|done].
    by destruct (bool_decide (au_allocation r = allocation)
                 && bool_decide (au_user r = user_obj)
                 && (String.eqb (au_status r) "Active" || false)).
Qed.

(** Without a sender the first signal fails, after the first row is
    saved. *)
Lemma remove_user_from_allocation_fails (allocation user_obj : Z) (w : World)
  (k : Z) (r : AllocationUser) (rest : list (Z * AllocationUser)) :
  active_allocation_users w allocation user_obj = (k, r) :: rest ->
  remove_user_from_allocation allocation user_obj true None w
  = (with_allocation_users w
       (<[k := removed_allocation_user r]> (allocation_users w)),
     Raised "TypeError").
Proof.
  intros Hact. unfold remove_user_from_allocation, vbind at 1, get_world at 1.
  by rewrite Hact.
Qed.

Lemma remove_user_from_allocation_none (allocation user_obj : Z)
  (send_signals : bool) (obj_class : option string) (w : World) :
  active_allocation_users w allocation user_obj = [] ->
  remove_user_from_allocation allocation user_obj send_signals obj_class w
  = (w, Returned tt).
Proof.
  intros Hact. unfold remove_user_from_allocation, vbind at 1, get_world at 1.
  by rewrite Hact.
Qed.

(** When signals are off, or a sender class is given, or the user has no
    active row on the allocation, remove_user_from_allocation returns: it
    marks "Removed" exactly the rows of the allocation and the user whose
    status is "Active", keeps every other row and every other table, and
    sends allocation_remove_user once for each row it marked (in the order
    the queryset yields them) when signals are on, nothing otherwise. With
    signals on, no sender class (the defaults) and an active row, the first
    such row is saved as "Removed" and the call then fails with TypeError,
    [Signal.send] lacking its sender. *)
Theorem remove_user_from_allocation_effect (allocation user_obj : Z)
  (send_signals : bool) (obj_class : option string) (w : World) :
  (send_signals = false \/ is_Some obj_class
   \/ active_allocation_users w allocation user_obj = [] ->
   exists w',
     remove_user_from_allocation allocation user_obj send_signals obj_class w
     = (w', Returned tt)
     /\ (forall k r, allocation_users w !! k = Some r ->
                     au_allocation r = allocation -> au_user r = user_obj ->
                     au_status r = "Active" ->
                     allocation_users w' !! k = Some (removed_allocation_user r))
     /\ (forall k r, allocation_users w !! k = Some r ->
                     au_allocation r <> allocation \/ au_user r <> user_obj
                     \/ au_status r <> "Active" ->
                     allocation_users w' !! k = Some r)
     /\ (forall k, allocation_users w !! k = None ->
                   allocation_users w' !! k = None)
     /\ (exists order,
           order ≡ₚ (active_allocation_users w allocation user_obj).*1
           /\ log w'
              = (log w ++ if send_signals then remove_signal <$> order
                          else [])%list)
     /\ projects w' = projects w
     /\ project_users w' = project_users w
     /\ allocations w' = allocations w
     /\ attributes w' = attributes w
     /\ change_requests w' = change_requests w
     /\ attribute_changes w' = attribute_changes w)
  /\ (send_signals = true -> obj_class = None ->
      forall k r rest,
        active_allocation_users w allocation user_obj = (k, r) :: rest ->
        remove_user_from_allocation allocation user_obj send_signals obj_class w
        = (with_allocation_users w
             (<[k := removed_allocation_user r]> (allocation_users w)),
           Raised "TypeError")).
Proof.
  split.
  - intros Hcase.
    assert (Hok : (send_signals = false \/ is_Some obj_class)
                  \/ active_allocation_users w allocation user_obj = [])
      by tauto.
    destruct Hok as [Hok|Hnone].
    + destruct (remove_user_from_allocation_run allocation user_obj send_signals
                  obj_class w Hok) as (t' & Hrun & Hlook).
      eexists. split; [exact Hrun|].
      unfold emit_all, with_allocation_users.
      cbn [allocation_users log projects project_users allocations attributes
           change_requests attribute_changes].
      split; [|split; [|split; [|split; [|by repeat split]]]].
      * intros k r Hk Ha Hu Hs. rewrite Hlook, Hk.
        cbn [fmap option_fmap option_map].
        by rewrite (proj2 (picked_spec allocation user_obj r)).
      * intros k r Hk Hnot. rewrite Hlook, Hk.
        cbn [fmap option_fmap option_map].
        destruct (bool_decide _ && bool_decide _ && name_in _ _) eqn:HP; [|done].
        apply (proj1 (picked_spec allocation user_obj r)) in HP. tauto.
      * intros k Hk. by rewrite Hlook, Hk.
      * by exists (active_allocation_users w allocation user_obj).*1.
    + rewrite (remove_user_from_allocation_none _ _ _ _ _ Hnone).
      exists w. split; [done|]. rewrite Hnone.
      split; [|split; [done|split; [done|split; [|done]]]].
      * intros k r Hk Ha Hu Hs. exfalso.
        assert (Hin : (k, r) ∈ active_allocation_users w allocation user_obj).
        { unfold active_allocation_users. apply elem_of_filter_rows.
          split; [done|]. by apply picked_spec. }
        rewrite Hnone in Hin. by apply elem_of_nil in Hin.
      * exists []. split; [done|].
        destruct send_signals; by rewrite app_nil_r.
  - intros -> -> k r rest Hact.
    by apply remove_user_from_allocation_fails with rest.
Qed.

Lemma remove_user_from_allocation_effect_witness :
  (exists w',
     remove_user_from_allocation 10 2 true (Some "ProjectRemoveUsersView")
       Samples.world1
     = (w', Returned tt)
     /\ au_status <$> allocation_users w' !! 101 = Some "Removed"
     /\ log w' = [Signal "allocation_remove_user" [101]])
  /\ exists w',
       remove_user_from_allocation 10 2 true None Samples.world1
       = (w', Raised "TypeError")
       /\ au_status <$> allocation_users w' !! 101 = Some "Removed"
       /\ log w' = [].
Proof.
  split.
  - destruct (proj1 (remove_user_from_allocation_effect 10 2 true
                       (Some "ProjectRemoveUsersView") Samples.world1))
      as (w' & Hrun & Hgone & _ & _ & (order & Hperm & Hlog) & _).
    { right. left. by eexists. }
    exists w'. split; [exact Hrun|]. split.
    + by rewrite (Hgone 101 {| au_allocation := 10; au_user := 2;
                               au_status := "Active" |}).
    + assert (Horder : order = [101]).
      { apply Permutation_singleton_r. exact Hperm. }
      rewrite Hlog, Horder. reflexivity.
  - eexists. split.
    + apply (proj2 (remove_user_from_allocation_effect 10 2 true None
                      Samples.world1) eq_refl eq_refl 101
               {| au_allocation := 10; au_user := 2; au_status := "Active" |} []).
      reflexivity.
    + split; reflexivity.
Defined.

(** Removing a user from an allocation a second time does nothing: no row
    changes and no signal is sent, so the second call returns whatever its
    own arguments are. This holds after a first call that returned, and
    also after one that failed on its signal when the user had one active
    row on the allocation (a first call that failed with several active
    rows has saved only the first of them). *)
Theorem remove_user_from_allocation_twice (allocation user_obj : Z)
  (first second : bool) (first_class second_class : option string) (w : World) :
  (remove_user_from_allocation allocation user_obj first first_class w).2
  = Returned tt
  \/ (length (active_allocation_users w allocation user_obj) <= 1)%nat ->
  remove_user_from_allocation allocation user_obj second second_class
    (remove_user_from_allocation allocation user_obj first first_class w).1
  = ((remove_user_from_allocation allocation user_obj first first_class w).1,
     Returned tt).
Proof.
  intros Hcase.
  assert (Hnone : active_allocation_users
                    (remove_user_from_allocation allocation user_obj first
                       first_class w).1 allocation user_obj = []).
  { assert (Hsent : (first = false \/ is_Some first_class)
                    \/ first = true /\ first_class = None).
    { destruct first; [|by left; left].
      destruct first_class; [left; right; by eexists | by right]. }
    destruct Hsent as [Hok|[-> ->]].
    - destruct (remove_user_from_allocation_run allocation user_obj first
                  first_class w Hok) as (t' & Hrun & Hlook).
      rewrite Hrun. cbn [fst]. set (w' := emit_all _ _).
      apply filter_none. intros [k r] Hin.
      apply elem_of_map_to_list in Hin.
      change (allocation_users w') with t' in Hin.
      rewrite Hlook in Hin.
      destruct (allocation_users w !! k) as [r0|]; [|done].
      cbn [fmap option_fmap option_map] in Hin. injection Hin as <-.
      cbn [snd].
      change (String.eqb (au_status r0) "Active" || false)
        with (name_in (au_status r0) ["Active"]).
      destruct (bool_decide (au_allocation r0 = allocation)
                && bool_decide (au_user r0 = user_obj)
                && name_in (au_status r0) ["Active"]) eqn:HP; [|exact HP].
      apply picked_removed.
    - destruct (active_allocation_users w allocation user_obj)
        as [|[k r] rest] eqn:Hact.
      + by rewrite (remove_user_from_allocation_none _ _ _ _ _ Hact).
      + rewrite (remove_user_from_allocation_fails _ _ _ _ _ _ Hact) in Hcase.
        rewrite (remove_user_from_allocation_fails _ _ _ _ _ _ Hact).
        destruct Hcase as [Hret|Hlen]; [discriminate Hret|].
        destruct rest as [|? ?]; [|simpl in Hlen; lia].
        cbn [fst]. apply filter_none. intros [k1 r1] Hin.
        apply elem_of_map_to_list in Hin.
        change (<[k := removed_allocation_user r]> (allocation_users w) !! k1
                = Some r1) in Hin.
        destruct (decide (k1 = k)) as [->|Hne].
        * rewrite lookup_insert_eq in Hin. injection Hin as <-.
          apply picked_removed.
        * rewrite lookup_insert_ne in Hin by done.
          destruct (picked allocation user_obj (k1, r1).2) eqn:HP; [|exact HP].
          exfalso.
          assert (Hin1 : (k1, r1) ∈ active_allocation_users w allocation user_obj).
          { unfold active_allocation_users. by apply elem_of_filter_rows. }
          rewrite Hact in Hin1. apply list_elem_of_singleton in Hin1.
          congruence. }
  by apply remove_user_from_allocation_none.
Qed.

Lemma remove_user_from_allocation_twice_witness :
  remove_user_from_allocation 10 2 true None
    (remove_user_from_allocation 10 2 true (Some "ProjectRemoveUsersView")
       Samples.world1).1
  = ((remove_user_from_allocation 10 2 true (Some "ProjectRemoveUsersView")
        Samples.world1).1,
     Returned tt).
Proof.
  apply (remove_user_from_allocation_twice 10 2 true true
           (Some "ProjectRemoveUsersView") None Samples.world1).
  left. reflexivity.
Defined.

(** The rows removed when the user leaves each allocation of a list. *)
Local Abbreviation picked_any L user_obj :=
  (fun r : AllocationUser =>
     existsb (fun x : Z * Allocation => bool_decide (au_allocation r = x.1)) L
     && bool_decide (au_user r = user_obj)
     && name_in (au_status r) ["Active"]).

Lemma picked_any_cons (x : Z * Allocation) (L : list (Z * Allocation))
  (user_obj : Z) (r : AllocationUser) :
  picked_any (x :: L) user_obj r
  = picked x.1 user_obj r || picked_any L user_obj r.
Proof.
  cbn [existsb].
  by destruct (bool_decide (au_allocation r = x.1)),
              (existsb (fun x => bool_decide (au_allocation r = x.1)) L),
              (bool_decide (au_user r = user_obj)),
              (name_in (au_status r) ["Active"]).
Qed.

Lemma picked_any_removed (L : list (Z * Allocation)) (user_obj : Z)
  (r : AllocationUser) :
  picked_any L user_obj (removed_allocation_user r) = false.
Proof. cbn [au_status removed_allocation_user]. by rewrite andb_false_r. Qed.

Lemma picked_any_spec (L : list (Z * Allocation)) (user_obj : Z) (w : World)
  (k : Z) (r : AllocationUser) :
  allocation_users w !! k = Some r ->
  picked_any L user_obj r = true
  <-> exists x, x ∈ L /\ (k, r) ∈ active_allocation_users w x.1 user_obj.
Proof.
  intros Hk. unfold active_allocation_users. split.
  - intros HP. apply andb_true_iff in HP as [HP Hact].
    apply andb_true_iff in HP as [Hex Hu].
    apply existsb_exists in Hex as (x & Hx & Ha).
    exists x. split; [by apply list_elem_of_In|].
    apply elem_of_filter_rows. split; [done|]. cbn [snd].
    by rewrite Ha, Hu, Hact.
  - intros (x & Hx & Hin). apply elem_of_filter_rows in Hin as [_ HP].
    cbn [snd] in HP.
    apply andb_true_iff in HP as [HP Hact].
    apply andb_true_iff in HP as [Ha Hu].
    rewrite Hu, Hact, !andb_true_r.
    apply existsb_exists. exists x. split; [by apply list_elem_of_In|done].
Qed.

(** Leaving every allocation of a queryset, one after the other. *)
Lemma for_each_remove_from_allocations (user_obj : Z) (send_signals : bool)
  (obj_class : option string) (L : list (Z * Allocation)) (w : World) :
  send_signals = false \/ is_Some obj_class ->
  exists t' pks,
    for_each L (fun r =>
      remove_user_from_allocation r.1 user_obj send_signals obj_class) w
    = (emit_all (with_allocation_users w t')
         (if send_signals then remove_signal <$> pks else []),
       Returned tt)
    /\ (forall k, t' !! k
                  = (fun r => if picked_any L user_obj r
                              then removed_allocation_user r else r)
                    <$> allocation_users w !! k)
    /\ NoDup pks
    /\ (forall k, k ∈ pks
                  <-> exists r, allocation_users w !! k = Some r
                                /\ picked_any L user_obj r = true).
Proof.
  intros Hok. revert w. induction L as [|x rest IH]; intros w.
  - exists (allocation_users w), []. split; [|split; [|split]].
    + cbn [for_each]. unfold ret. rewrite with_allocation_users_id.
      by destruct send_signals; rewrite emit_all_empty.
    + intros k. by destruct (allocation_users w !! k).
    + constructor.
    + intros k. split; [by intros ?%elem_of_nil|]. by intros (r & _ & ?).
  - destruct (remove_user_from_allocation_run x.1 user_obj send_signals
                obj_class w Hok)
      as (t1 & Hrun1 & Hlook1).
    set (pks1 := (active_allocation_users w x.1 user_obj).*1) in *.
    set (w1 := emit_all (with_allocation_users w t1)
                 (if send_signals then remove_signal <$> pks1 else [])) in *.
    destruct (IH w1) as (t2 & pks2 & Hrun2 & Hlook2 & Hnd2 & Hin2).
    change (allocation_users w1) with t1 in Hlook2, Hin2.
    assert (Hin1 : forall k, k ∈ pks1
                   <-> exists r, allocation_users w !! k = Some r
                                 /\ picked x.1 user_obj r = true).
    { intros k. unfold pks1, active_allocation_users.
      by rewrite elem_of_keys_filter_rows. }
    exists t2, (pks1 ++ pks2)%list. split; [|split; [|split]].
    + cbn [for_each]. unfold vbind at 1. rewrite Hrun1, Hrun2. unfold w1.
      rewrite emit_all_fuse. do 2 f_equal.
      destruct send_signals; [by rewrite fmap_app|done].
    + intros k. rewrite Hlook2, Hlook1.
      destruct (allocation_users w !! k) as [r|]; [|done].
      cbn [fmap option_fmap option_map]. f_equal.
      rewrite (picked_any_cons x rest user_obj r).
      destruct (bool_decide (au_allocation r = x.1)
                && bool_decide (au_user r = user_obj)
                && name_in (au_status r) ["Active"]) eqn:HP.
      * by rewrite (picked_any_removed rest user_obj r).
      * done.
    + apply NoDup_app. split; [apply NoDup_filter_rows|]. split; [|done].
      intros k Hk1 Hk2. apply Hin1 in Hk1 as (r & Hk & HP).
      apply Hin2 in Hk2 as (r' & Hk' & HP').
      rewrite Hlook1, Hk in Hk'. cbn [fmap option_fmap option_map] in Hk'.
      rewrite HP in Hk'. injection Hk' as <-.
      by rewrite (picked_any_removed rest user_obj r) in HP'.
    + intros k. rewrite elem_of_app, Hin1, Hin2. split.
      * intros [(r & Hk & HP)|(r' & Hk' & HP')].
        -- exists r. split; [done|].
           by rewrite (picked_any_cons x rest user_obj r), HP.
        -- rewrite Hlook1 in Hk'.
           destruct (allocation_users w !! k) as [r|]; [|done].
           cbn [fmap option_fmap option_map] in Hk'.
           exists r. split; [done|].
           rewrite (picked_any_cons x rest user_obj r).
           destruct (bool_decide (au_allocation r = x.1)
                     && bool_decide (au_user r = user_obj)
                     && name_in (au_status r) ["Active"]) eqn:HP; [done|].
           injection Hk' as <-. exact HP'.
      * intros (r & Hk & HP).
        rewrite (picked_any_cons x rest user_obj r) in HP.
        destruct (bool_decide (au_allocation r = x.1)
                  && bool_decide (au_user r = user_obj)
                  && name_in (au_status r) ["Active"]) eqn:HP1.
        -- left. by exists r.
        -- right. exists r. split; [|exact HP].
           rewrite Hlook1, Hk. cbn [fmap option_fmap option_map].
           by rewrite HP1.
Qed.

(** [remove_user_from_project] on an active member who is not the PI. *)
Lemma remove_user_from_project_run (project_pk : Z) (project_obj : Project)
  (user_obj : Z) (send_signals : bool) (obj_class : option string) (w : World)
  (pk0 : Z) (r0 : ProjectUser) :
  p_pi project_obj <> user_obj ->
  project_users_of w project_pk user_obj = [(pk0, r0)] ->
  pu_status r0 = "Active" ->
  send_signals = false \/ is_Some obj_class ->
  exists t' pks,
    remove_user_from_project project_pk project_obj user_obj send_signals
      obj_class w
    = (emit_all
         (with_allocation_users
            (with_project_users w
               (<[pk0 := removed_project_user r0]> (project_users w)))
            t')
         (if send_signals
          then Signal "project_remove_user" [pk0] :: (remove_signal <$> pks)
          else []),
       Returned true)
    /\ (forall k, t' !! k
                  = (fun r => if picked_any
                                   (allocations_to_remove_user_from w project_pk)
                                   user_obj r
                              then removed_allocation_user r else r)
                    <$> allocation_users w !! k)
    /\ NoDup pks
    /\ (forall k, k ∈ pks
                  <-> exists r, allocation_users w !! k = Some r
                                /\ picked_any
                                     (allocations_to_remove_user_from w project_pk)
                                     user_obj r = true).
Proof.
  intros Hpi Hof Hst Hok.
  set (w1 := with_project_users w
               (<[pk0 := removed_project_user r0]> (project_users w))).
  set (w2 := if send_signals then emit w1 (Signal "project_remove_user" [pk0])
             else w1).
  destruct (for_each_remove_from_allocations user_obj send_signals obj_class
              (allocations_to_remove_user_from w project_pk) w2 Hok)
    as (t' & pks & Hrun & Hlook & Hnd & Hin).
  assert (Hau : allocation_users w2 = allocation_users w).
  { unfold w2. by destruct send_signals. }
  rewrite Hau in Hlook, Hin.
  exists t', pks. split; [|done].
  unfold remove_user_from_project.
  rewrite bool_decide_eq_false_2 by done.
  unfold vbind at 1, get_world at 1. rewrite Hof.
  cbn [existsb snd fst]. rewrite Hst.
  replace (String.eqb "Active" "Active") with true by reflexivity.
  cbn [orb].
  unfold vbind at 1. unfold modify at 1. fold w1.
  unfold vbind at 1.
  assert (Hstep : (if send_signals
                   then send_signal obj_class "project_remove_user" [pk0]
                   else ret tt) w1 = (w2, Returned tt)).
  { unfold w2. by apply signal_step. }
  rewrite Hstep.
  unfold vbind at 1, get_world at 1.
  assert (Hqs : allocations_to_remove_user_from w2 project_pk
                = allocations_to_remove_user_from w project_pk).
  { unfold w2. by destruct send_signals. }
  rewrite Hqs. unfold vbind at 1. rewrite Hrun. unfold ret.
  f_equal. unfold w2, w1. destruct send_signals.
  - unfold emit_all, emit, with_allocation_users, with_project_users. simpl.
    by rewrite <- app_assoc.
  - done.
Qed.

(** Without a sender the project signal fails, after the project user is
    saved and before any allocation user is looked at. *)
Lemma remove_user_from_project_fails (project_pk : Z) (project_obj : Project)
  (user_obj : Z) (w : World) (pk0 : Z) (r0 : ProjectUser) :
  p_pi project_obj <> user_obj ->
  project_users_of w project_pk user_obj = [(pk0, r0)] ->
  pu_status r0 = "Active" ->
  remove_user_from_project project_pk project_obj user_obj true None w
  = (with_project_users w
       (<[pk0 := removed_project_user r0]> (project_users w)),
     Raised "TypeError").
Proof.
  intros Hpi Hof Hst. unfold remove_user_from_project.
  rewrite bool_decide_eq_false_2 by done.
  unfold vbind at 1, get_world at 1. rewrite Hof.
  cbn [existsb snd fst]. rewrite Hst.
  by replace (String.eqb "Active" "Active") with true by reflexivity.
Qed.

(** Removing an active member who is not the PI from a project, with
    signals off or a sender class given, returns True and marks the project
    user "Removed". In the project's allocations with status "Active",
    "New" or "Renewal Requested" the user's active allocation users are
    marked "Removed" too; every other allocation user, among them the
    user's rows in allocations of any other status, stays as it was. With
    signals on, project_remove_user is sent first and then
    allocation_remove_user once for each allocation user marked. With
    signals on and no sender class (the defaults) the project user is saved
    as "Removed" and the call then fails with TypeError, before any
    allocation user is touched. *)
Theorem remove_user_from_project_effect (project_pk : Z) (project_obj : Project)
  (user_obj : Z) (send_signals : bool) (obj_class : option string) (w : World)
  (pk0 : Z) (r0 : ProjectUser) :
  p_pi project_obj <> user_obj ->
  project_users_of w project_pk user_obj = [(pk0, r0)] ->
  pu_status r0 = "Active" ->
  (send_signals = false \/ is_Some obj_class ->
   exists w' pks,
     remove_user_from_project project_pk project_obj user_obj send_signals
       obj_class w
     = (w', Returned true)
     /\ project_users w' = <[pk0 := removed_project_user r0]> (project_users w)
     /\ (forall x k r,
           x ∈ allocations_to_remove_user_from w project_pk ->
           (k, r) ∈ active_allocation_users w x.1 user_obj ->
           allocation_users w' !! k = Some (removed_allocation_user r))
     /\ (forall k r,
           allocation_users w !! k = Some r ->
           (forall x, x ∈ allocations_to_remove_user_from w project_pk ->
                      (k, r) ∉ active_allocation_users w x.1 user_obj) ->
           allocation_users w' !! k = Some r)
     /\ (forall k, allocation_users w !! k = None ->
                   allocation_users w' !! k = None)
     /\ (exists order,
           order ≡ₚ pks
           /\ log w'
              = (log w ++ if send_signals
                          then Signal "project_remove_user" [pk0]
                               :: (remove_signal <$> order)
                          else [])%list)
     /\ NoDup pks
     /\ (forall k, k ∈ pks
                   <-> exists x r,
                         x ∈ allocations_to_remove_user_from w project_pk
                         /\ (k, r) ∈ active_allocation_users w x.1 user_obj)
     /\ projects w' = projects w
     /\ allocations w' = allocations w
     /\ attributes w' = attributes w
     /\ change_requests w' = change_requests w
     /\ attribute_changes w' = attribute_changes w)
  /\ (send_signals = true -> obj_class = None ->
      remove_user_from_project project_pk project_obj user_obj send_signals
        obj_class w
      = (with_project_users w
           (<[pk0 := removed_project_user r0]> (project_users w)),
         Raised "TypeError")).
Proof.
  intros Hpi Hof Hst. split;
    [|intros -> ->; by apply remove_user_from_project_fails].
  intros Hok.
  destruct (remove_user_from_project_run project_pk project_obj user_obj
              send_signals obj_class w pk0 r0 Hpi Hof Hst Hok)
    as (t' & pks & Hrun & Hlook & Hnd & Hin).
  eexists _, pks. split; [exact Hrun|].
  unfold emit_all, with_allocation_users, with_project_users.
  cbn [allocation_users log projects project_users allocations attributes
       change_requests attribute_changes].
  split; [done|].
  split; [|split; [|split; [|split; [by exists pks|split; [done|split; [|done]]]]]].
  - intros x k r Hx Hkr. rewrite Hlook.
    assert (Hk : allocation_users w !! k = Some r).
    { unfold active_allocation_users in Hkr.
      by apply elem_of_filter_rows in Hkr as [? _]. }
    rewrite Hk. cbn [fmap option_fmap option_map].
    rewrite (proj2 (picked_any_spec _ user_obj w k r Hk)); [done|].
    by exists x.
  - intros k r Hk Hnot. rewrite Hlook, Hk. cbn [fmap option_fmap option_map].
    destruct (existsb _ _ && bool_decide _ && name_in _ _) eqn:HP; [|done].
    apply (proj1 (picked_any_spec _ user_obj w k r Hk)) in HP
      as (x & Hx & Hkr).
    by destruct (Hnot x Hx).
  - intros k Hk. by rewrite Hlook, Hk.
  - intros k. rewrite Hin. split.
    + intros (r & Hk & HP).
      apply (proj1 (picked_any_spec _ user_obj w k r Hk)) in HP
        as (x & Hx & Hkr).
      by exists x, r.
    + intros (x & r & Hx & Hkr).
      assert (Hk : allocation_users w !! k = Some r).
      { unfold active_allocation_users in Hkr.
        by apply elem_of_filter_rows in Hkr as [? _]. }
      exists r. split; [done|].
      apply (proj2 (picked_any_spec _ user_obj w k r Hk)). by exists x.
Qed.

Lemma remove_user_from_project_effect_witness :
  (exists w',
     remove_user_from_project 1 Samples.project1 2 true
       (Some "ProjectRemoveUsersView") Samples.world3
     = (w', Returned true)
     /\ pu_status <$> project_users w' !! 2 = Some "Removed"
     /\ au_status <$> allocation_users w' !! 101 = Some "Removed"
     /\ au_status <$> allocation_users w' !! 104 = Some "Active")
  /\ exists w',
       remove_user_from_project 1 Samples.project1 2 true None Samples.world3
       = (w', Raised "TypeError")
       /\ pu_status <$> project_users w' !! 2 = Some "Removed"
       /\ allocation_users w' = allocation_users Samples.world3.
Proof.
  destruct (remove_user_from_project_effect 1 Samples.project1 2 true
              (Some "ProjectRemoveUsersView") Samples.world3 2 Samples.member_row)
    as [Hok _]; [discriminate | reflexivity | reflexivity |].
  destruct (remove_user_from_project_effect 1 Samples.project1 2 true
              None Samples.world3 2 Samples.member_row)
    as [_ Hfail]; [discriminate | reflexivity | reflexivity |].
  split.
  - destruct Hok as (w' & pks & Hrun & Hpu & Hgone & Hkept & _).
    { right. by eexists. }
    exists w'. split; [exact Hrun|]. split; [|split].
    + rewrite Hpu. by rewrite lookup_insert_eq.
    + rewrite (Hgone (10, Samples.allocation 1 "Active" (Some 738900) (Some 739030))
                 101 {| au_allocation := 10; au_user := 2; au_status := "Active" |}).
      * reflexivity.
      * apply elem_of_filter_rows. split; reflexivity.
      * apply elem_of_filter_rows. split; reflexivity.
    + rewrite (Hkept 104 {| au_allocation := 13; au_user := 2;
                            au_status := "Active" |}); [reflexivity | reflexivity |].
      intros [a x] Hx Hin.
      apply elem_of_filter_rows in Hx as [Hx HP].
      apply elem_of_filter_rows in Hin as [_ Ha].
      cbn [fst snd au_allocation] in Ha.
      apply andb_true_iff in Ha as [Ha _]. apply andb_true_iff in Ha as [Ha _].
      apply bool_decide_eq_true in Ha. subst a.
      vm_compute in Hx. injection Hx as <-. discriminate HP.
  - eexists. split; [exact (Hfail eq_refl eq_refl)|]. split; reflexivity.
Defined.

(** Once a member has been removed from a project, removing them again
    returns False and changes nothing: no row and no signal. This holds
    whatever the signal arguments of either call are, also when the first
    call failed on its signal, the project user being saved before. *)
Theorem remove_user_from_project_twice (project_pk : Z) (project_obj : Project)
  (user_obj : Z) (first second : bool) (first_class second_class : option string)
  (w : World) (pk0 : Z) (r0 : ProjectUser) :
  p_pi project_obj <> user_obj ->
  project_users_of w project_pk user_obj = [(pk0, r0)] ->
  pu_status r0 = "Active" ->
  remove_user_from_project project_pk project_obj user_obj second second_class
    (remove_user_from_project project_pk project_obj user_obj first first_class
       w).1
  = ((remove_user_from_project project_pk project_obj user_obj first first_class
        w).1,
     Returned false).
Proof.
  intros Hpi Hof Hst.
  assert (Hpu : project_users
                  (remove_user_from_project project_pk project_obj user_obj
                     first first_class w).1
                = <[pk0 := removed_project_user r0]> (project_users w)).
  { assert (Hcase : (first = false \/ is_Some first_class)
                    \/ first = true /\ first_class = None).
    { destruct first; [|by left; left].
      destruct first_class; [left; right; by eexists | by right]. }
    destruct Hcase as [Hok|[-> ->]].
    - destruct (remove_user_from_project_run project_pk project_obj user_obj
                  first first_class w pk0 r0 Hpi Hof Hst Hok)
        as (t' & pks & Hrun & _).
      by rewrite Hrun.
    - by rewrite (remove_user_from_project_fails project_pk project_obj user_obj
                    w pk0 r0 Hpi Hof Hst). }
  set (w' := (remove_user_from_project project_pk project_obj user_obj first
                first_class w).1) in *.
  unfold remove_user_from_project.
  rewrite bool_decide_eq_false_2 by done.
  unfold vbind at 1, get_world at 1.
  destruct (existsb _ (project_users_of w' project_pk user_obj)) eqn:Hex; [|done].
  exfalso. apply existsb_exists in Hex as ([k r] & Hin & Hact).
  apply list_elem_of_In in Hin. unfold project_users_of in Hin.
  apply elem_of_filter_rows in Hin as [Hk HP].
  rewrite Hpu in Hk.
  cbn [snd] in Hact, HP.
  destruct (decide (k = pk0)) as [->|Hne].
  - rewrite lookup_insert_eq in Hk. injection Hk as <-. discriminate Hact.
  - rewrite lookup_insert_ne in Hk by done.
    assert (Hin : (k, r) ∈ project_users_of w project_pk user_obj).
    { apply elem_of_filter_rows. by split. }
    rewrite Hof in Hin. apply list_elem_of_singleton in Hin. congruence.
Qed.

Lemma remove_user_from_project_twice_witness :
  remove_user_from_project 1 Samples.project1 2 true None
    (remove_user_from_project 1 Samples.project1 2 true None Samples.world3).1
  = ((remove_user_from_project 1 Samples.project1 2 true None Samples.world3).1,
     Returned false).
Proof.
  apply (remove_user_from_project_twice 1 Samples.project1 2 true true None None
           Samples.world3 2 Samples.member_row);
    [discriminate | reflexivity | reflexivity].
Defined.

End UserManagementFacts.

(** ** Adding users to projects and allocations *)

Module UserAdditionFacts.

Import UserManagement UserManagementAdd ViewFacts UserManagementFacts.

Lemma next_pk_bound {A : Type} (t : gmap Z A) (k : Z) (a : A) :
  t !! k = Some a -> k < next_pk t.
Proof.
  unfold next_pk.
  enough (forall k a, t !! k = Some a ->
                      k <= map_fold (fun k _ acc => Z.max k acc) 0 t) as H.
  { intros Hk. apply (Z.le_lt_trans _ _ _ (H k a Hk)).
    by apply Z.lt_add_pos_l. }
  apply (map_fold_weak_ind
           (fun r (m : gmap Z A) => forall k a, m !! k = Some a -> k <= r)).
  - intros k' a'. by rewrite lookup_empty.
  - intros i x m r _ IH k' a'. rewrite lookup_insert.
    case_decide as Hi; [intros _; subst; lia|].
    intros Hk'. specialize (IH k' a' Hk'). lia.
Qed.

(** A created row never takes the key of an existing one. *)
Lemma next_pk_fresh {A : Type} (t : gmap Z A) : t !! next_pk t = None.
Proof.
  destruct (t !! next_pk t) as [a|] eqn:Hf; [|done].
  apply next_pk_bound in Hf. lia.
Qed.

Lemma singleton_list {A : Type} (l : list A) (x : A) :
  NoDup l -> x ∈ l -> (forall y, y ∈ l -> y = x) -> l = [x].
Proof.
  intros Hnd Hx Hall. destruct l as [|a [|b rest]].
  - by apply elem_of_nil in Hx.
  - f_equal. apply Hall. apply elem_of_cons. by left.
  - exfalso. assert (a = x) as -> by (apply Hall, elem_of_cons; by left).
    assert (b = x) as ->.
    { apply Hall, elem_of_cons. right. apply elem_of_cons. by left. }
    inversion Hnd as [|? ? Hnotin _]. apply Hnotin. apply elem_of_cons. by left.
Qed.

Lemma NoDup_filter_rows_pairs {A : Type} (P : Z * A -> bool) (t : gmap Z A) :
  NoDup (filter P (rows t)).
Proof. apply NoDup_filter, NoDup_map_to_list. Qed.

Lemma project_users_of_spec (w : World) (project_pk user_obj k : Z)
  (r : ProjectUser) :
  (k, r) ∈ project_users_of w project_pk user_obj
  <-> project_users w !! k = Some r
      /\ pu_project r = project_pk /\ pu_user r = user_obj.
Proof.
  unfold project_users_of. rewrite elem_of_filter_rows. cbn [snd].
  rewrite andb_true_iff, !bool_decide_eq_true. tauto.
Qed.

Lemma allocation_users_of_spec (w : World) (allocation user_obj k : Z)
  (r : AllocationUser) :
  (k, r) ∈ allocation_users_of w allocation user_obj
  <-> allocation_users w !! k = Some r
      /\ au_allocation r = allocation /\ au_user r = user_obj.
Proof.
  unfold allocation_users_of. rewrite elem_of_filter_rows. cbn [snd].
  rewrite andb_true_iff, !bool_decide_eq_true. tauto.
Qed.

(** With signals off or a sender class given, the sender plays no part. *)
Lemma add_user_to_project_sender (project_pk user_obj : Z)
  (role_choice : string) (send_signals : bool) (obj_class : option string)
  (w : World) :
  send_signals = false \/ is_Some obj_class ->
  add_user_to_project project_pk user_obj role_choice send_signals obj_class w
  = add_user_to_project project_pk user_obj role_choice send_signals
      (Some "sender") w.
Proof. by intros [->|[c ->]]. Qed.

(** Where a user has at most one row in the project, add_user_to_project
    leaves them with an "Active" row holding the given role: a new row
    under an unused key when they had none ([created] is True), their old
    row updated in place otherwise. No other row changes. With signals off
    or a sender class given the call returns the row and [created], and
    with signals on project_activate_user is sent in either case, also for
    a user who was an active member with that role already. With signals
    on and no sender class (the defaults) the row is saved all the same and
    the call then fails with TypeError, [Signal.send] lacking its sender;
    nothing is sent. *)
Theorem add_user_to_project_effect (project_pk user_obj : Z)
  (role_choice : string) (send_signals : bool) (obj_class : option string)
  (w : World) :
  (length (project_users_of w project_pk user_obj) <= 1)%nat ->
  (send_signals = false \/ is_Some obj_class ->
   exists w' pk created,
     add_user_to_project project_pk user_obj role_choice send_signals obj_class w
     = (w', Returned (pk, created))
     /\ project_users w' !! pk
        = Some {| pu_project := project_pk; pu_user := user_obj;
                  pu_role := role_choice; pu_status := "Active" |}
     /\ (forall k, k <> pk -> project_users w' !! k = project_users w !! k)
     /\ (created = true <-> project_users_of w project_pk user_obj = [])
     /\ (created = true -> project_users w !! pk = None)
     /\ (created = false ->
         exists r, project_users_of w project_pk user_obj = [(pk, r)])
     /\ log w'
        = (log w ++ if send_signals
                    then [Signal "project_activate_user" [pk]] else [])%list
     /\ projects w' = projects w
     /\ allocations w' = allocations w
     /\ allocation_users w' = allocation_users w
     /\ attributes w' = attributes w
     /\ change_requests w' = change_requests w
     /\ attribute_changes w' = attribute_changes w)
  /\ (send_signals = true -> obj_class = None ->
      exists w' pk,
        add_user_to_project project_pk user_obj role_choice send_signals
          obj_class w
        = (w', Raised "TypeError")
        /\ project_users w' !! pk
           = Some {| pu_project := project_pk; pu_user := user_obj;
                     pu_role := role_choice; pu_status := "Active" |}
        /\ (forall k, k <> pk -> project_users w' !! k = project_users w !! k)
        /\ (project_users_of w project_pk user_obj = [] ->
            project_users w !! pk = None)
        /\ log w' = log w
        /\ allocation_users w' = allocation_users w).
Proof.
  intros Hlen. split.
  - intros Hok. rewrite (add_user_to_project_sender _ _ _ _ _ _ Hok).
    unfold add_user_to_project, vbind at 1, get_world at 1.
    destruct (project_users_of w project_pk user_obj) as [|[k r] [|? ?]] eqn:Hof;
      [| |simpl in Hlen; lia].
    + exists (if send_signals
              then emit (with_project_users w
                           (<[next_pk (project_users w) :=
                                {| pu_project := project_pk; pu_user := user_obj;
                                   pu_role := role_choice;
                                   pu_status := "Active" |}]>
                              (project_users w)))
                        (Signal "project_activate_user" [next_pk (project_users w)])
              else with_project_users w
                     (<[next_pk (project_users w) :=
                          {| pu_project := project_pk; pu_user := user_obj;
                             pu_role := role_choice; pu_status := "Active" |}]>
                        (project_users w))),
             (next_pk (project_users w)), true.
      split; [by destruct send_signals|].
      split; [destruct send_signals; cbn; by rewrite lookup_insert_eq|].
      split; [intros k Hk; destruct send_signals; cbn; by rewrite lookup_insert_ne|].
      split; [done|].
      split; [intros _; apply next_pk_fresh|].
      split; [done|].
      split; [destruct send_signals; cbn; [done|by rewrite app_nil_r]|].
      by destruct send_signals.
    + assert (Hin : (k, r) ∈ project_users_of w project_pk user_obj).
      { rewrite Hof. apply elem_of_cons. by left. }
      apply project_users_of_spec in Hin as (Hk & Hp & Hu).
      exists (if send_signals
              then emit (with_project_users w
                           (<[k := activated_project_user r role_choice]>
                              (project_users w)))
                        (Signal "project_activate_user" [k])
              else with_project_users w
                     (<[k := activated_project_user r role_choice]>
                        (project_users w))),
             k, false.
      split; [by destruct send_signals|].
      split.
      { destruct send_signals; cbn; rewrite lookup_insert_eq;
          unfold activated_project_user; by rewrite Hp, Hu. }
      split; [intros k' Hk'; destruct send_signals; cbn;
              by rewrite lookup_insert_ne|].
      split; [done|].
      split; [done|].
      split; [intros _; by exists r|].
      split; [destruct send_signals; cbn; [done|by rewrite app_nil_r]|].
      by destruct send_signals.
  - intros -> ->.
    unfold add_user_to_project, vbind at 1, get_world at 1.
    destruct (project_users_of w project_pk user_obj) as [|[k r] [|? ?]] eqn:Hof;
      [| |simpl in Hlen; lia].
    + eexists _, (next_pk (project_users w)). split; [reflexivity|]. cbn.
      rewrite lookup_insert_eq. split; [done|].
      split; [intros k Hk; by rewrite lookup_insert_ne|].
      split; [intros _; apply next_pk_fresh|done].
    + assert (Hin : (k, r) ∈ project_users_of w project_pk user_obj).
      { rewrite Hof. apply elem_of_cons. by left. }
      apply project_users_of_spec in Hin as (Hk & Hp & Hu).
      eexists _, k. split; [reflexivity|]. cbn.
      rewrite lookup_insert_eq. unfold activated_project_user. rewrite Hp, Hu.
      split; [done|].
      split; [intros k' Hk'; by rewrite lookup_insert_ne|]. by split.
Qed.

Lemma add_user_to_project_effect_witness :
  (exists w',
     add_user_to_project 1 5 "User" true (Some "ProjectAddUsersView")
       Samples.world1
     = (w', Returned (3, true))
     /\ log w' = [Signal "project_activate_user" [3]])
  /\ exists w',
       add_user_to_project 1 5 "User" true None Samples.world1
       = (w', Raised "TypeError")
       /\ pu_status <$> project_users w' !! 3 = Some "Active"
       /\ log w' = [].
Proof.
  split.
  - destruct (add_user_to_project_effect 1 5 "User" true
                (Some "ProjectAddUsersView") Samples.world1)
      as [Hok _]; [vm_compute; lia|].
    destruct Hok as (w' & pk & created & Hrun & _ & _ & _ & _ & _ & Hlog & _).
    { right. by eexists. }
    assert (Hpk : (pk, created) = (3, true)).
    { assert (H : Returned (pk, created) = Returned (3, true)).
      { transitivity (add_user_to_project 1 5 "User" true
                        (Some "ProjectAddUsersView") Samples.world1).2.
        - by rewrite Hrun.
        - reflexivity. }
      by injection H as -> ->. }
    injection Hpk as -> ->.
    exists w'. split; [exact Hrun | exact Hlog].
  - destruct (add_user_to_project_effect 1 5 "User" true None Samples.world1)
      as [_ Hfail]; [vm_compute; lia|].
    destruct (Hfail eq_refl eq_refl) as (w' & pk & Hrun & _ & _ & _ & Hlog & _).
    exists w'. split; [exact Hrun|]. split; [|exact Hlog].
    assert (Hw : w' = (add_user_to_project 1 5 "User" true None
                         Samples.world1).1).
    { by rewrite Hrun. }
    rewrite Hw. reflexivity.
Defined.

(** Adding a removed member back with their old role restores the project
    user row exactly as it was before the removal, under the same key and
    with [created] False; the allocation users that the removal marked
    "Removed" are not restored. Both calls are made with signals off or
    with a sender class, so that neither fails on its signal. *)
Theorem readding_restores_project_user_only (project_pk : Z)
  (project_obj : Project) (user_obj : Z) (first second : bool)
  (first_class second_class : option string) (w : World)
  (pk0 : Z) (r0 : ProjectUser) :
  p_pi project_obj <> user_obj ->
  project_users_of w project_pk user_obj = [(pk0, r0)] ->
  pu_status r0 = "Active" ->
  first = false \/ is_Some first_class ->
  second = false \/ is_Some second_class ->
  exists w' w'',
    remove_user_from_project project_pk project_obj user_obj first first_class w
    = (w', Returned true)
    /\ add_user_to_project project_pk user_obj (pu_role r0) second second_class
         w'
       = (w'', Returned (pk0, false))
    /\ project_users w'' = project_users w
    /\ allocation_users w'' = allocation_users w'
    /\ log w''
       = (log w' ++ if second
                    then [Signal "project_activate_user" [pk0]] else [])%list.
Proof.
  intros Hpi Hof Hst Hfirst Hsecond.
  destruct (remove_user_from_project_run project_pk project_obj user_obj
              first first_class w pk0 r0 Hpi Hof Hst Hfirst)
    as (t' & pks & Hrun & _).
  rewrite Hrun. set (w' := emit_all _ _).
  assert (Hin0 : (pk0, r0) ∈ project_users_of w project_pk user_obj).
  { rewrite Hof. apply elem_of_cons. by left. }
  apply project_users_of_spec in Hin0 as (Hk0 & Hp0 & Hu0).
  assert (Hof' : project_users_of w' project_pk user_obj
                 = [(pk0, removed_project_user r0)]).
  { apply singleton_list.
    - apply NoDup_filter_rows_pairs.
    - apply project_users_of_spec. split; [|done].
      change (project_users w')
        with (<[pk0 := removed_project_user r0]> (project_users w)).
      by rewrite lookup_insert_eq.
    - intros [k r] Hin. apply project_users_of_spec in Hin as (Hk & Hp & Hu).
      change (project_users w')
        with (<[pk0 := removed_project_user r0]> (project_users w)) in Hk.
      destruct (decide (k = pk0)) as [->|Hne].
      + rewrite lookup_insert_eq in Hk. by injection Hk as <-.
      + rewrite lookup_insert_ne in Hk by done.
        assert (Hin : (k, r) ∈ project_users_of w project_pk user_obj).
        { by apply project_users_of_spec. }
        rewrite Hof in Hin. apply list_elem_of_singleton in Hin. congruence. }
  exists w'.
  exists (if second
          then emit (with_project_users w'
                       (<[pk0 := activated_project_user
                                   (removed_project_user r0) (pu_role r0)]>
                          (project_users w')))
                    (Signal "project_activate_user" [pk0])
          else with_project_users w'
                 (<[pk0 := activated_project_user
                             (removed_project_user r0) (pu_role r0)]>
                    (project_users w'))).
  split; [done|]. split.
  { rewrite (add_user_to_project_sender _ _ _ _ _ _ Hsecond).
    unfold add_user_to_project, vbind at 1, get_world at 1. rewrite Hof'.
    by destruct second. }
  assert (Hrow : activated_project_user (removed_project_user r0) (pu_role r0)
                 = r0).
  { destruct r0. simpl in Hst. by subst. }
  rewrite Hrow. split.
  { transitivity (<[pk0 := r0]> (project_users w')); [by destruct second|].
    change (project_users w')
      with (<[pk0 := removed_project_user r0]> (project_users w)).
    rewrite insert_insert_eq. by apply insert_id. }
  split; [by destruct second|].
  destruct second; cbn [log emit with_project_users]; [done|].
  by rewrite app_nil_r.
Qed.

Lemma readding_restores_project_user_only_witness :
  exists w' w'',
    remove_user_from_project 1 Samples.project1 2 true
      (Some "ProjectRemoveUsersView") Samples.world3
    = (w', Returned true)
    /\ add_user_to_project 1 2 "User" true (Some "ProjectAddUsersView") w'
       = (w'', Returned (2, false))
    /\ project_users w'' = project_users Samples.world3
    /\ allocation_users w'' = allocation_users w'.
Proof.
  destruct (readding_restores_project_user_only 1 Samples.project1 2 true true
              (Some "ProjectRemoveUsersView") (Some "ProjectAddUsersView")
              Samples.world3 2 Samples.member_row)
    as (w' & w'' & Hrem & Hadd & Hpu & Hau & _);
    [discriminate | reflexivity | reflexivity
     | right; by eexists | right; by eexists |].
  by exists w', w''.
Defined.

(** Whether add_user_to_allocation comes to send its signal: signals are
    on, the requested status is "Active" and the user is not active on the
    allocation yet. *)
Local Abbreviation activating w allocation user_obj user_status_choice
  send_signals_on_activate :=
  (send_signals_on_activate
   && String.eqb (default "Active" user_status_choice) "Active"
   && negb (existsb (fun r => String.eqb (au_status r.2) "Active")
              (allocation_users_of w allocation user_obj))).

(** What add_user_to_allocation does before its signal: the key of the
    user's row and whether the row became active. *)
Lemma add_user_to_allocation_run (allocation user_obj : Z)
  (user_status_choice : option string) (send_signals_on_activate : bool)
  (obj_class : option string) (w : World) :
  (length (allocation_users_of w allocation user_obj) <= 1)%nat ->
  exists t' pk,
    add_user_to_allocation allocation user_obj user_status_choice
      send_signals_on_activate obj_class w
    = (if activating w allocation user_obj user_status_choice
            send_signals_on_activate
       then send_signal obj_class "allocation_activate_user" [pk]
       else ret tt) (with_allocation_users w t')
    /\ t' !! pk
       = Some {| au_allocation := allocation; au_user := user_obj;
                 au_status := default "Active" user_status_choice |}
    /\ (forall k, k <> pk -> t' !! k = allocation_users w !! k)
    /\ (allocation_users_of w allocation user_obj = [] ->
        allocation_users w !! pk = None).
Proof.
  intros Hlen. unfold add_user_to_allocation. cbv zeta.
  set (c := default "Active" user_status_choice).
  unfold vbind at 1, get_world at 1.
  destruct (allocation_users_of w allocation user_obj) as [|[k r] [|? ?]] eqn:Hof;
    [| |simpl in Hlen; lia].
  - cbn [existsb negb]. rewrite andb_true_r.
    exists (<[next_pk (allocation_users w) :=
                {| au_allocation := allocation; au_user := user_obj;
                   au_status := c |}]> (allocation_users w)),
           (next_pk (allocation_users w)).
    split; [done|]. rewrite lookup_insert_eq. split; [done|].
    split; [intros k Hk; by rewrite lookup_insert_ne|].
    intros _. apply next_pk_fresh.
  - assert (Hin : (k, r) ∈ allocation_users_of w allocation user_obj).
    { rewrite Hof. apply elem_of_cons. by left. }
    apply allocation_users_of_spec in Hin as (Hk & Ha & Hu).
    cbn [existsb fst snd]. rewrite orb_false_r.
    destruct (String.eqb_spec (au_status r) c) as [Hsame|Hdiff].
    + cbn [negb]. unfold vbind at 1, ret at 1. cbn [fst snd].
      rewrite andb_false_r.
      assert (Hno : send_signals_on_activate && String.eqb c "Active"
                    && negb (String.eqb (au_status r) "Active") = false).
      { rewrite Hsame.
        by destruct send_signals_on_activate, (String.eqb c "Active"). }
      rewrite Hno. exists (allocation_users w), k.
      split; [by rewrite with_allocation_users_id|].
      split; [|done]. rewrite Hk. f_equal. destruct r. simpl in *. by subst.
    + cbn [negb].
      assert (Hyes : send_signals_on_activate && String.eqb c "Active"
                     && negb (String.eqb (au_status r) "Active")
                     = send_signals_on_activate && String.eqb c "Active").
      { destruct (String.eqb_spec c "Active") as [Hc|Hc];
          [|by rewrite !andb_false_r].
        destruct (String.eqb_spec (au_status r) "Active") as [Hr|Hr];
          [congruence|by rewrite !andb_true_r]. }
      rewrite Hyes.
      exists (<[k := with_au_status r c]> (allocation_users w)), k.
      split; [done|]. rewrite lookup_insert_eq. unfold with_au_status.
      rewrite Ha, Hu. split; [done|].
      split; [intros k' Hk'; by rewrite lookup_insert_ne|]. done.
Qed.

(** Where a user has at most one row on the allocation,
    add_user_to_allocation leaves them with one row in the requested status
    ("Active" when none is given): a new row under an unused key, or their
    old row updated. No other row changes. The call comes to its signal
    only when signals are on, the requested status is "Active" and the user
    was not active on the allocation before: with a sender class
    allocation_activate_user is then sent; without one (the default) the
    row is saved and the call then fails with TypeError, [Signal.send]
    lacking its sender, and nothing is sent. In every other case the call
    returns and sends nothing. *)
Theorem add_user_to_allocation_effect (allocation user_obj : Z)
  (user_status_choice : option string) (send_signals_on_activate : bool)
  (obj_class : option string) (w : World) :
  (length (allocation_users_of w allocation user_obj) <= 1)%nat ->
  (is_Some obj_class
   \/ activating w allocation user_obj user_status_choice
        send_signals_on_activate = false ->
   exists w' pk,
     add_user_to_allocation allocation user_obj user_status_choice
       send_signals_on_activate obj_class w
     = (w', Returned tt)
     /\ allocation_users w' !! pk
        = Some {| au_allocation := allocation; au_user := user_obj;
                  au_status := default "Active" user_status_choice |}
     /\ (forall k, k <> pk -> allocation_users w' !! k = allocation_users w !! k)
     /\ (allocation_users_of w allocation user_obj = [] ->
         allocation_users w !! pk = None)
     /\ log w'
        = (log w ++
           if send_signals_on_activate
              && String.eqb (default "Active" user_status_choice) "Active"
              && negb (existsb (fun r => String.eqb (au_status r.2) "Active")
                         (allocation_users_of w allocation user_obj))
           then [Signal "allocation_activate_user" [pk]] else [])%list
     /\ projects w' = projects w
     /\ project_users w' = project_users w
     /\ allocations w' = allocations w
     /\ attributes w' = attributes w
     /\ change_requests w' = change_requests w
     /\ attribute_changes w' = attribute_changes w)
  /\ (obj_class = None ->
      activating w allocation user_obj user_status_choice
        send_signals_on_activate = true ->
      exists w' pk,
        add_user_to_allocation allocation user_obj user_status_choice
          send_signals_on_activate obj_class w
        = (w', Raised "TypeError")
        /\ allocation_users w' !! pk
           = Some {| au_allocation := allocation; au_user := user_obj;
                     au_status := "Active" |}
        /\ (forall k, k <> pk ->
                      allocation_users w' !! k = allocation_users w !! k)
        /\ (allocation_users_of w allocation user_obj = [] ->
            allocation_users w !! pk = None)
        /\ log w' = log w
        /\ project_users w' = project_users w).
Proof.
  intros Hlen.
  destruct (add_user_to_allocation_run allocation user_obj user_status_choice
              send_signals_on_activate obj_class w Hlen)
    as (t' & pk & Hrun & Hrow & Hrest & Hnew).
  rewrite Hrun. split.
  - intros Hcase.
    destruct (send_signals_on_activate
              && String.eqb (default "Active" user_status_choice) "Active"
              && negb (existsb (fun r => String.eqb (au_status r.2) "Active")
                         (allocation_users_of w allocation user_obj))) eqn:Hact.
    + destruct Hcase as [[c ->]|Hno]; [|discriminate Hno].
      eexists _, pk. split; [reflexivity|]. by cbn.
    + eexists _, pk. split; [reflexivity|]. cbn. by rewrite app_nil_r.
  - intros -> Hact. rewrite Hact.
    eexists _, pk. split; [reflexivity|]. cbn.
    apply andb_true_iff in Hact as [Hact _].
    apply andb_true_iff in Hact as [_ Hc]. apply String.eqb_eq in Hc.
    rewrite Hc in Hrow. by repeat split.
Qed.

Lemma add_user_to_allocation_effect_witness :
  (exists w' pk,
     add_user_to_allocation 12 3 None true (Some "ProjectAddUsersView")
       Samples.world1
     = (w', Returned tt)
     /\ allocation_users w' !! pk
        = Some {| au_allocation := 12; au_user := 3; au_status := "Active" |}
     /\ log w' = [Signal "allocation_activate_user" [pk]])
  /\ exists w' pk,
       add_user_to_allocation 12 3 None true None Samples.world1
       = (w', Raised "TypeError")
       /\ allocation_users w' !! pk
          = Some {| au_allocation := 12; au_user := 3; au_status := "Active" |}
       /\ log w' = [].
Proof.
  split.
  - destruct (add_user_to_allocation_effect 12 3 None true
                (Some "ProjectAddUsersView") Samples.world1)
      as [Hok _]; [vm_compute; lia|].
    destruct Hok as (w' & pk & Hrun & Hrow & _ & _ & Hlog & _).
    { left. by eexists. }
    exists w', pk. split; [exact Hrun|]. split; [exact Hrow|exact Hlog].
  - destruct (add_user_to_allocation_effect 12 3 None true None Samples.world1)
      as [_ Hfail]; [vm_compute; lia|].
    destruct (Hfail eq_refl eq_refl) as (w' & pk & Hrun & Hrow & _ & _ & Hlog & _).
    exists w', pk. split; [exact Hrun|]. split; [exact Hrow|exact Hlog].
Defined.

(** A user who is active on an allocation, is removed from it and is added
    again ends with the same row as before, under the same key; with
    signals on, allocation_remove_user and then allocation_activate_user
    are sent for that row. Both calls are made with signals off or with a
    sender class, so that neither fails on its signal. *)
Theorem rejoining_allocation_restores_row (allocation user_obj : Z)
  (first second : bool) (first_class second_class : option string) (w : World)
  (k : Z) (r : AllocationUser) :
  allocation_users_of w allocation user_obj = [(k, r)] ->
  au_status r = "Active" ->
  first = false \/ is_Some first_class ->
  second = false \/ is_Some second_class ->
  exists w' w'',
    remove_user_from_allocation allocation user_obj first first_class w
    = (w', Returned tt)
    /\ allocation_users w' !! k = Some (removed_allocation_user r)
    /\ add_user_to_allocation allocation user_obj None second second_class w'
       = (w'', Returned tt)
    /\ allocation_users w'' = allocation_users w
    /\ log w''
       = (log w
          ++ (if first then [Signal "allocation_remove_user" [k]] else [])
          ++ (if second then [Signal "allocation_activate_user" [k]] else []))%list.
Proof.
  intros Hof Hst Hfirst Hsecond.
  assert (Hin : (k, r) ∈ allocation_users_of w allocation user_obj).
  { rewrite Hof. apply elem_of_cons. by left. }
  apply allocation_users_of_spec in Hin as (Hk & Ha & Hu).
  assert (Hpicked : forall k' r', allocation_users w !! k' = Some r' ->
            bool_decide (au_allocation r' = allocation)
            && bool_decide (au_user r' = user_obj)
            && name_in (au_status r') ["Active"] = true ->
            k' = k /\ r' = r).
  { intros k' r' Hk' HP. apply andb_true_iff in HP as [HP _].
    apply andb_true_iff in HP as [Ha' Hu'].
    apply bool_decide_eq_true in Ha', Hu'.
    assert (Hin : (k', r') ∈ allocation_users_of w allocation user_obj).
    { by apply allocation_users_of_spec. }
    rewrite Hof in Hin. apply list_elem_of_singleton in Hin. by injection Hin. }
  assert (Hr : bool_decide (au_allocation r = allocation)
               && bool_decide (au_user r = user_obj)
               && name_in (au_status r) ["Active"] = true).
  { rewrite Ha, Hu, Hst, !bool_decide_eq_true_2 by done. reflexivity. }
  assert (Hact : active_allocation_users w allocation user_obj = [(k, r)]).
  { apply singleton_list.
    - apply NoDup_filter_rows_pairs.
    - unfold active_allocation_users. by apply elem_of_filter_rows.
    - intros [k' r'] Hin. unfold active_allocation_users in Hin.
      apply elem_of_filter_rows in Hin as [Hk' HP].
      destruct (Hpicked k' r' Hk' HP) as [-> ->]. done. }
  destruct (remove_user_from_allocation_run allocation user_obj first
              first_class w Hfirst)
    as (t' & Hrun & Hlook).
  rewrite Hact in Hrun. cbn [fmap list_fmap fst] in Hrun.
  rewrite Hrun. set (w' := emit_all _ _).
  assert (Hk' : allocation_users w' !! k = Some (removed_allocation_user r)).
  { change (allocation_users w') with t'. rewrite Hlook, Hk.
    cbn [fmap option_fmap option_map]. by rewrite Hr. }
  assert (Hof' : allocation_users_of w' allocation user_obj
                 = [(k, removed_allocation_user r)]).
  { apply singleton_list.
    - apply NoDup_filter_rows_pairs.
    - by apply allocation_users_of_spec.
    - intros [k1 r1] Hin. apply allocation_users_of_spec in Hin as (Hk1 & Ha1 & Hu1).
      change (allocation_users w') with t' in Hk1. rewrite Hlook in Hk1.
      destruct (allocation_users w !! k1) as [r2|] eqn:Hk2; [|done].
      cbn [fmap option_fmap option_map] in Hk1.
      destruct (bool_decide (au_allocation r2 = allocation)
                && bool_decide (au_user r2 = user_obj)
                && name_in (au_status r2) ["Active"]) eqn:HP.
      + destruct (Hpicked k1 r2 Hk2 HP) as [-> ->]. by injection Hk1 as <-.
      + injection Hk1 as <-.
        assert (Hin : (k1, r2) ∈ allocation_users_of w allocation user_obj).
        { by apply allocation_users_of_spec. }
        rewrite Hof in Hin. apply list_elem_of_singleton in Hin.
        injection Hin as -> ->. rewrite Hr in HP. discriminate HP. }
  assert (Hrow : with_au_status (removed_allocation_user r) "Active" = r).
  { destruct r. simpl in Hst. by subst. }
  assert (Htable : <[k := r]> t' = allocation_users w).
  { apply map_eq. intros k1. destruct (decide (k1 = k)) as [->|Hne].
    - by rewrite lookup_insert_eq.
    - rewrite lookup_insert_ne by done. rewrite Hlook.
      destruct (allocation_users w !! k1) as [r1|] eqn:Hk1; [|done].
      cbn [fmap option_fmap option_map]. f_equal.
      destruct (bool_decide (au_allocation r1 = allocation)
                && bool_decide (au_user r1 = user_obj)
                && name_in (au_status r1) ["Active"]) eqn:HP; [|done].
      by destruct (Hpicked k1 r1 Hk1 HP). }
  exists w'.
  exists (if second
          then emit (with_allocation_users w' (<[k := r]> t'))
                    (Signal "allocation_activate_user" [k])
          else with_allocation_users w' (<[k := r]> t')).
  split; [done|]. split; [done|]. split.
  { unfold add_user_to_allocation. cbv zeta.
    unfold vbind at 1, get_world at 1. rewrite Hof'.
    cbn [fst snd au_status removed_allocation_user default].
    replace (String.eqb "Removed" "Active") with false by reflexivity.
    cbn [negb]. rewrite Hrow.
    unfold vbind, modify, ret, send, modify. cbn [fst snd].
    replace (String.eqb "Active" "Active") with true by reflexivity.
    rewrite andb_true_r.
    destruct Hsecond as [->|[c ->]]; [done | by destruct second]. }
  split; [by destruct second|].
  unfold w'.
  destruct first, second; cbn; rewrite ?app_nil_r; try done.
  by rewrite <- app_assoc.
Qed.

Lemma rejoining_allocation_restores_row_witness :
  exists w' w'',
    remove_user_from_allocation 10 2 true (Some "ProjectRemoveUsersView")
      Samples.world1
    = (w', Returned tt)
    /\ add_user_to_allocation 10 2 None true (Some "ProjectAddUsersView") w'
       = (w'', Returned tt)
    /\ allocation_users w'' = allocation_users Samples.world1
    /\ log w'' = [Signal "allocation_remove_user" [101];
                  Signal "allocation_activate_user" [101]].
Proof.
  destruct (rejoining_allocation_restores_row 10 2 true true
              (Some "ProjectRemoveUsersView") (Some "ProjectAddUsersView")
              Samples.world1 101
              {| au_allocation := 10; au_user := 2; au_status := "Active" |})
    as (w' & w'' & Hrem & _ & Hadd & Hau & Hlog);
    [reflexivity | reflexivity | right; by eexists | right; by eexists |].
  by exists w', w''.
Defined.

Section AddUsersView.

Context (ALLOCATION_EULA_ENABLE : bool) (get_eula : Z -> option string).

Local Abbreviation add_to_allocation :=
  (ProjectAddUsersView.add_to_allocation ALLOCATION_EULA_ENABLE get_eula).

(** Selecting an allocation on which the user is already active changes
    nothing, whatever the EULA settings: the row keeps its status and no
    signal is sent. *)
Theorem add_to_allocation_keeps_active_user (allocation user_obj : Z)
  (w : World) (k : Z) (r : AllocationUser) :
  allocation_users_of w allocation user_obj = [(k, r)] ->
  au_status r = "Active" ->
  add_to_allocation allocation user_obj w = (w, Returned tt).
Proof.
  intros Hof Hst.
  unfold ProjectAddUsersView.add_to_allocation, vbind at 1, get_world at 1.
  assert (Hdet : EulaUtils.determine_eula_status_for_allocation_user
                   ALLOCATION_EULA_ENABLE get_eula w allocation user_obj
                 = Returned "Active").
  { unfold EulaUtils.determine_eula_status_for_allocation_user. cbv zeta.
    rewrite Hof. cbn [snd]. rewrite Hst.
    destruct ALLOCATION_EULA_ENABLE; [|done].
    by destruct (match get_eula allocation with
                 | Some e => str_truthy e | None => false end). }
  rewrite Hdet. unfold vbind at 1, lift_outcome at 1.
  unfold add_user_to_allocation. cbv zeta.
  change (default "Active" (Some "Active")) with "Active".
  unfold vbind at 1, get_world at 1. rewrite Hof.
  cbn [fst snd]. rewrite Hst.
  replace (String.eqb "Active" "Active") with true by reflexivity.
  cbn [negb]. unfold vbind, ret. by cbn [snd andb].
Qed.

End AddUsersView.

Lemma add_to_allocation_keeps_active_user_witness :
  ProjectAddUsersView.add_to_allocation true (fun _ => Some "terms of use")
    10 2 Samples.world1
  = (Samples.world1, Returned tt).
Proof.
  apply (add_to_allocation_keeps_active_user true (fun _ => Some "terms of use")
           10 2 Samples.world1 101
           {| au_allocation := 10; au_user := 2; au_status := "Active" |});
    reflexivity.
Defined.

(** With EULAs enabled, selecting an allocation that has a EULA for a user
    who is not active on it leaves the user with status "PendingEULA" (a
    new row, or their old row updated, for instance a "Removed" one) and
    sends no allocation_activate_user signal. *)
Theorem add_to_allocation_awaits_eula (get_eula : Z -> option string)
  (allocation user_obj : Z) (w : World) (e : string) :
  get_eula allocation = Some e ->
  str_truthy e = true ->
  (length (allocation_users_of w allocation user_obj) <= 1)%nat ->
  existsb (fun r => String.eqb (au_status r.2) "Active")
    (allocation_users_of w allocation user_obj) = false ->
  exists w' pk,
    ProjectAddUsersView.add_to_allocation true get_eula allocation user_obj w
    = (w', Returned tt)
    /\ allocation_users w' !! pk
       = Some {| au_allocation := allocation; au_user := user_obj;
                 au_status := "PendingEULA" |}
    /\ (forall k, k <> pk -> allocation_users w' !! k = allocation_users w !! k)
    /\ log w' = log w.
Proof.
  intros Heula Htruthy Hlen Hnone.
  unfold ProjectAddUsersView.add_to_allocation, vbind at 1, get_world at 1.
  unfold EulaUtils.determine_eula_status_for_allocation_user. cbv zeta.
  rewrite Heula, Htruthy.
  unfold add_user_to_allocation. cbv zeta.
  destruct (allocation_users_of w allocation user_obj) as [|[k r] [|? ?]] eqn:Hof;
    [| |simpl in Hlen; lia].
  - unfold vbind at 1, lift_outcome at 1.
    unfold vbind at 1, get_world at 1. rewrite Hof.
    change (default "Active" (Some "PendingEULA")) with "PendingEULA".
    replace (String.eqb "PendingEULA" "Active") with false by reflexivity.
    unfold vbind, modify, ret. cbn [fst snd andb].
    eexists _, _. split; [reflexivity|]. cbn.
    rewrite lookup_insert_eq. split; [done|].
    split; [|done]. intros k Hk. by rewrite lookup_insert_ne.
  - assert (Hin : (k, r) ∈ allocation_users_of w allocation user_obj).
    { rewrite Hof. apply elem_of_cons. by left. }
    apply allocation_users_of_spec in Hin as (Hk & Ha & Hu).
    cbn [existsb snd] in Hnone. rewrite orb_false_r in Hnone.
    cbn [snd]. rewrite Hnone. cbn [negb].
    unfold vbind at 1, lift_outcome at 1.
    unfold vbind at 1, get_world at 1. rewrite Hof.
    change (default "Active" (Some "PendingEULA")) with "PendingEULA".
    cbn [fst snd].
    replace (String.eqb "PendingEULA" "Active") with false by reflexivity.
    destruct (String.eqb_spec (au_status r) "PendingEULA") as [Hsame|Hdiff].
    + cbn [negb]. unfold vbind, ret. cbn [fst snd andb].
      exists w, k. split; [done|]. split; [|done].
      rewrite Hk. f_equal. destruct r. simpl in *. by subst.
    + cbn [negb]. unfold vbind, modify, ret. cbn [fst snd andb].
      eexists _, _. split; [reflexivity|]. cbn.
      rewrite lookup_insert_eq. unfold with_au_status. rewrite Ha, Hu.
      split; [done|]. split; [|done].
      intros k' Hk'. by rewrite lookup_insert_ne.
Qed.

Lemma add_to_allocation_awaits_eula_witness :
  exists w',
    ProjectAddUsersView.add_to_allocation true (fun _ => Some "terms of use")
      12 3 Samples.world1
    = (w', Returned tt)
    /\ au_status <$> allocation_users w' !! 103 = Some "PendingEULA"
    /\ log w' = [].
Proof.
  destruct (add_to_allocation_awaits_eula (fun _ => Some "terms of use")
              12 3 Samples.world1 "terms of use")
    as (w' & pk & Hrun & Hrow & _ & Hlog);
    [reflexivity | reflexivity | vm_compute; lia | reflexivity |].
  exists w'. split; [exact Hrun|]. split; [|exact Hlog].
  assert (Hw : w' = (ProjectAddUsersView.add_to_allocation true
                       (fun _ => Some "terms of use") 12 3 Samples.world1).1).
  { by rewrite Hrun. }
  rewrite Hw. reflexivity.
Defined.

End UserAdditionFacts.

(** ** What archiving closes *)

Module ArchivedProjectFacts.

Import ProjectArchiveProjectView ViewFacts.

(** [ProjectArchiveProjectView.post], run. *)
Lemma archive_post_run (now : datetime) (pk : Z) (w : World) (p : Project) :
  projects w !! pk = Some p ->
  exists t',
    post now pk w
    = (with_allocations
         (emit (with_projects w (<[pk := archived p]> (projects w)))
               (Signal "project_archive" [pk]))
         t',
       Returned (Redirect (ProjectDetail pk)))
    /\ forall k, t' !! k = archive_row pk now <$> allocations w !! k.
Proof.
  intros Hp. unfold post.
  unfold vbind at 1. unfold get_world at 1. rewrite Hp.
  set (w1 := emit (with_projects w (<[pk := archived p]> (projects w)))
                  (Signal "project_archive" [pk])).
  destruct (for_each_save_allocations (fun a => expired a now)
              (active_allocations w pk) w1) as (t' & Hrun & Hlook).
  { apply NoDup_filter_rows. }
  exists t'. split.
  - unfold vbind, modify, send, modify, ret. simpl.
    fold w1. unfold vbind, modify in Hrun. simpl in Hrun. by rewrite Hrun.
  - intros k. rewrite Hlook. unfold active_allocations.
    rewrite list_to_map_filter_rows. simpl. unfold archive_row.
    destruct (allocations w !! k) as [a|]; simpl; [|done].
    by destruct (bool_decide (a_project a = pk) && String.eqb (a_status a) "Active").
Qed.

(** Once a project has been archived, every request to its add-users or
    remove-users view is turned away before the login and permission
    checks: whoever asks, with whatever method, gets the view's error
    message and a redirect to the project page, and the view's handlers are
    never run. *)
Theorem archived_project_keeps_its_users (now : datetime) (pk : Z) (w : World)
  (p : Project) (archived_message : string)
  (get : option (ProjectUsersViews.request -> view response))
  (post_handler : ProjectUsersViews.request -> view response)
  (req : ProjectUsersViews.request) :
  projects w !! pk = Some p ->
  ProjectUsersViews.pk req = pk ->
  ProjectUsersViews.dispatch archived_message get post_handler req
    (post now pk w).1
  = (emit (post now pk w).1 (Message "error" archived_message),
     Returned (Redirect (ProjectDetail pk))).
Proof.
  intros Hp Hpk. destruct (archive_post_run now pk w p Hp) as (t' & Hrun & _).
  rewrite Hrun. cbn [fst].
  unfold ProjectUsersViews.dispatch, vbind at 1, get_world at 1.
  cbn [projects with_allocations emit with_projects].
  rewrite Hpk, lookup_insert_eq.
  by replace (ProjectUtils.project_is_archived (archived p)) with true
    by reflexivity.
Qed.

Lemma archived_project_keeps_its_users_witness :
  ProjectUsersViews.dispatch ProjectUsersViews.remove_archived_message
    None (fun _ => raise "unreachable")
    {| ProjectUsersViews.user := Samples.admin;
       ProjectUsersViews.http_method := POST;
       ProjectUsersViews.pk := 1 |}
    (post Samples.now 1 Samples.world1).1
  = (emit (post Samples.now 1 Samples.world1).1
       (Message "error" "You cannot remove users from an archived project."),
     Returned (Redirect (ProjectDetail 1))).
Proof.
  apply (archived_project_keeps_its_users Samples.now 1 Samples.world1
           Samples.project1);
    reflexivity.
Defined.

Section AllocationUsers.

Context (allocation_has_perm : World -> Z -> User -> string -> bool)
        (get post_handler : AllocationUsersViews.request -> view response).

Local Abbreviation add_dispatch :=
  (AllocationUsersViews.dispatch AllocationUsersViews.add_statuses
     AllocationUsersViews.add_status_message
     AllocationUsersViews.add_permission_message
     allocation_has_perm get post_handler).

Local Abbreviation remove_dispatch :=
  (AllocationUsersViews.dispatch AllocationUsersViews.remove_statuses
     AllocationUsersViews.remove_status_message
     AllocationUsersViews.remove_permission_message
     allocation_has_perm get post_handler).

(** Archiving a project also closes the user lists of the allocations it
    expires: for an allocation of the project that was "Active", both the
    add-users and the remove-users view of the allocation answer every
    request with an error message (the lock message for a locked allocation
    and a user who is not a superuser, the status message otherwise) and a
    redirect to the allocation; their handlers are never run. *)
Theorem archived_allocations_keep_their_users (now : datetime) (pk : Z)
  (w : World) (p : Project) (k : Z) (a : Allocation)
  (req : AllocationUsersViews.request) :
  projects w !! pk = Some p ->
  allocations w !! k = Some a ->
  a_project a = pk ->
  a_status a = "Active" ->
  AllocationUsersViews.pk req = k ->
  add_dispatch req (post now pk w).1
  = (emit (post now pk w).1
       (Message "error"
          (if a_is_locked a && negb (is_superuser (AllocationUsersViews.user req))
           then AllocationUsersViews.locked_message
           else "You cannot add users to an allocation with status Expired.")),
     Returned (Redirect (AllocationDetail k)))
  /\ remove_dispatch req (post now pk w).1
     = (emit (post now pk w).1
          (Message "error"
             (if a_is_locked a
                 && negb (is_superuser (AllocationUsersViews.user req))
              then AllocationUsersViews.locked_message
              else "You cannot remove users from a allocation with status Expired.")),
        Returned (Redirect (AllocationDetail k))).
Proof.
  intros Hp Hk Ha Hs Hreq.
  destruct (archive_post_run now pk w p Hp) as (t' & Hrun & Hlook).
  rewrite Hrun. cbn [fst].
  assert (Hrow : t' !! k = Some (expired a now)).
  { rewrite Hlook, Hk. cbn [fmap option_fmap option_map]. unfold archive_row.
    rewrite Ha, Hs, bool_decide_eq_true_2 by done. reflexivity. }
  split;
    unfold AllocationUsersViews.dispatch, vbind at 1, get_world at 1;
    cbn [allocations with_allocations]; rewrite Hreq, Hrow;
    cbn [a_is_locked a_status expired];
    by destruct (a_is_locked a && negb (is_superuser (AllocationUsersViews.user req))).
Qed.

End AllocationUsers.

Lemma archived_allocations_keep_their_users_witness :
  AllocationUsersViews.dispatch AllocationUsersViews.remove_statuses
    AllocationUsersViews.remove_status_message
    AllocationUsersViews.remove_permission_message
    Samples.allocation_has_perm (fun _ => raise "unreachable")
    (fun _ => raise "unreachable")
    {| AllocationUsersViews.user := Samples.member;
       AllocationUsersViews.http_method := POST;
       AllocationUsersViews.pk := 10 |}
    (post Samples.now 1 Samples.world1).1
  = (emit (post Samples.now 1 Samples.world1).1
       (Message "error"
          "You cannot remove users from a allocation with status Expired."),
     Returned (Redirect (AllocationDetail 10))).
Proof.
  apply (archived_allocations_keep_their_users Samples.allocation_has_perm
           (fun _ => raise "unreachable") (fun _ => raise "unreachable")
           Samples.now 1 Samples.world1 Samples.project1 10
           (Samples.allocation 1 "Active" (Some 738900) (Some 739030)));
    reflexivity.
Defined.

Section Requests.

Context (needs_review : World -> Z -> bool)
        (allocation_has_perm : World -> Z -> User -> string -> bool)
        (get post_handler : AllocationChangeView.request -> view response).

(** No change can be requested for an allocation of an archived project,
    whatever the allocation's status and whoever asks: the change view
    answers with the review message when the project needs a review and
    with the archived-project message otherwise, redirects to the
    allocation and never runs its handlers. *)
Theorem archived_project_takes_no_change_requests (now : datetime) (pk : Z)
  (w : World) (p : Project) (k : Z) (a : Allocation)
  (req : AllocationChangeView.request) :
  projects w !! pk = Some p ->
  allocations w !! k = Some a ->
  a_project a = pk ->
  AllocationChangeView.pk req = k ->
  AllocationChangeView.dispatch needs_review allocation_has_perm get post_handler
    req (post now pk w).1
  = (emit (post now pk w).1
       (Message "error"
          (if needs_review (post now pk w).1 pk
           then AllocationChangeView.review_message
           else AllocationChangeView.archived_message)),
     Returned (Redirect (AllocationDetail k))).
Proof.
  intros Hp Hk Ha Hreq.
  destruct (archive_post_run now pk w p Hp) as (t' & Hrun & Hlook).
  rewrite Hrun. cbn [fst]. set (w' := with_allocations _ _).
  unfold AllocationChangeView.dispatch, vbind at 1, get_world at 1.
  change (allocations w') with t'.
  change (projects w') with (<[pk := archived p]> (projects w)).
  rewrite Hreq, Hlook, Hk. cbn [fmap option_fmap option_map].
  assert (Hproj : a_project (archive_row pk now a) = pk).
  { unfold archive_row. by destruct (_ && _). }
  rewrite Hproj, lookup_insert_eq.
  destruct (needs_review w' pk); [done|].
  by replace (name_in (p_status (archived p)) ["Active"; "New"]) with false
    by reflexivity.
Qed.

End Requests.

Lemma archived_project_takes_no_change_requests_witness :
  AllocationChangeView.dispatch (fun _ _ => false) Samples.allocation_has_perm
    (fun _ => raise "unreachable") (fun _ => raise "unreachable")
    {| AllocationChangeView.user := Samples.member;
       AllocationChangeView.http_method := POST;
       AllocationChangeView.pk := 11 |}
    (post Samples.now 1 Samples.world1).1
  = (emit (post Samples.now 1 Samples.world1).1
       (Message "error"
          "You cannot request a change to an allocation in an archived project."),
     Returned (Redirect (AllocationDetail 11))).
Proof.
  apply (archived_project_takes_no_change_requests (fun _ _ => false)
           Samples.allocation_has_perm
           (fun _ => raise "unreachable") (fun _ => raise "unreachable")
           Samples.now 1 Samples.world1 Samples.project1 11
           (Samples.allocation 1 "New" None None));
    reflexivity.
Defined.

End ArchivedProjectFacts.

(** ** The formset of the add-users view *)

Module AdditionFormsetFacts.

Import BaseAllocationUserFormSet.

Section Formset.

Context (ALLOCATION_EULA_ENABLE : bool)
        (is_pi : Z -> bool) (get_eula : Z -> option string).

Local Abbreviation clean := (clean ALLOCATION_EULA_ENABLE is_pi get_eula).
Local Abbreviation is_valid := (is_valid ALLOCATION_EULA_ENABLE is_pi get_eula).

(** Whether the ADD branch sets the status of a form. *)
Local Abbreviation pending f :=
  (match selected f, user f, allocation f with
   | Some true, Some u, Some a =>
       ALLOCATION_EULA_ENABLE && negb (is_pi u)
       && match get_eula a with Some e => str_truthy e | None => false end
   | _, _, _ => false
   end).

Lemma clean_forms_add (w : World) (forms : list form) :
  Forall (fun f => selected f = Some true ->
                   is_Some (user f) /\ is_Some (allocation f)) forms ->
  clean_forms ALLOCATION_EULA_ENABLE is_pi get_eula w ADD forms
  = Returned ((fun f => if pending f then set_form_status f "PendingEULA" else f)
              <$> forms).
Proof.
  induction 1 as [|f rest Hf _ IH]; [done|].
  cbn [clean_forms fmap list_fmap]. rewrite IH.
  assert (Hone : clean_form ALLOCATION_EULA_ENABLE is_pi get_eula w ADD f
                 = Returned (if pending f then set_form_status f "PendingEULA"
                             else f)).
  { unfold clean_form. destruct (selected f) as [[|]|]; [|done..].
    destruct (Hf eq_refl) as [[u ->] [a ->]].
    destruct ALLOCATION_EULA_ENABLE; [|done]. cbn [negb andb].
    destruct (is_pi u); [done|]. cbn [negb].
    by destruct (match get_eula a with
                 | Some e => str_truthy e | None => false end). }
  by rewrite Hone.
Qed.

(** A formset of the add-users view whose forms have no field errors is
    always valid: nothing in the ADD branch rejects a user, the project's
    PI included. Cleaning changes the status of exactly the selected forms
    whose user must still accept a EULA (EULAs enabled, the user not a PI,
    the allocation with a EULA) to "PendingEULA" and leaves every other
    form as submitted. *)
Theorem add_formset_is_valid (w : World) (forms : list form) :
  existsb has_errors forms = false ->
  Forall (fun f => selected f = Some true ->
                   is_Some (user f) /\ is_Some (allocation f)) forms ->
  is_valid w ADD forms = Returned true
  /\ exists forms',
       clean w ADD forms = Returned forms'
       /\ length forms' = length forms
       /\ forall i f,
            forms !! i = Some f ->
            forms' !! i
            = Some (if pending f then set_form_status f "PendingEULA" else f).
Proof.
  intros Herr Hall.
  pose proof (clean_forms_add w forms Hall) as Hclean.
  split.
  - unfold BaseAllocationUserFormSet.is_valid, non_form_errors,
      BaseAllocationUserFormSet.clean.
    by rewrite Herr, Hclean.
  - eexists. split; [|split].
    + unfold BaseAllocationUserFormSet.clean. rewrite Herr. exact Hclean.
    + by rewrite length_fmap.
    + intros i f Hi. by rewrite list_lookup_fmap, Hi.
Qed.

End Formset.

Lemma add_formset_is_valid_witness :
  is_valid true (fun _ => false) (fun _ => Some "terms of use") Samples.world1
    ADD [Samples.pi_form]
  = Returned true
  /\ clean true (fun _ => false) (fun _ => Some "terms of use") Samples.world1
       ADD [Samples.pi_form]
     = Returned [set_form_status Samples.pi_form "PendingEULA"].
Proof.
  destruct (add_formset_is_valid true (fun _ => false)
              (fun _ => Some "terms of use") Samples.world1 [Samples.pi_form])
    as (Hvalid & forms' & Hclean & _ & _).
  - reflexivity.
  - constructor; [|constructor]. intros _. split; by eexists.
  - split; [exact Hvalid|]. reflexivity.
Defined.

End AdditionFormsetFacts.

(** ** Project codes *)

Module ProjectCodeFacts.

Import ProjectCode.

Lemma string_of_uint_head (d : Decimal.uint) :
  exists c rest,
    NilZero.string_of_uint d = String c rest
    /\ (Ascii.eqb c "+" || Ascii.eqb c "-") = false.
Proof. destruct d; by eexists _, _. Qed.

Lemma str_head (n : Z) :
  0 <= n ->
  exists c rest,
    str n = String c rest /\ (Ascii.eqb c "+" || Ascii.eqb c "-") = false.
Proof.
  intros Hn. unfold str. destruct n as [|p|p]; [| |lia].
  - by eexists _, _.
  - apply string_of_uint_head.
Qed.

Lemma str_nonempty (n : Z) : str n <> EmptyString.
Proof.
  unfold str. destruct (Z.to_int n) as [d|d]; simpl; [|done].
  destruct (string_of_uint_head d) as (c & rest & -> & _). done.
Qed.

Lemma append_empty (a b : string) : (a ++ b = EmptyString)%string -> b = EmptyString.
Proof. destruct a; [done|discriminate]. Qed.

Lemma zfill_nonempty (s : string) (width : Z) :
  s <> EmptyString -> zfill s width <> EmptyString.
Proof.
  intros Hs. unfold zfill.
  destruct (width <=? Z.of_nat (String.length s)); [done|].
  destruct s as [|c rest]; [done|].
  destruct (Ascii.eqb c "+" || Ascii.eqb c "-"); [done|].
  intros Happ. by apply append_empty in Happ.
Qed.

Section Facts.

Context (upper : string -> string)
        (PROJECT_CODE : option string) (PROJECT_CODE_PADDING : option Z).

Local Abbreviation add_project_code_if_missing :=
  (add_project_code_if_missing upper PROJECT_CODE PROJECT_CODE_PADDING).

(** A project code is set at most once: after add_project_code_if_missing
    has run, running it again leaves the project as it is and does not
    save, whatever the settings and whatever code the project had. *)
Theorem project_code_is_set_once (pk : Z) (project_obj : Project) :
  add_project_code_if_missing pk (add_project_code_if_missing pk project_obj).1
  = ((add_project_code_if_missing pk project_obj).1, false).
Proof.
  unfold ProjectCode.add_project_code_if_missing.
  destruct PROJECT_CODE as [code|]; [|done].
  destruct (str_truthy code) eqn:Hcode; [|done]. cbn [andb].
  destruct (String.eqb_spec (project_code project_obj) EmptyString) as [He|Hne].
  - cbn [fst project_code].
    destruct (String.eqb_spec
                (generate_project_code upper code pk
                   match PROJECT_CODE_PADDING with
                   | Some p => if p =? 0 then 0 else p
                   | None => 0
                   end) EmptyString) as [Hgen|Hgen]; [|done].
    exfalso. unfold generate_project_code in Hgen.
    apply append_empty in Hgen. revert Hgen.
    apply zfill_nonempty, str_nonempty.
  - cbn [fst]. by destruct (String.eqb_spec (project_code project_obj) EmptyString).
Qed.

(** For a key that is not negative the generated code is the upper-cased
    prefix followed by the decimal digits of the key, padded on the left
    with zeros up to [padding] digits; a key with more digits than
    [padding] is not cut. *)
Theorem generate_project_code_format (project_code : string) (project_pk : Z)
  (padding : Z) :
  0 <= project_pk ->
  generate_project_code upper project_code project_pk padding
  = (upper project_code
     ++ zeros (Z.to_nat (padding - Z.of_nat (String.length (str project_pk))))
     ++ str project_pk)%string.
Proof.
  intros Hpk. unfold generate_project_code. f_equal. unfold zfill.
  destruct (Z.leb_spec padding (Z.of_nat (String.length (str project_pk))))
    as [Hle|Hgt].
  - replace (Z.to_nat (padding - Z.of_nat (String.length (str project_pk))))
      with 0%nat by lia.
    done.
  - destruct (str_head project_pk Hpk) as (c & rest & Hstr & Hsign).
    rewrite Hstr in *. by rewrite Hsign.
Qed.

End Facts.

Lemma generate_project_code_format_witness :
  generate_project_code (fun s => s) "ICE" 42 5 = "ICE00042".
Proof.
  rewrite (generate_project_code_format (fun s => s) "ICE" 42 5); [|lia].
  reflexivity.
Defined.

End ProjectCodeFacts.

(** ** Who may manage and who may view *)

Module PermissionFacts.

Import ProjectUtils UserManagementFacts.

(** Everyone [user_is_pi_or_manager] accepts, the PI apart, may also view
    the project: a superuser, or a user with an active manager row. (The
    PI is let in by [user_can_view_project] only through an active project
    user row or the view-all permission.) *)
Theorem manager_can_view (user_has_perm : User -> string -> bool) (w : World)
  (user : User) (project_pk : Z) (project_obj : Project) :
  user_is_pi_or_manager w user project_pk project_obj = true ->
  p_pi project_obj <> user_pk user ->
  user_can_view_project user_has_perm w user project_pk = true.
Proof.
  unfold user_is_pi_or_manager, user_can_view_project.
  intros Hm Hpi.
  destruct (is_superuser user); [done|].
  rewrite bool_decide_eq_false_2 in Hm by done.
  destruct (user_has_perm user "project.can_view_all_projects"); [done|].
  destruct (active_manager_rows w project_pk user) as [|[k r] rest] eqn:Hrows;
    [done|].
  assert (Hin : (k, r) ∈ active_manager_rows w project_pk user).
  { rewrite Hrows. apply elem_of_cons. by left. }
  unfold active_manager_rows in Hin.
  apply elem_of_filter_rows in Hin as [Hk HP]. cbn [snd] in HP.
  apply andb_true_iff in HP as [HP Hst]. apply andb_true_iff in HP as [HP _].
  assert (Hact : (k, r) ∈ active_rows w project_pk user).
  { unfold active_rows. apply elem_of_filter_rows. split; [done|].
    cbn [snd]. by rewrite HP, Hst. }
  destruct (active_rows w project_pk user); [by apply elem_of_nil in Hact|done].
Qed.

Lemma manager_can_view_witness :
  user_can_view_project (fun _ _ => false)
    (with_project_users Samples.world1
       (<[2 := {| pu_project := 1; pu_user := 2; pu_role := "Manager";
                  pu_status := "Active" |}]>
          (project_users Samples.world1)))
    Samples.member 1
  = true.
Proof.
  apply (manager_can_view (fun _ _ => false) _ Samples.member 1 Samples.project1);
    [reflexivity | discriminate].
Defined.

End PermissionFacts.

(** ** The general lemmas on concrete inputs *)

Module Instances.

(** An e-mail with two "@" has no domain for the lookup. *)
Lemma no_domain_raises_witness :
  Institution.determine_automated_institution_choice
    {| Institution.pi_email := "pi@physics@example.edu";
       Institution.institution := "Unset" |}
    [("example.edu", "Example University")]
  = Raised "TypeError".
Proof.
  apply InstitutionFacts.no_domain_raises; [reflexivity | discriminate].
Defined.

Lemma nothing_matches_witness :
  Institution.determine_automated_institution_choice
    {| Institution.pi_email := "pi@elsewhere.org";
       Institution.institution := "Unset" |}
    [("example.edu", "Example University"); ("sample.edu", "Sample College")]
  = Returned ("Unset",
              {| Institution.pi_email := "pi@elsewhere.org";
                 Institution.institution := "Unset" |}).
Proof.
  apply (InstitutionFacts.nothing_matches
           {| Institution.pi_email := "pi@elsewhere.org";
              Institution.institution := "Unset" |}
           [("example.edu", "Example University"); ("sample.edu", "Sample College")]
           "elsewhere.org"); [reflexivity|].
  constructor; [reflexivity|]. constructor; [reflexivity|]. constructor.
Defined.

Lemma limit_zero_is_not_checked_witness :
  exists status,
    AllocationForm.clean false [] false "Pending Payment" [] Samples.world1
      {| AllocationForm.project := Some 1;
         AllocationForm.resource :=
           Some (7, {| AllocationForm.name := "cluster";
                       AllocationForm.requires_payment := false;
                       AllocationForm.allocation_limit := Some 0 |});
         AllocationForm.allocation_account := None |}
    = Returned (AllocationForm.Valid status).
Proof.
  apply (AllocationFormFacts.limit_zero_is_not_checked false [] false
           "Pending Payment" [] Samples.world1 _ 7
           {| AllocationForm.name := "cluster";
              AllocationForm.requires_payment := false;
              AllocationForm.allocation_limit := Some 0 |});
    reflexivity.
Defined.

Lemma page_size_zero_raises_witness :
  Pagination.handle_pagination Samples.int_of Samples.shelf (Some "7") 1 0
  = Raised "ZeroDivisionError".
Proof.
  apply (PaginationFacts.page_size_zero_raises Samples.int_of Samples.shelf
           (Some "7") 1 [10; 20; 30]).
  reflexivity.
Defined.

End Instances.
